(** * CosplayRadar: trending scores and series lifecycle

  A shallow embedding of the scoring and lifecycle core of the
  CosplayRadar services, with the properties of its specification
  stated and settled against the code.

  Number model.  Python floats are idealised: code whose arithmetic is
  rational (boost tables, clamps, weighted sums) is embedded over [Q] and
  stays executable; code that calls [math.log10] is embedded over [R].
  Integers are [Z].  Timestamps are counted in microseconds, calendar
  dates in proleptic Gregorian day ordinals, as [datetime] does. *)

From Stdlib Require Import ZArith QArith Qminmax Qround Reals Qreals Psatz Lia.
From Stdlib Require Import List String Ascii Bool Sorted Permutation.
From stdpp Require Import base option gmap strings.
Import ListNotations.

Local Open Scope Z_scope.

(** ** Python built-ins on rationals *)

Module PyQ.

(** [x < y] on floats. *)
Definition ltb (x y : Q) : bool := negb (Qle_bool y x).

(** [x >= y] on floats. *)
Definition geb (x y : Q) : bool := Qle_bool y x.

(** [max(x, y)]: the first argument is kept unless the second is
    strictly greater. *)
Definition max (x y : Q) : Q := if ltb x y then y else x.

(** [min(x, y)]: the first argument is kept unless the second is
    strictly smaller. *)
Definition min (x y : Q) : Q := if ltb y x then y else x.

(** [round(x, ndigits)]: to the nearest multiple of [10^-ndigits], ties to
    the even neighbour. *)
Definition round_half_even (x : Q) : Z :=
  let f := Qfloor x in
  match Qcompare (x - inject_Z f) (1 # 2) with
  | Lt => f
  | Gt => f + 1
  | Eq => if Z.even f then f else f + 1
  end.

Definition round (x : Q) (ndigits : nat) : Q :=
  let scale := inject_Z (10 ^ Z.of_nat ndigits) in
  (inject_Z (round_half_even (x * scale)) / scale)%Q.

End PyQ.

(** ** Python strings (ASCII) *)

Module PyStr.

(** [c.lower()] for one ASCII character. *)
Definition lower_ascii (c : ascii) : ascii :=
  let n := nat_of_ascii c in
  if ((65 <=? n)%nat && (n <=? 90)%nat)%bool then ascii_of_nat (n + 32) else c.

(** [s.lower()]. *)
Fixpoint lower (s : string) : string :=
  match s with
  | EmptyString => EmptyString
  | String c s' => String (lower_ascii c) (lower s')
  end.

(** [k in s]: [k] occurs in [s] as a contiguous substring. *)
Fixpoint contains (k s : string) : bool :=
  String.prefix k s ||
  match s with
  | EmptyString => false
  | String _ s' => contains k s'
  end.

(** Truth value of an optional string: [None] and [""] are falsy. *)
Definition truthy (s : option string) : bool :=
  match s with
  | Some (String _ _) => true
  | _ => false
  end.

(** [c.isupper()] for one ASCII character. *)
Definition is_upper (c : ascii) : bool :=
  let n := nat_of_ascii c in
  ((65 <=? n)%nat && (n <=? 90)%nat)%bool.

(** Some character of [s] is an upper-case ASCII letter. *)
Fixpoint has_upper (s : string) : bool :=
  match s with
  | EmptyString => false
  | String c s' => is_upper c || has_upper s'
  end.

End PyStr.

(** ** [trending_config.py]: the centralised boost configuration *)

Module TrendingConfig.

(** One entry of [popularity_boosts.tiers]. *)
Record PopularityTier := {
  pt_min_favourites : Z;
  pt_boost : Q
}.

(** One entry of [recency_boosts.tiers]. *)
Record RecencyTier := {
  rt_max_years_ago : Z;
  rt_boost : Q
}.

(** One entry of [series_keywords_boosts.trending_keywords]. *)
Record KeywordGroup := {
  kg_keywords : list string;
  kg_boost : Q
}.

(** The loaded JSON document [self._config], with the keys the boost
    methods read, every one present.  [gender_boosts] holds the numeric
    entries of its table (not the documentation entries ["description"]
    and ["rationale"]).  The tables of [status_boosts], [format_boosts]
    and [role_boosts] map a name to an object whose ["boost"] entry may
    be absent. *)
Record t := {
  favourites_divisor : Q;
  min_favourites : Z;
  gender_boosts : gmap string Q;
  popularity_tiers : list PopularityTier;
  status_boosts : gmap string (option Q);
  recency_current_year : Z;
  recency_tiers : list RecencyTier;
  format_boosts : gmap string (option Q);
  role_boosts : gmap string (option Q);
  trending_keywords : list KeywordGroup;
  default_boost : Q;
  max_total_multiplier : Q;
  min_total_multiplier : Q
}.

(** [table.get(key, {}).get("boost", 1.0)]. *)
Definition boost_of (table : gmap string (option Q)) (key : string) : Q :=
  match table !! key with
  | Some (Some b) => b
  | _ => 1
  end.

Definition get_gender_boost (c : t) (gender : option string) : Q :=
  let gender_key :=
    match gender with
    | Some g => if PyStr.truthy gender then g else "null"%string
    | None => "null"%string
    end in
  default 1%Q (gender_boosts c !! gender_key).

(** [sorted(tiers, key=lambda x: x["min_favourites"], reverse=True)]:
    a stable sort, highest threshold first. *)
Fixpoint insert_tier (x : PopularityTier) (l : list PopularityTier)
  : list PopularityTier :=
  match l with
  | [] => [x]
  | y :: l' =>
      if pt_min_favourites x <? pt_min_favourites y
      then y :: insert_tier x l'
      else x :: l
  end.


Definition sorted_tiers (tiers : list PopularityTier) : list PopularityTier :=
  foldr insert_tier [] tiers.

Fixpoint first_popularity_tier (favourites : Z) (tiers : list PopularityTier)
  : Q :=
  match tiers with
  | [] => 1
  | tier :: rest =>
      if favourites >=? pt_min_favourites tier then pt_boost tier
      else first_popularity_tier favourites rest
  end.

Definition get_popularity_boost (c : t) (favourites : Z) : Q :=
  first_popularity_tier favourites (sorted_tiers (popularity_tiers c)).

Definition get_status_boost (c : t) (status : string) : Q :=
  boost_of (status_boosts c) status.

Fixpoint first_recency_tier (years_ago : Z) (tiers : list RecencyTier) : Q :=
  match tiers with
  | [] => 1
  | tier :: rest =>
      if years_ago <=? rt_max_years_ago tier then rt_boost tier
      else first_recency_tier years_ago rest
  end.

(** [season_year] is falsy when it is [None] or [0]. *)
Definition get_recency_boost (c : t) (season_year : option Z) : Q :=
  match season_year with
  | None => 1
  | Some y =>
      if y =? 0 then 1
      else first_recency_tier (recency_current_year c - y) (recency_tiers c)
  end.

Definition get_format_boost (c : t) (format : string) : Q :=
  boost_of (format_boosts c) format.

Definition get_role_boost (c : t) (role : string) : Q :=
  boost_of (role_boosts c) role.

Fixpoint first_keyword_group (series_lower : string) (groups : list KeywordGroup)
  (fallback : Q) : Q :=
  match groups with
  | [] => fallback
  | g :: rest =>
      if existsb (fun keyword => PyStr.contains keyword series_lower)
           (kg_keywords g)
      then kg_boost g
      else first_keyword_group series_lower rest fallback
  end.

Definition get_series_keywords_boost (c : t) (series_name : option string) : Q :=
  match series_name with
  | Some s =>
      if PyStr.truthy series_name
      then first_keyword_group (PyStr.lower s) (trending_keywords c)
             (default_boost c)
      else 1
  | None => 1
  end.

(** The keyword arguments shared by [calculate_total_multiplier] and
    [get_boost_breakdown]. *)
Record BoostParams := {
  gender : option string;
  favourites : Z;
  status : option string;
  season_year : option Z;
  format : option string;
  role : option string;
  series_name : option string
}.

(** [f(x) if x else 1.0] for an optional string argument. *)
Definition if_given (f : string -> Q) (x : option string) : Q :=
  match x with
  | Some s => if PyStr.truthy x then f s else 1
  | None => 1
  end.

(** The product [total] computed before the limits are applied. *)
Definition raw_multiplier (c : t) (p : BoostParams) : Q :=
  let gender_boost := get_gender_boost c (gender p) in
  let popularity_boost := get_popularity_boost c (favourites p) in
  let status_boost := if_given (get_status_boost c) (status p) in
  let recency_boost := get_recency_boost c (season_year p) in
  let format_boost := if_given (get_format_boost c) (format p) in
  let role_boost := if_given (get_role_boost c) (role p) in
  let keywords_boost := get_series_keywords_boost c (series_name p) in
  (gender_boost * popularity_boost * status_boost *
   recency_boost * format_boost * role_boost * keywords_boost)%Q.

Definition calculate_total_multiplier (c : t) (p : BoostParams) : Q :=
  let total := raw_multiplier c p in
  PyQ.max (min_total_multiplier c) (PyQ.min total (max_total_multiplier c)).

(** The dictionary returned by [get_boost_breakdown]. *)
Record Breakdown := {
  gender_boost : Q;
  popularity_boost : Q;
  status_boost : Q;
  recency_boost : Q;
  format_boost : Q;
  role_boost : Q;
  keywords_boost : Q;
  raw_total : Q;
  capped_total : Q
}.

Definition get_boost_breakdown (c : t) (p : BoostParams) : Breakdown :=
  let g := get_gender_boost c (gender p) in
  let pop := get_popularity_boost c (favourites p) in
  let st := if_given (get_status_boost c) (status p) in
  let rec := get_recency_boost c (season_year p) in
  let fmt := if_given (get_format_boost c) (format p) in
  let ro := if_given (get_role_boost c) (role p) in
  let kw := get_series_keywords_boost c (series_name p) in
  let raw := fold_left Qmult [g; pop; st; rec; fmt; ro; kw] 1%Q in
  {| gender_boost := g;
     popularity_boost := pop;
     status_boost := st;
     recency_boost := rec;
     format_boost := fmt;
     role_boost := ro;
     keywords_boost := kw;
     raw_total := raw;
     capped_total :=
       PyQ.max (min_total_multiplier c) (PyQ.min raw (max_total_multiplier c)) |}.

End TrendingConfig.

(** ** Python exceptions *)

Module Py.

Inductive exn :=
| KeyError
| TypeError
| AttributeError
| ValueError
| OSError
| JSONDecodeError
| ZeroDivisionError.

(** The outcome of a call: a value, or a raised exception. *)
Inductive outcome (A : Type) :=
| Returned (a : A)
| Raised (e : exn).

Arguments Returned {A} a.
Arguments Raised {A} e.

Definition bind {A B} (m : outcome A) (k : A -> outcome B) : outcome B :=
  match m with
  | Returned a => k a
  | Raised e => Raised e
  end.

(** [try: body / except Exception: handler]. *)
Definition try_except {A} (body : outcome A) (handler : exn -> outcome A)
  : outcome A :=
  match body with
  | Returned a => Returned a
  | Raised e => handler e
  end.

End Py.

Notation "'do' x <- m ; k" := (Py.bind m (fun x => k))
  (at level 10, x name, m at level 100, k at level 200).

(** ** JSON documents and Python dictionaries *)

Module Json.

#[local] Unset Elimination Schemes.

Inductive t :=
| JNull
| JBool (b : bool)
| JNum (q : Q)
| JStr (s : string)
| JArr (items : list t)
| JObj (fields : list (string * t)).

#[local] Set Elimination Schemes.

(** A [dict] with string keys, in insertion order. *)
Definition dict := list (string * t).

(** [d.get(key)]. *)
Fixpoint dict_get (key : string) (d : dict) : option t :=
  match d with
  | [] => None
  | (k, v) :: rest => if String.eqb k key then Some v else dict_get key rest
  end.

(** [d[key] = value]: an existing key keeps its position, a new key goes
    last. *)
Fixpoint dict_set (key : string) (value : t) (d : dict) : dict :=
  match d with
  | [] => [(key, value)]
  | (k, v) :: rest =>
      if String.eqb k key then (k, value) :: rest
      else (k, v) :: dict_set key value rest
  end.

(** [j[key]] on a value expected to be a dictionary. *)
Definition item (j : t) (key : string) : Py.outcome t :=
  match j with
  | JObj d =>
      match dict_get key d with
      | Some v => Py.Returned v
      | None => Py.Raised Py.KeyError
      end
  | _ => Py.Raised Py.TypeError
  end.

(** A value used as a number in arithmetic or in a comparison with a
    float; [True] and [False] count as 1 and 0. *)
Definition number (j : t) : Py.outcome Q :=
  match j with
  | JNum q => Py.Returned q
  | JBool b => Py.Returned (if b then 1%Q else 0%Q)
  | _ => Py.Raised Py.TypeError
  end.

(** [config[k1][k2]...] read as a number. *)
Fixpoint number_at (j : t) (path : list string) : Py.outcome Q :=
  match path with
  | [] => number j
  | k :: rest => do v <- item j k; number_at v rest
  end.

(** [j[k1][k2]...] when every key on the way is present. *)
Fixpoint get_path (path : list string) (j : t) : option t :=
  match path with
  | [] => Some j
  | k :: rest =>
      match j with
      | JObj d =>
          match dict_get k d with
          | Some v => get_path rest v
          | None => None
          end
      | _ => None
      end
  end.

(** The key path is missing from [j]: the dictionaries on the way are
    there up to one that lacks the next key. *)
Fixpoint absent (path : list string) (j : t) : Prop :=
  match path, j with
  | k :: rest, JObj d =>
      match dict_get k d with
      | None => True
      | Some v => absent rest v
      end
  | _, _ => False
  end.

(** No key occurs twice among [keys]. *)
Fixpoint distinct (keys : list string) : bool :=
  match keys with
  | [] => true
  | k :: rest => negb (existsb (String.eqb k) rest) && distinct rest
  end.

(** Every dictionary of the document has distinct keys, as in a parsed
    JSON document. *)
Fixpoint unique_keys (j : t) : bool :=
  match j with
  | JObj d =>
      distinct (map fst d) &&
      (fix all (d : list (string * t)) : bool :=
         match d with
         | [] => true
         | (_, v) :: rest => unique_keys v && all rest
         end) d
  | JArr items =>
      (fix all (items : list t) : bool :=
         match items with
         | [] => true
         | v :: rest => unique_keys v && all rest
         end) items
  | _ => true
  end.

(** [isinstance(j, dict)]. *)
Definition is_object (j : t) : bool :=
  match j with
  | JObj _ => true
  | _ => false
  end.

End Json.

(** ** [rules_manager.py]: lifecycle rules *)

Module LifecycleRulesManager.

Import Json.

(** The class attribute [DEFAULT_CONFIG]. *)
Definition DEFAULT_CONFIG : dict :=
  [ ("periods"%string, JObj
      [ ("grace_period_days"%string, JNum 42);
        ("extended_grace_days"%string, JNum 28);
        ("cleanup_days"%string, JNum 90) ]);
    ("thresholds"%string, JObj
      [ ("keep_active"%string, JObj
          [ ("min_composite_score"%string, JNum 50);
            ("min_popularity"%string, JNum 30);
            ("min_favourites"%string, JNum 100);
            ("min_character_trending"%string, JNum 70) ]);
        ("extend_grace"%string, JObj
          [ ("min_composite_score_ratio"%string, JNum (7 # 10)) ]) ]);
    ("scoring"%string, JObj
      [ ("weights"%string, JObj
          [ ("popularity"%string, JNum (3 # 10));
            ("favourites"%string, JNum (2 # 10));
            ("trending"%string, JNum (2 # 10));
            ("character_count_multiplier"%string, JNum 5);
            ("avg_character_trending"%string, JNum (2 # 10));
            ("max_character_trending"%string, JNum (1 # 10)) ]);
        ("bonus_conditions"%string, JObj
          [ ("high_character_engagement"%string, JObj
              [ ("bonus_multiplier"%string, JNum (12 # 10)) ]);
            ("seasonal_relevance"%string, JObj
              [ ("bonus_multiplier"%string, JNum (11 # 10)) ]) ]) ]) ].

(** The inner function [deep_merge(default_dict, config_dict)] of
    [_merge_with_default].  It updates [default_dict] in place; the
    embedding returns the updated dictionary.  The first argument is the
    configuration object whose [items()] are traversed. *)
Fixpoint deep_merge (config : Json.t) (default_dict : dict) {struct config}
  : dict :=
  match config with
  | JObj config_dict =>
      (fix items (config_dict : list (string * Json.t)) (default_dict : dict)
         {struct config_dict} : dict :=
         match config_dict with
         | [] => default_dict
         | (key, value) :: rest =>
             let updated :=
               match dict_get key default_dict, value with
               | Some (JObj nested), JObj _ =>
                   dict_set key (JObj (deep_merge value nested)) default_dict
               | _, _ => dict_set key value default_dict
               end in
             items rest updated
         end) config_dict default_dict
  | _ => default_dict
  end.

(** What one step of [deep_merge] stores under a key of the
    configuration. *)
Definition merge_value (current : option Json.t) (value : Json.t) : Json.t :=
  match current, value with
  | Some (JObj nested), JObj _ => JObj (deep_merge value nested)
  | _, _ => value
  end.

(** What a call of [_merge_with_default] leaves in the class attribute.
    [merged = self.DEFAULT_CONFIG.copy()] is a shallow copy: assignments at
    the top level touch the copy only, while a nested dictionary that
    [deep_merge] descends into is the very object held by [DEFAULT_CONFIG]
    and is updated for both. *)
Fixpoint shared_after (defaults merged : dict) (config_dict : dict) : dict :=
  match defaults with
  | [] => []
  | (k, v) :: rest =>
      let v' :=
        match v, dict_get k config_dict, dict_get k merged with
        | JObj _, Some (JObj _), Some m => m
        | _, _, _ => v
        end in
      (k, v') :: shared_after rest merged config_dict
  end.

(** [_merge_with_default(config)] run with the class attribute in state
    [defaults]: the merged configuration and the new state of the class
    attribute.  A [config] that is not a dictionary has no [items()]. *)
Definition _merge_with_default (defaults : dict) (config : Json.t)
  : Py.outcome (dict * dict) :=
  match config with
  | JObj config_dict =>
      let merged := deep_merge config defaults in
      Py.Returned (merged, shared_after defaults merged config_dict)
  | _ => Py.Raised Py.AttributeError
  end.

(** What the file system holds at [config_path]. *)
Inductive file_state :=
| FileMissing
| FileUnreadable (e : Py.exn)
| FileJson (document : Json.t).

(** [_load_config()], with the file at [config_path] given by [file] and
    the class attribute in state [defaults]. *)
Definition _load_config (config_path : option string) (file : file_state)
  (defaults : dict) : Py.outcome (dict * dict) :=
  if negb (PyStr.truthy config_path) then Py.Returned (defaults, defaults)
  else
    Py.try_except
      (match file with
       | FileJson config => _merge_with_default defaults config
       | FileUnreadable e => Py.Raised e
       | FileMissing => Py.Returned (defaults, defaults)
       end)
      (fun _ => Py.Returned (defaults, defaults)).

(** The instance state set up by [__init__]: the path and the
    configuration as it is when loaded. *)
Record t := {
  config_path : option string;
  config : dict
}.

(** [LifecycleRulesManager(config_path)]: the new manager and the state of
    the class attribute afterwards. *)
Definition init (path : option string) (file : file_state) (defaults : dict)
  : Py.outcome (t * dict) :=
  do r <- _load_config path file defaults;
  Py.Returned ({| config_path := path; config := fst r |}, snd r).

Definition get_grace_period_days (m : t) : Py.outcome Q :=
  number_at (JObj (config m)) ["periods"%string; "grace_period_days"%string].

Definition get_extended_grace_days (m : t) : Py.outcome Q :=
  number_at (JObj (config m)) ["periods"%string; "extended_grace_days"%string].

Definition get_cleanup_days (m : t) : Py.outcome Q :=
  number_at (JObj (config m)) ["periods"%string; "cleanup_days"%string].

Definition get_thresholds (m : t) : Py.outcome Json.t :=
  item (JObj (config m)) "thresholds".

Definition get_scoring_weights (m : t) : Py.outcome Json.t :=
  do scoring <- item (JObj (config m)) "scoring";
  item scoring "weights".

Definition get_bonus_conditions (m : t) : Py.outcome Json.t :=
  do scoring <- item (JObj (config m)) "scoring";
  item scoring "bonus_conditions".

End LifecycleRulesManager.

(** ** [decision_maker.py]: the lifecycle decision *)

Module LifecycleDecisionMaker.

Import Json.

(** The value under ['start_date'] in a series dictionary: absent or
    [None], a [date] (as a day ordinal), or a string together with what
    [datetime.fromisoformat] makes of it ([None] when it raises). *)
Inductive start_date_value :=
| NoStartDate
| StartDate (day : Z)
| StartText (parsed : option Z).

(** A series dictionary, as the repository returns it, with the keys the
    decision maker reads.  A missing key and a [None] value are both
    [None]. *)
Record series := {
  popularity : option Q;
  favourites : option Q;
  trending : option Q;
  character_count : option Z;
  avg_character_trending : option Q;
  max_character_trending : option Q;
  start_date : start_date_value
}.

(** [float(series.get(key, 0) or 0)]. *)
Definition float_or_0 (x : option Q) : Q := default 0%Q x.

(** [int(series.get(key, 0) or 0)]. *)
Definition int_or_0 (x : option Z) : Z := default 0 x.

Inductive action :=
| KEEP_ACTIVE
| EXTEND_GRACE
| ARCHIVE.

(** The dictionary returned by [_evaluate_decision].  The ['reason'] is
    kept as its fixed leading text; the numbers formatted into it are left
    out. *)
Record decision := {
  decision_action : action;
  decision_reason : string;
  decision_factors : list (string * bool)
}.

(** [_is_current_season(series)], with [today] for
    [datetime.now().date()]. *)
Definition _is_current_season (today : Z) (s : series) : bool :=
  match start_date s with
  | NoStartDate => false
  | StartDate d => d >=? today - 90
  | StartText None => false
  | StartText (Some d) => d >=? today - 90
  end.

(** [bonus_conditions.get(name, {}).get('bonus_multiplier', fallback)]. *)
Definition bonus_multiplier (bonus_conditions : Json.t) (name : string)
  (fallback : Q) : Py.outcome Q :=
  match bonus_conditions with
  | JObj d =>
      match dict_get name d with
      | None => Py.Returned fallback
      | Some (JObj e) =>
          match dict_get "bonus_multiplier" e with
          | None => Py.Returned fallback
          | Some v => number v
          end
      | Some _ => Py.Raised Py.AttributeError
      end
  | _ => Py.Raised Py.AttributeError
  end.

Definition _apply_bonus_conditions (rules : LifecycleRulesManager.t)
  (today : Z) (s : series) (base_score : Q) : Py.outcome Q :=
  do bonus_conditions <- LifecycleRulesManager.get_bonus_conditions rules;
  let final_score := base_score in
  let max_char_trending := float_or_0 (max_character_trending s) in
  do final_score <-
    (if PyQ.geb max_char_trending 80
     then do b <- bonus_multiplier bonus_conditions
                    "high_character_engagement" (12 # 10);
          Py.Returned (final_score * b)%Q
     else Py.Returned final_score);
  if _is_current_season today s
  then do b <- bonus_multiplier bonus_conditions "seasonal_relevance" (11 # 10);
       Py.Returned (final_score * b)%Q
  else Py.Returned final_score.

Definition _calculate_composite_score (rules : LifecycleRulesManager.t)
  (today : Z) (s : series) : Py.outcome Q :=
  let popularity := float_or_0 (popularity s) in
  let favourites := float_or_0 (favourites s) in
  let trending := float_or_0 (trending s) in
  let character_count := int_or_0 (character_count s) in
  let avg_char_trending := float_or_0 (avg_character_trending s) in
  let max_char_trending := float_or_0 (max_character_trending s) in
  do weights <- LifecycleRulesManager.get_scoring_weights rules;
  do w_popularity <- number_at weights ["popularity"%string];
  do w_favourites <- number_at weights ["favourites"%string];
  do w_trending <- number_at weights ["trending"%string];
  do w_count <- number_at weights ["character_count_multiplier"%string];
  do w_avg <- number_at weights ["avg_character_trending"%string];
  do w_max <- number_at weights ["max_character_trending"%string];
  let score :=
    ((popularity * w_popularity) +
     (favourites * w_favourites) +
     (trending * w_trending) +
     (inject_Z character_count * w_count) +
     (avg_char_trending * w_avg) +
     (max_char_trending * w_max))%Q in
  do score <- _apply_bonus_conditions rules today s score;
  Py.Returned (PyQ.round score 2).

(** [_evaluate_decision(series, composite_score, thresholds)].  The
    thresholds are converted to numbers where the code reads them; the
    ratio of the second rule is read only when the first rule fails. *)
Definition _evaluate_decision (s : series) (composite_score : Q)
  (thresholds : Json.t) : Py.outcome decision :=
  let popularity := float_or_0 (popularity s) in
  let favourites := float_or_0 (favourites s) in
  let trending := float_or_0 (trending s) in
  let max_char_trending := float_or_0 (max_character_trending s) in
  let character_count := int_or_0 (character_count s) in
  do keep_active_threshold <-
    number_at thresholds ["keep_active"%string; "min_composite_score"%string];
  do min_popularity <-
    number_at thresholds ["keep_active"%string; "min_popularity"%string];
  do min_favourites <-
    number_at thresholds ["keep_active"%string; "min_favourites"%string];
  do min_char_trending <-
    number_at thresholds ["keep_active"%string; "min_character_trending"%string];
  if (PyQ.geb composite_score keep_active_threshold &&
      (PyQ.geb popularity min_popularity ||
       PyQ.geb favourites min_favourites ||
       PyQ.geb max_char_trending min_char_trending))%bool
  then
    Py.Returned
      {| decision_action := KEEP_ACTIVE;
         decision_reason := "Alta performance";
         decision_factors :=
           [ ("high_composite_score"%string,
               PyQ.geb composite_score keep_active_threshold);
             ("sufficient_popularity"%string,
               PyQ.geb popularity min_popularity);
             ("sufficient_favourites"%string,
               PyQ.geb favourites min_favourites);
             ("high_character_trending"%string,
               PyQ.geb max_char_trending min_char_trending) ] |}
  else
    do extend_grace_ratio <-
      number_at thresholds
        ["extend_grace"%string; "min_composite_score_ratio"%string];
    let min_score_for_grace := (keep_active_threshold * extend_grace_ratio)%Q in
    if (PyQ.geb composite_score min_score_for_grace &&
        (PyQ.ltb 0 popularity || PyQ.ltb 0 trending ||
         (0 <? character_count) || PyQ.ltb 0 max_char_trending))%bool
    then
      Py.Returned
        {| decision_action := EXTEND_GRACE;
           decision_reason := "Performance moderata, estendo grazia";
           decision_factors :=
             [ ("moderate_score"%string,
                 PyQ.geb composite_score min_score_for_grace);
               ("has_activity"%string,
                 (PyQ.ltb 0 popularity || PyQ.ltb 0 trending ||
                  (0 <? character_count))%bool) ] |}
    else
      Py.Returned
        {| decision_action := ARCHIVE;
           decision_reason := "Performance insufficiente";
           decision_factors :=
             [ ("low_composite_score"%string,
                 PyQ.ltb composite_score min_score_for_grace);
               ("insufficient_activity"%string,
                 (Qeq_bool popularity 0 && Qeq_bool trending 0 &&
                  (character_count =? 0))%bool) ] |}.

(** The dictionary returned by [make_lifecycle_decision] (without the
    echoed metrics). *)
Record verdict := {
  verdict_action : action;
  verdict_reason : string;
  composite_score : Q;
  verdict_factors : list (string * bool)
}.

Definition make_lifecycle_decision (rules : LifecycleRulesManager.t)
  (today : Z) (s : series) : Py.outcome verdict :=
  do composite_score <- _calculate_composite_score rules today s;
  do thresholds <- LifecycleRulesManager.get_thresholds rules;
  do d <- _evaluate_decision s composite_score thresholds;
  Py.Returned
    {| verdict_action := decision_action d;
       verdict_reason := decision_reason d;
       composite_score := composite_score;
       verdict_factors := decision_factors d |}.

(** The numbers [_evaluate_decision] reads from [thresholds]. *)
Record threshold_values := {
  keep_active_threshold : Q;
  min_popularity : Q;
  min_favourites : Q;
  min_char_trending : Q;
  extend_grace_ratio : Q
}.

(** [thresholds] holds the numbers [v] under the keys the code reads. *)
Definition thresholds_read (thresholds : Json.t) (v : threshold_values) : Prop :=
  number_at thresholds ["keep_active"%string; "min_composite_score"%string]
    = Py.Returned (keep_active_threshold v) /\
  number_at thresholds ["keep_active"%string; "min_popularity"%string]
    = Py.Returned (min_popularity v) /\
  number_at thresholds ["keep_active"%string; "min_favourites"%string]
    = Py.Returned (min_favourites v) /\
  number_at thresholds ["keep_active"%string; "min_character_trending"%string]
    = Py.Returned (min_char_trending v) /\
  number_at thresholds
    ["extend_grace"%string; "min_composite_score_ratio"%string]
    = Py.Returned (extend_grace_ratio v).

End LifecycleDecisionMaker.

(** ** [lifecycle_repository.py]: the [anilist_media] table *)

Module LifecycleRepository.

Inductive LifecycleStage :=
| UPCOMING
| GRACE_PERIOD
| EXTENDED_GRACE
| ACTIVE_TRACKING
| ARCHIVED
| READY_FOR_DELETION.

(** [stage.value]. *)
Definition value (stage : LifecycleStage) : string :=
  match stage with
  | UPCOMING => "upcoming"
  | GRACE_PERIOD => "grace_period"
  | EXTENDED_GRACE => "extended_grace"
  | ACTIVE_TRACKING => "active_tracking"
  | ARCHIVED => "archived"
  | READY_FOR_DELETION => "ready_for_deletion"
  end.

(** A row of [anilist_media] with the lifecycle columns.  Timestamps are
    microseconds on the database clock; [lifecycle_stage] is a
    [VARCHAR].  [metrics] carries the columns the decision maker reads,
    the aggregates of the [LEFT JOIN] on [characters] included. *)
Record row := {
  id : Z;
  title : string;
  lifecycle_stage : string;
  grace_period_start : option Z;
  archived_at : option Z;
  evaluation_score : option Q;
  last_evaluation_at : option Z;
  lifecycle_notes : option string;
  metrics : LifecycleDecisionMaker.series
}.

(** One day as an [INTERVAL], in microseconds. *)
Definition day_us : Z := 86400 * 1000000.






(** The [stage] argument of [update_series_lifecycle_stage] is any Enum
    member: the code reads its [.value] and compares the member itself
    with members of this module's [LifecycleStage].  A member of another
    Enum class, such as the [LifecycleStage] that [lifecycle_engine.py]
    declares for itself, has a value but is equal to no member of this
    class. *)
Inductive stage_argument :=
| OwnMember (stage : LifecycleStage)
| ForeignMember (member_value : string).

(** [stage.value]. *)
Definition stage_value (stage : stage_argument) : string :=
  match stage with
  | OwnMember member => value member
  | ForeignMember member_value => member_value
  end.

(** [stage == LifecycleStage.<member>]: members of an [Enum] are equal
    only to themselves. *)
Definition stage_eqb (stage : stage_argument) (member : LifecycleStage) : bool :=
  match stage, member with
  | OwnMember UPCOMING, UPCOMING
  | OwnMember GRACE_PERIOD, GRACE_PERIOD
  | OwnMember EXTENDED_GRACE, EXTENDED_GRACE
  | OwnMember ACTIVE_TRACKING, ACTIVE_TRACKING
  | OwnMember ARCHIVED, ARCHIVED
  | OwnMember READY_FOR_DELETION, READY_FOR_DELETION => true
  | _, _ => false
  end.

(** The [UPDATE ... WHERE id = $1] of [update_series_lifecycle_stage] on
    one row.  The clauses for the timestamps are added by the chain
    [if stage == LifecycleStage.GRACE_PERIOD / elif ... EXTENDED_GRACE /
     elif ... ARCHIVED]. *)
Definition update_row (now : Z) (stage : stage_argument)
  (score : option Q) (notes : option string) (r : row) : row :=
  {| id := id r;
     title := title r;
     lifecycle_stage := stage_value stage;
     grace_period_start :=
       if stage_eqb stage GRACE_PERIOD then Some now
       else if stage_eqb stage EXTENDED_GRACE then Some now
       else grace_period_start r;
     archived_at :=
       if stage_eqb stage GRACE_PERIOD then archived_at r
       else if stage_eqb stage EXTENDED_GRACE then archived_at r
       else if stage_eqb stage ARCHIVED then Some now
       else archived_at r;
     evaluation_score :=
       match score with
       | Some v => Some v
       | None => evaluation_score r
       end;
     last_evaluation_at := Some now;
     lifecycle_notes :=
       if PyStr.truthy notes then notes else lifecycle_notes r;
     metrics := metrics r |}.

Definition update_series_lifecycle_stage (table : list row) (now : Z)
  (series_id : Z) (stage : stage_argument) (score : option Q)
  (notes : option string) : list row :=
  map (fun r => if id r =? series_id
                then update_row now stage score notes r else r) table.

(** What [update_series_lifecycle_stage] returns: the [RETURNING] row of
    the update, or [None] when no row has the id. *)
Definition updated_row (table : list row) (now : Z) (series_id : Z)
  (stage : stage_argument) (score : option Q) (notes : option string)
  : option row :=
  match List.filter (fun r => id r =? series_id) table with
  | r :: _ => Some (update_row now stage score notes r)
  | [] => None
  end.

(** A value in a fetched record. *)
Inductive sql_value :=
| Null
| Number (z : Z)
| Text (s : string)
| Timestamp (us : Z)
| Date (day : Z).

(** [dict(row)] for a fetched row: the selected columns, by name. *)
Definition record := list (string * sql_value).

(** [r.get(key)]. *)
Fixpoint record_get (key : string) (r : record) : option sql_value :=
  match r with
  | [] => None
  | (k, v) :: rest => if String.eqb k key then Some v else record_get key rest
  end.

(** [r[key]]. *)
Definition record_item (r : record) (key : string) : Py.outcome sql_value :=
  match record_get key r with
  | Some v => Py.Returned v
  | None => Py.Raised Py.KeyError
  end.

(** The truth value of a fetched value in Python. *)
Definition sql_truthy (v : sql_value) : bool :=
  match v with
  | Null => false
  | Number z => negb (z =? 0)
  | Text s => PyStr.truthy (Some s)
  | Timestamp _ | Date _ => true
  end.

(** A row of [anilist_media]: the lifecycle columns and the other columns
    that the status update names. *)
Record media_row := {
  lifecycle : row;
  anilist_id : Z;
  status : option string;
  start_date : option Z;
  created_at : option Z;
  updated_at : option Z
}.

Definition nullable {A} (make : A -> sql_value) (x : option A) : sql_value :=
  match x with
  | Some v => make v
  | None => Null
  end.

(** The [SELECT] list of [get_series_requiring_status_update]:
    [id, anilist_id, title, status, created_at, updated_at,
     lifecycle_stage]. *)
Definition status_update_record (m : media_row) : record :=
  [ ("id"%string, Number (id (lifecycle m)));
    ("anilist_id"%string, Number (anilist_id m));
    ("title"%string, Text (title (lifecycle m)));
    ("status"%string, nullable Text (status m));
    ("created_at"%string, nullable Timestamp (created_at m));
    ("updated_at"%string, nullable Timestamp (updated_at m));
    ("lifecycle_stage"%string, Text (lifecycle_stage (lifecycle m))) ].

(** ['1970-01-01'::timestamp] on the database clock. *)
Definition epoch_us : Z := 719163 * day_us.

(** The [WHERE] clause of [get_series_requiring_status_update] at
    database time [now].  A comparison with [NULL] is not true. *)
Definition requires_status_update (now : Z) (m : media_row) : bool :=
  (match status m with
   | Some s => String.eqb s "NOT_YET_RELEASED"
   | None => false
   end && String.eqb (lifecycle_stage (lifecycle m)) "upcoming") ||
  match last_evaluation_at (lifecycle m) with
  | None => true
  | Some evaluated => evaluated <? now - 7 * day_us
  end ||
  (String.eqb (lifecycle_stage (lifecycle m)) "grace_period" ||
   String.eqb (lifecycle_stage (lifecycle m)) "extended_grace").

(** [ORDER BY COALESCE(last_evaluation_at, '1970-01-01'::timestamp) ASC]. *)
Definition evaluated_before (m1 m2 : media_row) : bool :=
  default epoch_us (last_evaluation_at (lifecycle m1))
  <? default epoch_us (last_evaluation_at (lifecycle m2)).

Fixpoint insert_by_evaluation (m : media_row) (sorted : list media_row)
  : list media_row :=
  match sorted with
  | [] => [m]
  | m' :: rest =>
      if evaluated_before m' m then m' :: insert_by_evaluation m rest
      else m :: sorted
  end.

Definition order_by_evaluation (rows : list media_row) : list media_row :=
  foldr insert_by_evaluation [] rows.

(** [get_series_requiring_status_update(limit)]. *)
Definition get_series_requiring_status_update (table : list media_row)
  (now : Z) (limit : nat) : list record :=
  map status_update_record
    (firstn limit
       (order_by_evaluation (List.filter (requires_status_update now) table))).

(** The [UPDATE] of [update_series_lifecycle_stage] on the full row: the
    lifecycle columns as in [update_row], and [updated_at = NOW()]. *)
Definition update_media_row (now : Z) (stage : stage_argument)
  (score : option Q) (notes : option string) (m : media_row) : media_row :=
  {| lifecycle := update_row now stage score notes (lifecycle m);
     anilist_id := anilist_id m;
     status := status m;
     start_date := start_date m;
     created_at := created_at m;
     updated_at := Some now |}.

Definition update_media (table : list media_row) (now : Z) (series_id : Z)
  (stage : stage_argument) (score : option Q) (notes : option string)
  : list media_row :=
  map (fun m => if id (lifecycle m) =? series_id
                then update_media_row now stage score notes m else m) table.

End LifecycleRepository.

(** ** [lifecycle_engine.py]: applying the decisions *)

Module SeriesLifecycleEngine.

Import LifecycleRepository.

(** The class [LifecycleStage] that [lifecycle_engine.py] declares for
    itself.  It has the names and values of the repository's class and is
    a different [Enum] class; the engine imports only
    [LifecycleRepository] from the repository module. *)
Inductive LifecycleStage :=
| UPCOMING
| GRACE_PERIOD
| EXTENDED_GRACE
| ACTIVE_TRACKING
| ARCHIVED
| READY_FOR_DELETION.

(** [stage.value]. *)
Definition value (stage : LifecycleStage) : string :=
  match stage with
  | UPCOMING => "upcoming"
  | GRACE_PERIOD => "grace_period"
  | EXTENDED_GRACE => "extended_grace"
  | ACTIVE_TRACKING => "active_tracking"
  | ARCHIVED => "archived"
  | READY_FOR_DELETION => "ready_for_deletion"
  end.

(** A member of the engine's class as the repository receives it. *)
Definition as_argument (stage : LifecycleStage) : stage_argument :=
  ForeignMember (value stage).





(** [force_archive_series(series_id, reason)]: the table afterwards and
    the returned flag.  The result of the update is not looked at. *)
Definition force_archive_series (table : list row) (now : Z) (series_id : Z)
  (reason : string) : list row * bool :=
  (update_series_lifecycle_stage table now series_id (as_argument ARCHIVED)
     None (Some ("Manual archive: " ++ reason)%string),
   true).

(** [restore_series(series_id, reason)]. *)
Definition restore_series (table : list row) (now : Z) (series_id : Z)
  (reason : string) : list row * bool :=
  (update_series_lifecycle_stage table now series_id
     (as_argument ACTIVE_TRACKING) None
     (Some ("Manual restore: " ++ reason)%string),
   true).



(** The test of [_update_series_status] on one fetched series:
    [series['status'] == 'NOT_YET_RELEASED' and series.get('start_date')
     and series['start_date'] <= datetime.now().date()]. *)
Definition status_transition_due (today : Z) (series : record)
  : Py.outcome bool :=
  do status <- record_item series "status";
  match status with
  | Text s =>
      if String.eqb s "NOT_YET_RELEASED" then
        match record_get "start_date" series with
        | Some v =>
            if sql_truthy v then
              do start <- record_item series "start_date";
              match start with
              | Date day => Py.Returned (day <=? today)
              | _ => Py.Raised Py.TypeError
              end
            else Py.Returned false
        | None => Py.Returned false
        end
      else Py.Returned false
  | _ => Py.Returned false
  end.

(** The loop body of [_update_series_status]: the table afterwards and
    the series whose update raised. *)
Definition update_status_of (now today : Z)
  (acc : list media_row * list record) (series : record)
  : list media_row * list record :=
  match
    (do due <- status_transition_due today series;
     if due then
       do series_id <- record_item series "id";
       match series_id with
       | Number i =>
           Py.Returned
             (update_media (fst acc) now i (as_argument GRACE_PERIOD) None
                (Some "Auto-transition: NOT_YET_RELEASED → RELEASING"%string))
       | _ => Py.Raised Py.TypeError
       end
     else Py.Returned (fst acc))
  with
  | Py.Returned table => (table, snd acc)
  | Py.Raised _ => (fst acc, snd acc ++ [series])
  end.

(** [_update_series_status()]. *)
Definition _update_series_status (table : list media_row) (now today : Z)
  : list media_row * list record :=
  fold_left (update_status_of now today)
    (get_series_requiring_status_update table now 50) (table, []).

End SeriesLifecycleEngine.

(** ** [datetime]: dates as day ordinals *)

Module Calendar.

(** [_is_leap(year)]. *)
Definition is_leap (year : Z) : bool :=
  (year mod 4 =? 0) && (negb (year mod 100 =? 0) || (year mod 400 =? 0)).

(** [_days_before_year(year)]. *)
Definition days_before_year (year : Z) : Z :=
  let y := year - 1 in
  y * 365 + y / 4 - y / 100 + y / 400.

(** [_days_in_month(year, month)], for [1 <= month <= 12]. *)
Definition days_in_month (year month : Z) : Z :=
  if month =? 2 then (if is_leap year then 29 else 28)
  else if (month =? 4) || (month =? 6) || (month =? 9) || (month =? 11)
       then 30 else 31.

(** [_DAYS_BEFORE_MONTH[month]]. *)
Definition DAYS_BEFORE_MONTH (month : Z) : Z :=
  nth (Z.to_nat month)
    [0; 0; 31; 59; 90; 120; 151; 181; 212; 243; 273; 304; 334] 0.

(** [_days_before_month(year, month)]. *)
Definition days_before_month (year month : Z) : Z :=
  DAYS_BEFORE_MONTH month + (if (2 <? month) && is_leap year then 1 else 0).

(** [_ymd2ord(year, month, day)]. *)
Definition ymd2ord (year month day : Z) : Z :=
  days_before_year year + days_before_month year month + day.

(** [date(year, month, day)]: the ordinal of a valid date, [ValueError]
    otherwise. *)
Definition date (year month day : Z) : Py.outcome Z :=
  if (1 <=? year) && (year <=? 9999) && (1 <=? month) && (month <=? 12) &&
     (1 <=? day) && (day <=? days_in_month year month)
  then Py.Returned (ymd2ord year month day)
  else Py.Raised Py.ValueError.

(** [_ord2ymd(n)]. *)
Definition ord2ymd (ordinal : Z) : Z * Z * Z :=
  let n := ordinal - 1 in
  let n400 := n / 146097 in
  let n := n mod 146097 in
  let year := n400 * 400 + 1 in
  let n100 := n / 36524 in
  let n := n mod 36524 in
  let n4 := n / 1461 in
  let n := n mod 1461 in
  let n1 := n / 365 in
  let n := n mod 365 in
  let year := year + n100 * 100 + n4 * 4 + n1 in
  if (n1 =? 4) || (n100 =? 4) then (year - 1, 12, 31)
  else
    let leapyear := (n1 =? 3) && (negb (n4 =? 24) || (n100 =? 3)) in
    let month := Z.shiftr (n + 50) 5 in
    let preceding :=
      DAYS_BEFORE_MONTH month + (if (2 <? month) && leapyear then 1 else 0) in
    if n <? preceding
    then
      let month := month - 1 in
      let preceding :=
        preceding -
        (nth (Z.to_nat month)
           [0; 31; 28; 31; 30; 31; 30; 31; 31; 30; 31; 30; 31] 0 +
         (if (month =? 2) && leapyear then 1 else 0)) in
      (year, month, n - preceding + 1)
    else (year, month, n - preceding + 1).

(** A naive [datetime]: the day ordinal of its date and the microseconds
    elapsed since midnight. *)
Record datetime := {
  ordinal : Z;
  time_of_day : Z
}.

Definition day_us : Z := 86400 * 1000000.

(** Microseconds since the start of day 0. *)
Definition instant (t : datetime) : Z := ordinal t * day_us + time_of_day t.

Definition datetime_eqb (a b : datetime) : bool :=
  (ordinal a =? ordinal b) && (time_of_day a =? time_of_day b).

Definition datetime_ltb (a b : datetime) : bool := instant a <? instant b.

(** [t.weekday()]: Monday is 0. *)
Definition weekday (t : datetime) : Z := (ordinal t + 6) mod 7.

(** [t - timedelta(days=k)]. *)
Definition minus_days (t : datetime) (k : Z) : datetime :=
  {| ordinal := ordinal t - k; time_of_day := time_of_day t |}.

(** [t.replace(day=1)]. *)
Definition replace_day_1 (t : datetime) : datetime :=
  let '(y, m, _) := ord2ymd (ordinal t) in
  {| ordinal := ymd2ord y m 1; time_of_day := time_of_day t |}.

(** [t.replace(month=1, day=1)]. *)
Definition replace_month_1_day_1 (t : datetime) : datetime :=
  let '(y, _, _) := ord2ymd (ordinal t) in
  {| ordinal := ymd2ord y 1 1; time_of_day := time_of_day t |}.

(** [t.timetuple().tm_yday]. *)
Definition tm_yday (t : datetime) : Z :=
  let '(y, _, _) := ord2ymd (ordinal t) in
  ordinal t - ymd2ord y 1 1 + 1.

(** [(a - b).days]: a [timedelta] is normalised with the floor of the
    division. *)
Definition days_between (a b : datetime) : Z := (instant a - instant b) / day_us.

End Calendar.

(** ** [aggregation_processor.py]: roll-ups and retention *)

Module AggregationProcessor.

Import Calendar.

Inductive AggregationPeriod :=
| DAILY
| WEEKLY
| MONTHLY
| YEARLY.

(** The part of an aggregate's [metadata] that needs no square root;
    [score_std] is not modelled, and nothing below reads it. *)
Record aggregate_metadata := {
  score_min : Q;
  score_max : Q;
  original_entries : Z;
  aggregated_from : AggregationPeriod
}.

(** A [HistoricalData] entry, with the fields the processor uses. *)
Record HistoricalData := {
  timestamp : datetime;
  entity_id : Z;
  entity_type : string;
  trending_score : Q;
  popularity_rank : Z;
  aggregation_period : AggregationPeriod;
  data_points : Z;
  metadata : option aggregate_metadata
}.

(** The retention periods read from the service configuration. *)
Record retention := {
  daily_retention_days : Z;
  weekly_retention_weeks : Z;
  monthly_retention_months : Z;
  yearly_retention_years : Z
}.

(** The retention window, in days, of a period type. *)
Definition retention_days (c : retention) (p : AggregationPeriod) : Z :=
  match p with
  | DAILY => daily_retention_days c
  | WEEKLY => weekly_retention_weeks c * 7
  | MONTHLY => monthly_retention_months c * 30
  | YEARLY => yearly_retention_years c * 365
  end.

(** The value of [should_keep] for one entry of the loop in
    [cleanup_old_data]. *)
Definition should_keep (c : retention) (now : datetime) (data : HistoricalData)
  : bool :=
  let age_days := days_between now (timestamp data) in
  match aggregation_period data with
  | DAILY => age_days <=? daily_retention_days c
  | WEEKLY => age_days <=? weekly_retention_weeks c * 7
  | MONTHLY => age_days <=? monthly_retention_months c * 30
  | YEARLY => age_days <=? yearly_retention_years c * 365
  end.

(** The counters of [cleanup_stats]. *)
Record cleanup_stats := {
  stats_daily : Z;
  stats_weekly : Z;
  stats_monthly : Z;
  stats_yearly : Z
}.

Definition count_removed (p : AggregationPeriod) (s : cleanup_stats)
  : cleanup_stats :=
  match p with
  | DAILY =>
      {| stats_daily := stats_daily s + 1; stats_weekly := stats_weekly s;
         stats_monthly := stats_monthly s; stats_yearly := stats_yearly s |}
  | WEEKLY =>
      {| stats_daily := stats_daily s; stats_weekly := stats_weekly s + 1;
         stats_monthly := stats_monthly s; stats_yearly := stats_yearly s |}
  | MONTHLY =>
      {| stats_daily := stats_daily s; stats_weekly := stats_weekly s;
         stats_monthly := stats_monthly s + 1; stats_yearly := stats_yearly s |}
  | YEARLY =>
      {| stats_daily := stats_daily s; stats_weekly := stats_weekly s;
         stats_monthly := stats_monthly s; stats_yearly := stats_yearly s + 1 |}
  end.

(** [cleanup_old_data(historical_data)], with [now] for [datetime.now()]:
    one pass that appends the entries to keep and counts the others. *)
Definition cleanup_old_data (c : retention) (now : datetime)
  (historical_data : list HistoricalData)
  : list HistoricalData * cleanup_stats :=
  fold_left
    (fun (acc : list HistoricalData * cleanup_stats) data =>
       if should_keep c now data
       then (fst acc ++ [data], snd acc)
       else (fst acc, count_removed (aggregation_period data) (snd acc)))
    historical_data
    ([], {| stats_daily := 0; stats_weekly := 0;
            stats_monthly := 0; stats_yearly := 0 |}).

(** [_get_time_window(timestamp, days)].  Days are subtracted and
    fields replaced on the date; the time of day stays as it is.  The
    callers pass 7, 30 or 365; the last branch is for [days > 0]. *)
Definition _get_time_window (timestamp : datetime) (days : Z) : datetime :=
  if days =? 7 then
    let days_since_monday := weekday timestamp in
    minus_days timestamp days_since_monday
  else if days =? 30 then replace_day_1 timestamp
  else if days =? 365 then replace_month_1_day_1 timestamp
  else minus_days timestamp (tm_yday timestamp mod days).

(** [grouped_data[entity][window].append(item)] on nested dictionaries
    kept in insertion order. *)
Fixpoint add_to_window (window : datetime) (item : HistoricalData)
  (windows : list (datetime * list HistoricalData))
  : list (datetime * list HistoricalData) :=
  match windows with
  | [] => [(window, [item])]
  | (w, items) :: rest =>
      if datetime_eqb w window then (w, items ++ [item]) :: rest
      else (w, items) :: add_to_window window item rest
  end.

Fixpoint add_to_entity (entity : Z) (window : datetime) (item : HistoricalData)
  (grouped : list (Z * list (datetime * list HistoricalData)))
  : list (Z * list (datetime * list HistoricalData)) :=
  match grouped with
  | [] => [(entity, [(window, [item])])]
  | (e, windows) :: rest =>
      if e =? entity then (e, add_to_window window item windows) :: rest
      else (e, windows) :: add_to_entity entity window item rest
  end.

Definition group_data (data : list HistoricalData) (days : Z)
  : list (Z * list (datetime * list HistoricalData)) :=
  fold_left
    (fun grouped item =>
       add_to_entity (entity_id item)
         (_get_time_window (timestamp item) days) item grouped)
    data [].

(** [sum(xs)] and [statistics.mean(xs)] on floats. *)
Definition sumQ (xs : list Q) : Q := fold_left Qplus xs 0%Q.

Definition mean (xs : list Q) : Q := (sumQ xs / inject_Z (Z.of_nat (length xs)))%Q.

(** [min(xs)] and [max(xs)] on a list with first element [x]. *)
Definition min_of (x : Q) (xs : list Q) : Q := fold_left PyQ.min xs x.

Definition max_of (x : Q) (xs : list Q) : Q := fold_left PyQ.max xs x.

(** [max(items, key=lambda x: x.timestamp)]: the first of the latest. *)
Definition latest (first : HistoricalData) (others : list HistoricalData)
  : HistoricalData :=
  fold_left
    (fun best item =>
       if datetime_ltb (timestamp best) (timestamp item) then item else best)
    others first.

(** The aggregated entry built for one entity and one time window. *)
Definition aggregate_entry (target_period : AggregationPeriod) (entity : Z)
  (window : datetime) (items : list HistoricalData) : option HistoricalData :=
  match items with
  | [] => None
  | first :: others =>
      let scores := map trending_score items in
      let ranks := map popularity_rank items in
      let representative := latest first others in
      Some
        {| timestamp := window;
           entity_id := entity;
           entity_type := entity_type representative;
           trending_score := mean scores;
           popularity_rank :=
             Z.quot (fold_left Z.add ranks 0) (Z.of_nat (length ranks));
           aggregation_period := target_period;
           data_points := fold_left Z.add (map data_points items) 0;
           metadata :=
             Some
               {| score_min := min_of (trending_score first)
                                 (map trending_score others);
                  score_max := max_of (trending_score first)
                                 (map trending_score others);
                  original_entries := Z.of_nat (length items);
                  aggregated_from := aggregation_period first |} |}
  end.

(** [_aggregate_data(data, target_period, days)]. *)
Definition _aggregate_data (data : list HistoricalData)
  (target_period : AggregationPeriod) (days : Z) : list HistoricalData :=
  flat_map
    (fun '(entity, windows) =>
       flat_map
         (fun '(window, items) =>
            match aggregate_entry target_period entity window items with
            | Some entry => [entry]
            | None => []
            end)
         windows)
    (group_data data days).

Definition aggregate_daily_to_weekly (daily_data : list HistoricalData)
  : list HistoricalData :=
  _aggregate_data daily_data WEEKLY 7.

Definition aggregate_weekly_to_monthly (weekly_data : list HistoricalData)
  : list HistoricalData :=
  _aggregate_data weekly_data MONTHLY 30.

Definition aggregate_monthly_to_yearly (monthly_data : list HistoricalData)
  : list HistoricalData :=
  _aggregate_data monthly_data YEARLY 365.

(** [sum(cleanup_stats.values())]. *)
Definition total_removed (s : cleanup_stats) : Z :=
  stats_daily s + stats_weekly s + stats_monthly s + stats_yearly s.

(** The entries of [data] of period type [p] that the retention test
    rejects. *)
Definition removed_of (c : retention) (now : datetime) (p : AggregationPeriod)
  (data : list HistoricalData) : list HistoricalData :=
  List.filter
    (fun x => negb (should_keep c now x) &&
              match aggregation_period x, p with
              | DAILY, DAILY | WEEKLY, WEEKLY | MONTHLY, MONTHLY
              | YEARLY, YEARLY => true
              | _, _ => false
              end)
    data.

(** [sum(d.data_points for d in data)]. *)
Definition total_data_points (data : list HistoricalData) : Z :=
  fold_left Z.add (map data_points data) 0.

(** The data points held in the windows of one entity, and in a whole
    grouping. *)
Definition window_points (windows : list (datetime * list HistoricalData)) : Z :=
  total_data_points (flat_map snd windows).

Definition grouped_points
  (grouped : list (Z * list (datetime * list HistoricalData))) : Z :=
  total_data_points (flat_map (fun g => flat_map snd (snd g)) grouped).

(** The keys of a grouping are those of nested dictionaries: no entity
    twice, and for each entity no window twice. *)
Definition keys_distinct
  (grouped : list (Z * list (datetime * list HistoricalData))) : Prop :=
  List.NoDup (map fst grouped) /\
  Forall (fun g => List.NoDup (map fst (snd g))) grouped.

(** The entity and the window an aggregate stands for. *)
Definition aggregate_key (x : HistoricalData) : Z * datetime :=
  (entity_id x, timestamp x).

End AggregationProcessor.

(** ** [trending/calculator.py]: the trending score of a character *)

Module TrendingScoreCalculator.

Import Calendar.

(** [self.trending_config]: named sections, each a dictionary of numbers
    (the shape of [_get_default_config]). *)
Definition config := gmap string (gmap string Q).

(** [d[key]]. *)
Definition item {A} (d : gmap string A) (key : string) : Py.outcome A :=
  match d !! key with
  | Some v => Py.Returned v
  | None => Py.Raised Py.KeyError
  end.

Definition _get_default_config : config :=
  (list_to_map
    [ ("gender_boosts"%string,
        list_to_map
          [ ("FEMALE"%string, 14 # 10); ("MALE"%string, 1);
            ("NON_BINARY"%string, 12 # 10); ("unknown"%string, 95 # 100) ]);
      ("role_boosts"%string,
        list_to_map
          [ ("MAIN"%string, 1); ("SUPPORTING"%string, 13 # 10);
            ("BACKGROUND"%string, 15 # 10) ]);
      ("series_status_boosts"%string,
        list_to_map
          [ ("RELEASING_NEW"%string, 25 # 10);
            ("RELEASING_CURRENT"%string, 18 # 10);
            ("RELEASING_LONG"%string, 12 # 10);
            ("FINISHED_RECENT"%string, 15 # 10);
            ("FINISHED_SEMI_RECENT"%string, 11 # 10);
            ("FINISHED_OLD"%string, 9 # 10);
            ("NOT_YET_RELEASED"%string, 13 # 10);
            ("CANCELLED"%string, 7 # 10); ("HIATUS"%string, 7 # 10);
            ("releasing_new_days"%string, 30);
            ("releasing_current_days"%string, 365);
            ("finished_recent_days"%string, 90);
            ("finished_semi_recent_days"%string, 365) ]);
      ("growth_calculation"%string,
        list_to_map
          [ ("weight_7_days"%string, 5 # 10);
            ("weight_30_days"%string, 3 # 10);
            ("weight_90_days"%string, 2 # 10);
            ("max_multiplier"%string, 5); ("min_multiplier"%string, 1 # 10) ]);
      ("recency_factors"%string,
        list_to_map
          [ ("fresh_days"%string, 7); ("recent_days"%string, 30);
            ("semi_old_days"%string, 90); ("fresh_factor"%string, 1);
            ("recent_factor"%string, 95 # 100);
            ("semi_old_factor"%string, 85 # 100);
            ("old_factor"%string, 7 # 10) ]);
      ("base_score"%string,
        list_to_map
          [ ("log_base"%string, 10); ("multiplier"%string, 100);
            ("min_favourites"%string, 1) ]) ])%Q.

(** What the file system holds at [config/trending_config.json]. *)
Inductive file_state :=
| FileMissing
| FileUnreadable (e : Py.exn)
| FileJson (document : config).

(** [_load_trending_config()]: the parsed file as it is, the defaults
    when there is no file or reading it raises. *)
Definition _load_trending_config (file : file_state) : Py.outcome config :=
  Py.try_except
    (match file with
     | FileJson document => Py.Returned document
     | FileUnreadable e => Py.Raised e
     | FileMissing => Py.Returned _get_default_config
     end)
    (fun _ => Py.Returned _get_default_config).

(** [math.log10] on the reals. *)
Definition log10 (x : R) : R := (ln x / ln 10)%R.

(** [calculate_base_score(favourites)].  [math.log10] raises
    [ValueError] outside its domain. *)
Definition calculate_base_score (c : config) (favourites : Z) : Py.outcome R :=
  do config <- item c "base_score";
  do min_fav <- item config "min_favourites";
  let adjusted_favourites := PyQ.max (inject_Z favourites) min_fav in
  if Qle_bool (adjusted_favourites + 1) 0 then Py.Raised Py.ValueError
  else
    do multiplier <- item config "multiplier";
    Py.Returned (log10 (Q2R (adjusted_favourites + 1)) * Q2R multiplier)%R.

(** A series as [_get_series_status_boost] reads it. *)
Record media := {
  status : string;
  start_date_year : option Z;
  start_date_month : option Z;
  start_date_day : option Z;
  end_date_year : option Z;
  end_date_month : option Z;
  end_date_day : option Z
}.

Record media_appearance := {
  appearance_media : media;
  character_role : string
}.

(** An [AniListCharacter] row. *)
Record character := {
  id : Z;
  favourites : Z;
  gender : option string;
  media_appearances : list media_appearance;
  last_fetched_at : option datetime
}.

(** A [CharacterFavouritesHistory] row. *)
Record history := {
  history_character_id : Z;
  history_favourites : Z;
  recorded_at : datetime
}.

(** The rows the session can see. *)
Record session := {
  characters : list character;
  favourites_history : list history
}.

(** [_get_current_favourites(character_id)]. *)
Definition _get_current_favourites (s : session) (character_id : Z) : option Z :=
  match List.find (fun ch => id ch =? character_id) (characters s) with
  | Some ch => Some (favourites ch)
  | None => None
  end.

(** [_get_historical_favourites(character_id, date_threshold)]: the row
    recorded last among those at or before the threshold. *)
Definition _get_historical_favourites (s : session) (character_id : Z)
  (date_threshold : datetime) : option Z :=
  let candidates :=
    List.filter
      (fun h => (history_character_id h =? character_id) &&
                negb (datetime_ltb date_threshold (recorded_at h)))
      (favourites_history s) in
  match candidates with
  | [] => None
  | first :: others =>
      Some (history_favourites
              (fold_left
                 (fun best h =>
                    if datetime_ltb (recorded_at best) (recorded_at h)
                    then h else best)
                 others first))
  end.

(** [x or default] for an optional integer. *)
Definition or_int (x : option Z) (fallback : Z) : Z :=
  match x with
  | Some v => if v =? 0 then fallback else v
  | None => fallback
  end.

(** One entry of [growth_components], for the look-back of [days]
    days weighted by [weight_key]. *)
Definition growth_component (s : session) (growth_config : gmap string Q)
  (now : datetime) (character_id current_favourites : Z) (days : Z)
  (weight_key : string) : Py.outcome Q :=
  match _get_historical_favourites s character_id (minus_days now days) with
  | Some historical_favs =>
      if 0 <? historical_favs then
        let growth_rate :=
          (inject_Z (current_favourites - historical_favs) /
           inject_Z historical_favs)%Q in
        do weight <- item growth_config weight_key;
        Py.Returned (growth_rate * weight)%Q
      else Py.Returned 0%Q
  | None => Py.Returned 0%Q
  end.

(** [try: body / except Exception: return fallback]. *)
Definition or_on_error {A} (body : Py.outcome A) (fallback : A) : A :=
  match body with
  | Py.Returned a => a
  | Py.Raised _ => fallback
  end.

(** [calculate_growth_multiplier(character_id)], with [now] for
    [datetime.now()]. *)
Definition calculate_growth_multiplier (c : config) (s : session)
  (now : datetime) (character_id : Z) : Q :=
  or_on_error
    (do growth_config <- item c "growth_calculation";
     match _get_current_favourites s character_id with
     | None => Py.Returned 1%Q
     | Some current_favourites =>
         if current_favourites =? 0 then Py.Returned 1%Q
         else
           do g7 <- growth_component s growth_config now character_id
                      current_favourites 7 "weight_7_days";
           do g30 <- growth_component s growth_config now character_id
                       current_favourites 30 "weight_30_days";
           do g90 <- growth_component s growth_config now character_id
                       current_favourites 90 "weight_90_days";
           let total_growth := (0 + g7 + g30 + g90)%Q in
           let multiplier := (1 + total_growth)%Q in
           do max_mult <- item growth_config "max_multiplier";
           do min_mult <- item growth_config "min_multiplier";
           Py.Returned (PyQ.max min_mult (PyQ.min max_mult multiplier))
     end)
    1%Q.

(** [_get_releasing_boost(media, config)], with [today] for
    [date.today()]. *)
Definition _get_releasing_boost (today : Z) (m : media)
  (config : gmap string Q) : Py.outcome Q :=
  match start_date_year m with
  | None => item config "RELEASING_CURRENT"
  | Some year =>
      if year =? 0 then item config "RELEASING_CURRENT"
      else
        Py.try_except
          (do start_date <- date year (or_int (start_date_month m) 1)
                              (or_int (start_date_day m) 1);
           let days_since_start := inject_Z (today - start_date) in
           do releasing_new_days <- item config "releasing_new_days";
           if Qle_bool days_since_start releasing_new_days
           then item config "RELEASING_NEW"
           else
             do releasing_current_days <- item config "releasing_current_days";
             if Qle_bool days_since_start releasing_current_days
             then item config "RELEASING_CURRENT"
             else item config "RELEASING_LONG")
          (fun _ => item config "RELEASING_CURRENT")
  end.

(** [_get_finished_boost(media, config)]. *)
Definition _get_finished_boost (today : Z) (m : media)
  (config : gmap string Q) : Py.outcome Q :=
  match end_date_year m with
  | None => item config "FINISHED_SEMI_RECENT"
  | Some year =>
      if year =? 0 then item config "FINISHED_SEMI_RECENT"
      else
        Py.try_except
          (do end_date <- date year (or_int (end_date_month m) 12)
                            (or_int (end_date_day m) 31);
           let days_since_end := inject_Z (today - end_date) in
           do finished_recent_days <- item config "finished_recent_days";
           if Qle_bool days_since_end finished_recent_days
           then item config "FINISHED_RECENT"
           else
             do finished_semi_recent_days <-
               item config "finished_semi_recent_days";
             if Qle_bool days_since_end finished_semi_recent_days
             then item config "FINISHED_SEMI_RECENT"
             else item config "FINISHED_OLD")
          (fun _ => item config "FINISHED_SEMI_RECENT")
  end.

(** [_get_series_status_boost(media)]. *)
Definition _get_series_status_boost (c : config) (today : Z) (m : media) : Q :=
  or_on_error
    (do config <- item c "series_status_boosts";
     if String.eqb (status m) "RELEASING"
     then _get_releasing_boost today m config
     else if String.eqb (status m) "FINISHED"
     then _get_finished_boost today m config
     else if String.eqb (status m) "NOT_YET_RELEASED"
     then item config "NOT_YET_RELEASED"
     else if String.eqb (status m) "CANCELLED" || String.eqb (status m) "HIATUS"
     then
       do fallback <- item config "CANCELLED";
       Py.Returned (default fallback (config !! status m))
     else Py.Returned 1%Q)
    1%Q.

(** [_get_role_weight(role)]. *)
Definition _get_role_weight (role : string) : Q :=
  if String.eqb role "MAIN" then 1
  else if String.eqb role "SUPPORTING" then 7 # 10
  else if String.eqb role "BACKGROUND" then 3 # 10
  else 5 # 10.

(** [sum(xs)] on floats. *)
Definition sumQ (xs : list Q) : Q := fold_left Qplus xs 0%Q.

(** [calculate_series_boost(character)]: the role-weighted mean of the
    status boosts. *)
Definition calculate_series_boost (c : config) (today : Z) (ch : character) : Q :=
  match media_appearances ch with
  | [] => 1
  | appearances =>
      let boosts :=
        map (fun a => _get_series_status_boost c today (appearance_media a))
          appearances in
      let weights := map (fun a => _get_role_weight (character_role a)) appearances in
      let weighted_sum :=
        sumQ (map (fun bw => (fst bw * snd bw)%Q) (combine boosts weights)) in
      let total_weight := sumQ weights in
      if PyQ.ltb 0 total_weight then (weighted_sum / total_weight)%Q else 1
  end.

(** [calculate_gender_boost(gender)]: the fallback [config["unknown"]]
    is evaluated whatever the gender. *)
Definition calculate_gender_boost (c : config) (gender : option string)
  : Py.outcome Q :=
  do config <- item c "gender_boosts";
  do fallback <- item config "unknown";
  let key :=
    match gender with
    | Some g => if PyStr.truthy gender then g else "unknown"%string
    | None => "unknown"%string
    end in
  Py.Returned (default fallback (config !! key)).

(** [calculate_role_boost(character)]. *)
Definition calculate_role_boost (c : config) (ch : character) : Py.outcome Q :=
  match media_appearances ch with
  | [] => Py.Returned 1%Q
  | appearances =>
      do config <- item c "role_boosts";
      let roles := map character_role appearances in
      if existsb (String.eqb "MAIN") roles then item config "MAIN"
      else if existsb (String.eqb "SUPPORTING") roles
      then item config "SUPPORTING"
      else item config "BACKGROUND"
  end.

(** [calculate_recency_factor(last_fetched_at)]. *)
Definition calculate_recency_factor (c : config) (now : datetime)
  (last_fetched_at : option datetime) : Py.outcome Q :=
  match last_fetched_at with
  | None => Py.Returned (7 # 10)
  | Some fetched =>
      do config <- item c "recency_factors";
      let days_old := inject_Z (days_between now fetched) in
      do fresh_days <- item config "fresh_days";
      if Qle_bool days_old fresh_days then item config "fresh_factor"
      else
        do recent_days <- item config "recent_days";
        if Qle_bool days_old recent_days then item config "recent_factor"
        else
          do semi_old_days <- item config "semi_old_days";
          if Qle_bool days_old semi_old_days then item config "semi_old_factor"
          else item config "old_factor"
  end.

(** The [components] dictionary returned with the score: every factor,
    or the base score and the error of the fallback. *)
Inductive components :=
| Components (base_score : R) (growth_multiplier series_boost gender_boost
                role_boost recency_factor : Q) (final_score : R)
| FallbackComponents (base_score : R) (error : Py.exn).

(** [calculate_trending_score(character)]. *)
Definition calculate_trending_score (c : config) (s : session)
  (now : datetime) (ch : character) : Py.outcome (R * components) :=
  Py.try_except
    (do base_score <- calculate_base_score c (favourites ch);
     let growth_multiplier := calculate_growth_multiplier c s now (id ch) in
     let series_boost := calculate_series_boost c (ordinal now) ch in
     do gender_boost <- calculate_gender_boost c (gender ch);
     do role_boost <- calculate_role_boost c ch;
     do recency_factor <- calculate_recency_factor c now (last_fetched_at ch);
     let trending_score :=
       (base_score * Q2R growth_multiplier * Q2R series_boost *
        Q2R gender_boost * Q2R role_boost * Q2R recency_factor)%R in
     Py.Returned
       (trending_score,
        Components base_score growth_multiplier series_boost gender_boost
          role_boost recency_factor trending_score))
    (fun e =>
       do base_score <- calculate_base_score c (favourites ch);
       Py.Returned (base_score, FallbackComponents base_score e)).

End TrendingScoreCalculator.

(** ** Python built-ins on reals *)

Module PyR.

(** [max(x, y)] on floats. *)
Definition max (x y : R) : R := if Rlt_dec x y then y else x.

(** [min(x, y)] on floats. *)
Definition min (x y : R) : R := if Rlt_dec y x then y else x.

End PyR.

(** ** [processors/trending_processor.py]: normalised trending scores *)

Module TrendingProcessor.

Import Calendar.

(** The boosts [__init__] reads from the service configuration. *)
Record config := {
  female_boost : Q;
  male_boost : Q
}.

(** An entry of [media_appearances]: a dictionary whose keys may be
    absent or hold [None]. *)
Record media_appearance := {
  role : option string;
  appearance_season_year : option Z;
  appearance_average_score : option Q
}.




Definition log10 (x : R) : R := (ln x / ln 10)%R.










Definition sumQ (xs : list Q) : Q := fold_left Qplus xs 0%Q.






(** [sorted(historical_data, key=lambda x: x.timestamp)]: a stable sort. *)
Fixpoint insert_by_time (x : AggregationProcessor.HistoricalData)
  (sorted : list AggregationProcessor.HistoricalData)
  : list AggregationProcessor.HistoricalData :=
  match sorted with
  | [] => [x]
  | y :: rest =>
      if datetime_ltb (AggregationProcessor.timestamp y)
           (AggregationProcessor.timestamp x)
      then y :: insert_by_time x rest
      else x :: sorted
  end.

Definition sorted_by_time (l : list AggregationProcessor.HistoricalData)
  : list AggregationProcessor.HistoricalData :=
  foldr insert_by_time [] l.

(** [xs[-n:]] and [xs[:-n]]. *)
Definition last_n {A} (n : nat) (xs : list A) : list A :=
  skipn (length xs - n) xs.

Definition but_last_n {A} (n : nat) (xs : list A) : list A :=
  firstn (length xs - n) xs.

(** [_calculate_historical_momentum(historical_data)]. *)
Definition _calculate_historical_momentum
  (historical_data : list AggregationProcessor.HistoricalData) : Q :=
  if (length historical_data <? 2)%nat then 1
  else
    let sorted_data := sorted_by_time historical_data in
    let recent_data := last_n 3 sorted_data in
    if (length recent_data <? 2)%nat then 1
    else
      let scores := map AggregationProcessor.trending_score recent_data in
      let recent_avg := (sumQ (last_n 2 scores) / 2)%Q in
      let older_avg :=
        if (2 <? length scores)%nat
        then (sumQ (but_last_n 2 scores) /
              inject_Z (Z.max 1 (Z.of_nat (length scores) - 2)))%Q
        else hd 0%Q scores in
      if PyQ.ltb (older_avg * (12 # 10)) recent_avg then 13 # 10
      else if PyQ.ltb (older_avg * (11 # 10)) recent_avg then 115 # 100
      else if PyQ.ltb recent_avg (older_avg * (8 # 10)) then 9 # 10
      else 1.






End TrendingProcessor.

(** ** [populate_complete_database.py]: scores from the boost breakdown *)

Module CompleteDatabasePopulator.

Import TrendingConfig.

(** The first node of [media_data['media']['nodes']]. *)
Record main_media := {
  media_status : option string;
  media_format : option string;
  seasonYear : option Z;
  romaji : option string
}.

(** The result dictionary of [calculate_trending_score], without the
    echoed inputs and the metadata. *)
Record trending_data := {
  base_score : Q;
  final_score : Q;
  boost_breakdown : Breakdown
}.

(** [calculate_base_score(favourites)]. *)
Definition calculate_base_score (c : TrendingConfig.t) (favourites : Z)
  : Py.outcome Q :=
  if Qeq_bool (favourites_divisor c) 0 then Py.Raised Py.ZeroDivisionError
  else
    Py.Returned
      (inject_Z (Z.max favourites (min_favourites c)) / favourites_divisor c)%Q.

(** The keyword arguments built for [get_boost_breakdown]. *)
Definition boost_params (favourites : Z) (gender : option string)
  (media : option main_media) : BoostParams :=
  match media with
  | Some m =>
      {| TrendingConfig.gender := gender;
         TrendingConfig.favourites := favourites;
         TrendingConfig.status := media_status m;
         TrendingConfig.season_year := seasonYear m;
         TrendingConfig.format := media_format m;
         TrendingConfig.role := None;
         TrendingConfig.series_name := romaji m |}
  | None =>
      {| TrendingConfig.gender := gender;
         TrendingConfig.favourites := favourites;
         TrendingConfig.status := None;
         TrendingConfig.season_year := None;
         TrendingConfig.format := None;
         TrendingConfig.role := None;
         TrendingConfig.series_name := None |}
  end.

(** [calculate_trending_score(character_data, media_data)]. *)
Definition calculate_trending_score (c : TrendingConfig.t) (favourites : Z)
  (gender : option string) (media : option main_media)
  : Py.outcome trending_data :=
  do base <- calculate_base_score c favourites;
  let breakdown := get_boost_breakdown c (boost_params favourites gender media) in
  let final := PyQ.round (base * capped_total breakdown) 3 in
  Py.Returned
    {| base_score := PyQ.round base 3;
       final_score := final;
       boost_breakdown := breakdown |}.

End CompleteDatabasePopulator.

(** ** The growth term as the specification words it *)

Module GrowthSpec.

(** [growth_d = (current - historical_d) / historical_d] when a
    historical value greater than 0 exists, and 0 otherwise. *)
Definition growth_term (current : Z) (historical : option Z) : Q :=
  match historical with
  | Some h =>
      if 0 <? h then (inject_Z (current - h) / inject_Z h)%Q else 0%Q
  | None => 0%Q
  end.

(** [clamp(x, lo, hi)]. *)
Definition clamp (x lo hi : Q) : Q := Qmax lo (Qmin x hi).

(** [clamp(1 + sum of weight_d * growth_d, min_growth_mult,
    max_growth_mult)] over the look-backs of 7, 30 and 90 days. *)
Definition growth_multiplier (w7 w30 w90 : Q) (g7 g30 g90 : Q)
  (min_mult max_mult : Q) : Q :=
  clamp (1 + (w7 * g7 + w30 * g30 + w90 * g90)) min_mult max_mult.

End GrowthSpec.

(** ** Sample data *)

Module Examples.

(** A boost configuration in the shape of [config/trending_config.json]. *)
Definition boost_config : TrendingConfig.t :=
  {| TrendingConfig.favourites_divisor := 1000;
     TrendingConfig.min_favourites := 1;
     TrendingConfig.gender_boosts :=
       list_to_map
         [ ("Female"%string, 14 # 10); ("Male"%string, 1);
           ("null"%string, 95 # 100) ]%Q;
     TrendingConfig.popularity_tiers :=
       [ {| TrendingConfig.pt_min_favourites := 1000;
            TrendingConfig.pt_boost := 12 # 10 |};
         {| TrendingConfig.pt_min_favourites := 50000;
            TrendingConfig.pt_boost := 2 |};
         {| TrendingConfig.pt_min_favourites := 10000;
            TrendingConfig.pt_boost := 15 # 10 |} ];
     TrendingConfig.status_boosts :=
       list_to_map
         [ ("RELEASING"%string, Some (13 # 10)); ("FINISHED"%string, Some 1);
           ("description"%string, None) ]%Q;
     TrendingConfig.recency_current_year := 2025;
     TrendingConfig.recency_tiers :=
       [ {| TrendingConfig.rt_max_years_ago := 1;
            TrendingConfig.rt_boost := 13 # 10 |};
         {| TrendingConfig.rt_max_years_ago := 5;
            TrendingConfig.rt_boost := 11 # 10 |} ];
     TrendingConfig.format_boosts :=
       list_to_map [ ("TV"%string, Some (11 # 10)); ("MOVIE"%string, Some 1) ]%Q;
     TrendingConfig.role_boosts :=
       list_to_map [ ("MAIN"%string, Some (12 # 10)) ]%Q;
     TrendingConfig.trending_keywords :=
       [ {| TrendingConfig.kg_keywords := ["demon slayer"; "kimetsu"]%string;
            TrendingConfig.kg_boost := 13 # 10 |} ];
     TrendingConfig.default_boost := 1;
     TrendingConfig.max_total_multiplier := 3;
     TrendingConfig.min_total_multiplier := 5 # 10 |}.

(** A popular character of a running series: every boost applies. *)
Definition popular_params : TrendingConfig.BoostParams :=
  {| TrendingConfig.gender := Some "Female"%string;
     TrendingConfig.favourites := 60000;
     TrendingConfig.status := Some "RELEASING"%string;
     TrendingConfig.season_year := Some 2025;
     TrendingConfig.format := Some "TV"%string;
     TrendingConfig.role := Some "MAIN"%string;
     TrendingConfig.series_name := Some "Kimetsu no Yaiba"%string |}.

(** The rules manager built without a configuration file. *)
Definition default_rules : LifecycleRulesManager.t :=
  {| LifecycleRulesManager.config_path := None;
     LifecycleRulesManager.config := LifecycleRulesManager.DEFAULT_CONFIG |}.

(** A rules file that lowers the keep-active score to 10 and says nothing
    else. *)
Definition low_threshold_file : Json.t :=
  Json.JObj
    [ ("thresholds"%string, Json.JObj
        [ ("keep_active"%string, Json.JObj
            [ ("min_composite_score"%string, Json.JNum 10) ]) ]) ].

Definition low_threshold_rules : LifecycleRulesManager.t :=
  {| LifecycleRulesManager.config_path := Some "rules.json"%string;
     LifecycleRulesManager.config :=
       LifecycleRulesManager.deep_merge low_threshold_file
         LifecycleRulesManager.DEFAULT_CONFIG |}.

(** A series with 50 favourites and no other metric. *)
Definition favourites_only : LifecycleDecisionMaker.series :=
  {| LifecycleDecisionMaker.popularity := Some 0%Q;
     LifecycleDecisionMaker.favourites := Some 50%Q;
     LifecycleDecisionMaker.trending := Some 0%Q;
     LifecycleDecisionMaker.character_count := Some 0;
     LifecycleDecisionMaker.avg_character_trending := Some 0%Q;
     LifecycleDecisionMaker.max_character_trending := Some 0%Q;
     LifecycleDecisionMaker.start_date := LifecycleDecisionMaker.NoStartDate |}.

(** A series with 50 favourites and a popularity of 10. *)
Definition modest_series : LifecycleDecisionMaker.series :=
  {| LifecycleDecisionMaker.popularity := Some 10%Q;
     LifecycleDecisionMaker.favourites := Some 35%Q;
     LifecycleDecisionMaker.trending := Some 0%Q;
     LifecycleDecisionMaker.character_count := Some 0;
     LifecycleDecisionMaker.avg_character_trending := Some 0%Q;
     LifecycleDecisionMaker.max_character_trending := Some 0%Q;
     LifecycleDecisionMaker.start_date := LifecycleDecisionMaker.NoStartDate |}.

(** The thresholds of [low_threshold_rules]. *)
Definition low_thresholds : LifecycleDecisionMaker.threshold_values :=
  {| LifecycleDecisionMaker.keep_active_threshold := 10;
     LifecycleDecisionMaker.min_popularity := 30;
     LifecycleDecisionMaker.min_favourites := 100;
     LifecycleDecisionMaker.min_char_trending := 70;
     LifecycleDecisionMaker.extend_grace_ratio := 7 # 10 |}.

(** The day on which the sample decisions are taken: 2024-04-24. *)
Definition today : Z := 739000.

(** The [thresholds] dictionary of [low_threshold_rules]. *)
Definition low_thresholds_json : Json.t :=
  Eval vm_compute in
    match LifecycleRulesManager.get_thresholds low_threshold_rules with
    | Py.Returned thresholds => thresholds
    | Py.Raised _ => Json.JNull
    end.

(** A calculator configuration file that lacks the [base_score]
    section. *)
Definition no_base_score_file : TrendingScoreCalculator.config :=
  delete "base_score"%string TrendingScoreCalculator._get_default_config.

(** Midnight of the sample day. *)
Definition now : Calendar.datetime :=
  {| Calendar.ordinal := today; Calendar.time_of_day := 0 |}.

(** A character with 1200 favourites and no recorded history. *)
Definition new_character : TrendingScoreCalculator.character :=
  {| TrendingScoreCalculator.id := 1;
     TrendingScoreCalculator.favourites := 1200;
     TrendingScoreCalculator.gender := Some "FEMALE"%string;
     TrendingScoreCalculator.media_appearances := [];
     TrendingScoreCalculator.last_fetched_at := Some now |}.

Definition fresh_session : TrendingScoreCalculator.session :=
  {| TrendingScoreCalculator.characters := [new_character];
     TrendingScoreCalculator.favourites_history := [] |}.

(** The database clock at the sample instant. *)
Definition now_us : Z := Calendar.instant now.

(** A series whose grace period started exactly 42 days ago. *)
Definition boundary_row : LifecycleRepository.row :=
  {| LifecycleRepository.id := 7;
     LifecycleRepository.title := "Spring Show";
     LifecycleRepository.lifecycle_stage := "grace_period";
     LifecycleRepository.grace_period_start :=
       Some (now_us - 42 * LifecycleRepository.day_us);
     LifecycleRepository.archived_at := None;
     LifecycleRepository.evaluation_score := None;
     LifecycleRepository.last_evaluation_at := None;
     LifecycleRepository.lifecycle_notes := None;
     LifecycleRepository.metrics := modest_series |}.

(** The same series one microsecond later in its grace period. *)
Definition overdue_row : LifecycleRepository.row :=
  {| LifecycleRepository.id := 8;
     LifecycleRepository.title := "Winter Show";
     LifecycleRepository.lifecycle_stage := "grace_period";
     LifecycleRepository.grace_period_start :=
       Some (now_us - 42 * LifecycleRepository.day_us - 1);
     LifecycleRepository.archived_at := None;
     LifecycleRepository.evaluation_score := None;
     LifecycleRepository.last_evaluation_at := None;
     LifecycleRepository.lifecycle_notes := None;
     LifecycleRepository.metrics := modest_series |}.

(** The retention periods of the service defaults. *)
Definition retention : AggregationProcessor.retention :=
  {| AggregationProcessor.daily_retention_days := 30;
     AggregationProcessor.weekly_retention_weeks := 52;
     AggregationProcessor.monthly_retention_months := 24;
     AggregationProcessor.yearly_retention_years := 5 |}.

(** A daily entry of [entity] with the given score, taken [age] days
    before the sample day at [time_of_day] microseconds past midnight. *)
Definition daily_entry (entity age time_of_day : Z) (score : Q)
  : AggregationProcessor.HistoricalData :=
  {| AggregationProcessor.timestamp :=
       {| Calendar.ordinal := today - age; Calendar.time_of_day := time_of_day |};
     AggregationProcessor.entity_id := entity;
     AggregationProcessor.entity_type := "character";
     AggregationProcessor.trending_score := score;
     AggregationProcessor.popularity_rank := 1;
     AggregationProcessor.aggregation_period := AggregationProcessor.DAILY;
     AggregationProcessor.data_points := 1;
     AggregationProcessor.metadata := None |}.

(** Ten and eleven o'clock, in microseconds past midnight. *)
Definition ten_am : Z := 10 * 3600 * 1000000.

Definition eleven_am : Z := 11 * 3600 * 1000000.

(** The only entry of entity 1 is 31 days old; entity 2 has a fresh one. *)
Definition stale_history : list AggregationProcessor.HistoricalData :=
  [ daily_entry 1 31 0 40; daily_entry 2 3 0 55 ].

(** Two daily snapshots of entity 1 in the week of Monday 2024-04-22:
    Tuesday at ten and Wednesday at eleven. *)
Definition same_week_snapshots : list AggregationProcessor.HistoricalData :=
  [ daily_entry 1 1 ten_am 40; daily_entry 1 0 eleven_am 60 ].

(** The same two days, both snapshots taken at ten o'clock sharp. *)
Definition same_time_snapshots : list AggregationProcessor.HistoricalData :=
  [ daily_entry 1 1 ten_am 40; daily_entry 1 0 ten_am 60 ].

(** A character whose favourites fell from 100 to 0. *)
Definition abandoned_character : TrendingScoreCalculator.character :=
  {| TrendingScoreCalculator.id := 2;
     TrendingScoreCalculator.favourites := 0;
     TrendingScoreCalculator.gender := None;
     TrendingScoreCalculator.media_appearances := [];
     TrendingScoreCalculator.last_fetched_at := Some now |}.

(** A character that grew from 1000 to 1200 favourites. *)
Definition growing_character : TrendingScoreCalculator.character :=
  {| TrendingScoreCalculator.id := 3;
     TrendingScoreCalculator.favourites := 1200;
     TrendingScoreCalculator.gender := None;
     TrendingScoreCalculator.media_appearances := [];
     TrendingScoreCalculator.last_fetched_at := Some now |}.

(** Both were recorded 100 days before the sample day. *)
Definition recorded_session : TrendingScoreCalculator.session :=
  {| TrendingScoreCalculator.characters :=
       [abandoned_character; growing_character];
     TrendingScoreCalculator.favourites_history :=
       [ {| TrendingScoreCalculator.history_character_id := 2;
            TrendingScoreCalculator.history_favourites := 100;
            TrendingScoreCalculator.recorded_at :=
              Calendar.minus_days now 100 |};
         {| TrendingScoreCalculator.history_character_id := 3;
            TrendingScoreCalculator.history_favourites := 1000;
            TrendingScoreCalculator.recorded_at :=
              Calendar.minus_days now 100 |} ] |}.

(** The [growth_calculation] and [base_score] sections of the default
    calculator configuration. *)
Definition growth_section : gmap string Q :=
  (list_to_map
     [ ("weight_7_days"%string, 5 # 10);
       ("weight_30_days"%string, 3 # 10);
       ("weight_90_days"%string, 2 # 10);
       ("max_multiplier"%string, 5); ("min_multiplier"%string, 1 # 10) ])%Q.

Definition base_score_section : gmap string Q :=
  (list_to_map
     [ ("log_base"%string, 10); ("multiplier"%string, 100);
       ("min_favourites"%string, 1) ])%Q.




(** The sample boost configuration with other recency tiers and keyword
    groups. *)
Definition boost_config_with (recency : list TrendingConfig.RecencyTier)
  (keywords : list TrendingConfig.KeywordGroup) : TrendingConfig.t :=
  {| TrendingConfig.favourites_divisor :=
       TrendingConfig.favourites_divisor boost_config;
     TrendingConfig.min_favourites := TrendingConfig.min_favourites boost_config;
     TrendingConfig.gender_boosts := TrendingConfig.gender_boosts boost_config;
     TrendingConfig.popularity_tiers :=
       TrendingConfig.popularity_tiers boost_config;
     TrendingConfig.status_boosts := TrendingConfig.status_boosts boost_config;
     TrendingConfig.recency_current_year :=
       TrendingConfig.recency_current_year boost_config;
     TrendingConfig.recency_tiers := recency;
     TrendingConfig.format_boosts := TrendingConfig.format_boosts boost_config;
     TrendingConfig.role_boosts := TrendingConfig.role_boosts boost_config;
     TrendingConfig.trending_keywords := keywords;
     TrendingConfig.default_boost := TrendingConfig.default_boost boost_config;
     TrendingConfig.max_total_multiplier :=
       TrendingConfig.max_total_multiplier boost_config;
     TrendingConfig.min_total_multiplier :=
       TrendingConfig.min_total_multiplier boost_config |}.

Definition tier_1_year : TrendingConfig.RecencyTier :=
  {| TrendingConfig.rt_max_years_ago := 1; TrendingConfig.rt_boost := 13 # 10 |}.

Definition tier_5_years : TrendingConfig.RecencyTier :=
  {| TrendingConfig.rt_max_years_ago := 5; TrendingConfig.rt_boost := 11 # 10 |}.

Definition tier_3_years : TrendingConfig.RecencyTier :=
  {| TrendingConfig.rt_max_years_ago := 3; TrendingConfig.rt_boost := 12 # 10 |}.

Definition slayer_keywords : TrendingConfig.KeywordGroup :=
  {| TrendingConfig.kg_keywords := ["demon slayer"; "kimetsu"]%string;
     TrendingConfig.kg_boost := 13 # 10 |}.

(** A keyword written with a capital letter. *)
Definition capital_keywords : TrendingConfig.KeywordGroup :=
  {| TrendingConfig.kg_keywords := ["Naruto"]%string;
     TrendingConfig.kg_boost := 2 |}.

(** A keyword list with an empty entry. *)
Definition blank_keywords : TrendingConfig.KeywordGroup :=
  {| TrendingConfig.kg_keywords := [""; "one piece"]%string;
     TrendingConfig.kg_boost := 15 # 10 |}.

(** A series for which the repository returned no metric at all. *)
Definition blank_series : LifecycleDecisionMaker.series :=
  {| LifecycleDecisionMaker.popularity := None;
     LifecycleDecisionMaker.favourites := None;
     LifecycleDecisionMaker.trending := None;
     LifecycleDecisionMaker.character_count := None;
     LifecycleDecisionMaker.avg_character_trending := None;
     LifecycleDecisionMaker.max_character_trending := None;
     LifecycleDecisionMaker.start_date := LifecycleDecisionMaker.NoStartDate |}.

(** A series known only through one of its characters, which trends at
    60. *)
Definition character_only_series : LifecycleDecisionMaker.series :=
  {| LifecycleDecisionMaker.popularity := Some 0%Q;
     LifecycleDecisionMaker.favourites := Some 0%Q;
     LifecycleDecisionMaker.trending := Some 0%Q;
     LifecycleDecisionMaker.character_count := Some 0;
     LifecycleDecisionMaker.avg_character_trending := Some 60%Q;
     LifecycleDecisionMaker.max_character_trending := Some 60%Q;
     LifecycleDecisionMaker.start_date := LifecycleDecisionMaker.NoStartDate |}.

(** The thresholds of the default rules. *)
Definition default_thresholds : LifecycleDecisionMaker.threshold_values :=
  {| LifecycleDecisionMaker.keep_active_threshold := 50;
     LifecycleDecisionMaker.min_popularity := 30;
     LifecycleDecisionMaker.min_favourites := 100;
     LifecycleDecisionMaker.min_char_trending := 70;
     LifecycleDecisionMaker.extend_grace_ratio := 7 # 10 |}.

(** The [thresholds] dictionary of the default rules. *)
Definition default_thresholds_json : Json.t :=
  Eval vm_compute in
    match LifecycleRulesManager.get_thresholds default_rules with
    | Py.Returned thresholds => thresholds
    | Py.Raised _ => Json.JNull
    end.

(** An announced series whose start date passed three days ago, never
    evaluated. *)
Definition upcoming_media : LifecycleRepository.media_row :=
  {| LifecycleRepository.lifecycle :=
       {| LifecycleRepository.id := 9;
          LifecycleRepository.title := "Summer Show";
          LifecycleRepository.lifecycle_stage := "upcoming";
          LifecycleRepository.grace_period_start := None;
          LifecycleRepository.archived_at := None;
          LifecycleRepository.evaluation_score := None;
          LifecycleRepository.last_evaluation_at := None;
          LifecycleRepository.lifecycle_notes := None;
          LifecycleRepository.metrics := blank_series |};
     LifecycleRepository.anilist_id := 170009;
     LifecycleRepository.status := Some "NOT_YET_RELEASED"%string;
     LifecycleRepository.start_date := Some (today - 3);
     LifecycleRepository.created_at := Some (now_us - 30 * LifecycleRepository.day_us);
     LifecycleRepository.updated_at := Some (now_us - 30 * LifecycleRepository.day_us) |}.

(** A series that started on 2024-04-01 and is running. *)
Definition running_media : TrendingScoreCalculator.media :=
  {| TrendingScoreCalculator.status := "RELEASING";
     TrendingScoreCalculator.start_date_year := Some 2024;
     TrendingScoreCalculator.start_date_month := Some 4;
     TrendingScoreCalculator.start_date_day := Some 1;
     TrendingScoreCalculator.end_date_year := None;
     TrendingScoreCalculator.end_date_month := None;
     TrendingScoreCalculator.end_date_day := None |}.

(** A series that ended in 2019. *)
Definition ended_media : TrendingScoreCalculator.media :=
  {| TrendingScoreCalculator.status := "FINISHED";
     TrendingScoreCalculator.start_date_year := Some 2018;
     TrendingScoreCalculator.start_date_month := Some 10;
     TrendingScoreCalculator.start_date_day := None;
     TrendingScoreCalculator.end_date_year := Some 2019;
     TrendingScoreCalculator.end_date_month := Some 3;
     TrendingScoreCalculator.end_date_day := None |}.

(** A character with a supporting role in the running series and a main
    role in the ended one, with the appearances in the given order. *)
Definition cast_member (appearances : list TrendingScoreCalculator.media_appearance)
  : TrendingScoreCalculator.character :=
  {| TrendingScoreCalculator.id := 4;
     TrendingScoreCalculator.favourites := 800;
     TrendingScoreCalculator.gender := Some "MALE"%string;
     TrendingScoreCalculator.media_appearances := appearances;
     TrendingScoreCalculator.last_fetched_at := Some now |}.

Definition supporting_appearance : TrendingScoreCalculator.media_appearance :=
  {| TrendingScoreCalculator.appearance_media := running_media;
     TrendingScoreCalculator.character_role := "SUPPORTING" |}.

Definition main_appearance : TrendingScoreCalculator.media_appearance :=
  {| TrendingScoreCalculator.appearance_media := ended_media;
     TrendingScoreCalculator.character_role := "MAIN" |}.

(** The default calculator configuration with a [gender_boosts] section
    that lacks the key [unknown]. *)
Definition no_unknown_gender_config : TrendingScoreCalculator.config :=
  <[ "gender_boosts"%string :=
       (list_to_map [ ("FEMALE"%string, 14 # 10); ("MALE"%string, 1) ])%Q ]>
    TrendingScoreCalculator._get_default_config.



End Examples.

(** * Properties *)

(** ** Facts about the Python built-ins *)

Module PyQFacts.
Import PyQ.

Lemma ltb_lt x y : ltb x y = true <-> (x < y)%Q.
Proof.
  unfold ltb. rewrite negb_true_iff, <- not_true_iff_false, Qle_bool_iff.
  split; [apply Qnot_le_lt | apply Qlt_not_le].
Qed.

Lemma ltb_ge x y : ltb x y = false <-> (y <= x)%Q.
Proof.
  unfold ltb. rewrite negb_false_iff. apply Qle_bool_iff.
Qed.

Lemma geb_ge x y : geb x y = true <-> (y <= x)%Q.
Proof. apply Qle_bool_iff. Qed.

Lemma geb_lt x y : geb x y = false <-> (x < y)%Q.
Proof.
  unfold geb. rewrite <- not_true_iff_false, Qle_bool_iff.
  split; [apply Qnot_le_lt | apply Qlt_not_le].
Qed.

(** Case analysis on a float comparison inside a goal. *)
Ltac cases :=
  repeat match goal with
    | |- context [ltb ?a ?b] =>
        let E := fresh "E" in
        destruct (ltb a b) eqn:E;
        [apply ltb_lt in E | apply ltb_ge in E]
    | |- context [geb ?a ?b] =>
        let E := fresh "E" in
        destruct (geb a b) eqn:E;
        [apply geb_ge in E | apply geb_lt in E]
    | _ : context [ltb ?a ?b] |- _ =>
        let E := fresh "E" in
        destruct (ltb a b) eqn:E;
        [apply ltb_lt in E | apply ltb_ge in E]
    | _ : context [geb ?a ?b] |- _ =>
        let E := fresh "E" in
        destruct (geb a b) eqn:E;
        [apply geb_ge in E | apply geb_lt in E]
    end.

(** The clamp idiom [max(lo, min(x, hi))] of the code. *)
Lemma clamp_bounds lo hi x :
  (lo <= hi)%Q -> (lo <= max lo (min x hi) <= hi)%Q.
Proof.
  intros Hlh. unfold max, min. cases; lra.
Qed.

Lemma clamp_above lo hi x :
  (lo <= hi)%Q -> (hi < x)%Q -> (max lo (min x hi) == hi)%Q.
Proof.
  intros Hlh Hx. unfold max, min. cases; lra.
Qed.

Lemma clamp_below lo hi x :
  (lo <= hi)%Q -> (x < lo)%Q -> (max lo (min x hi) == lo)%Q.
Proof.
  intros Hlh Hx. unfold max, min. cases; lra.
Qed.

Lemma clamp_inside lo hi x :
  (lo <= x <= hi)%Q -> (max lo (min x hi) == x)%Q.
Proof.
  intros Hx. unfold max, min. cases; lra.
Qed.

End PyQFacts.

(** ** The boost pipeline of [trending_config.py] *)

Module TrendingConfigProps.

Import TrendingConfig PyQFacts.

(** The clamp of the pipeline depends on its argument up to equality of
    rationals only. *)
Lemma clamp_proper lo hi x y :
  (x == y)%Q ->
  (PyQ.max lo (PyQ.min x hi) == PyQ.max lo (PyQ.min y hi))%Q.
Proof.
  intros Hxy. unfold PyQ.max, PyQ.min. cases; lra.
Qed.

(** The [raw_total] of the breakdown is the product that
    [calculate_total_multiplier] clamps. *)
Lemma raw_total_is_raw_multiplier c p :
  (raw_total (get_boost_breakdown c p) == raw_multiplier c p)%Q.
Proof.
  unfold get_boost_breakdown, raw_multiplier. cbn [raw_total fold_left].
  ring.
Qed.

(** Both entry points return the same capped multiplier. *)
Lemma capped_total_is_total_multiplier c p :
  (capped_total (get_boost_breakdown c p) == calculate_total_multiplier c p)%Q.
Proof.
  unfold calculate_total_multiplier.
  change (capped_total (get_boost_breakdown c p))
    with (PyQ.max (min_total_multiplier c)
            (PyQ.min (raw_total (get_boost_breakdown c p))
               (max_total_multiplier c))).
  apply clamp_proper, raw_total_is_raw_multiplier.
Qed.


(** C3. Whatever the gender, favourites, status, season year, format,
    role and series name, the multiplier returned by
    [calculate_total_multiplier] lies between the configured
    [min_total_multiplier] and [max_total_multiplier] (the limits being
    ordered), and a raw product outside the limits is replaced by the
    limit it passed. *)
Theorem total_multiplier_within_limits (c : t) (p : BoostParams) :
  (min_total_multiplier c <= max_total_multiplier c)%Q ->
  (min_total_multiplier c <= calculate_total_multiplier c p
     <= max_total_multiplier c)%Q /\
  ((max_total_multiplier c < raw_multiplier c p)%Q ->
   (calculate_total_multiplier c p == max_total_multiplier c)%Q) /\
  ((raw_multiplier c p < min_total_multiplier c)%Q ->
   (calculate_total_multiplier c p == min_total_multiplier c)%Q).
Proof.
  intros Hlimits. unfold calculate_total_multiplier.
  split; [| split].
  - apply clamp_bounds, Hlimits.
  - intros Habove. apply clamp_above; assumption.
  - intros Hbelow. apply clamp_below; assumption.
Qed.

(** The sample configuration caps a raw product of 8.12 at 3. *)
Lemma total_multiplier_within_limits_witness :
  (min_total_multiplier Examples.boost_config
     <= max_total_multiplier Examples.boost_config)%Q /\
  (max_total_multiplier Examples.boost_config
     < raw_multiplier Examples.boost_config Examples.popular_params)%Q /\
  (calculate_total_multiplier Examples.boost_config Examples.popular_params
     == 3)%Q.
Proof.
  assert (Hlimits : (min_total_multiplier Examples.boost_config
                       <= max_total_multiplier Examples.boost_config)%Q)
    by (vm_compute; discriminate).
  assert (Habove : (max_total_multiplier Examples.boost_config
                      < raw_multiplier Examples.boost_config
                          Examples.popular_params)%Q)
    by (vm_compute; reflexivity).
  split; [exact Hlimits | split; [exact Habove |]].
  exact (proj1 (proj2 (total_multiplier_within_limits
                         Examples.boost_config Examples.popular_params Hlimits))
           Habove).
Defined.

End TrendingConfigProps.

(** ** The lifecycle decision *)

Module LifecycleDecisionProps.

Import LifecycleDecisionMaker PyQFacts.

(** The test of the first rule of [_evaluate_decision]. *)
Lemma keep_active_test composite_score pop fav maxc v :
  (PyQ.geb composite_score (keep_active_threshold v) &&
   (PyQ.geb pop (min_popularity v) || PyQ.geb fav (min_favourites v) ||
    PyQ.geb maxc (min_char_trending v)))%bool = true <->
  (keep_active_threshold v <= composite_score)%Q /\
  ((min_popularity v <= pop)%Q \/ (min_favourites v <= fav)%Q \/
   (min_char_trending v <= maxc)%Q).
Proof.
  rewrite andb_true_iff, !orb_true_iff, !geb_ge. tauto.
Qed.

(** The test of the second rule. *)
Lemma extend_grace_test composite_score pop trend count maxc v :
  (PyQ.geb composite_score (keep_active_threshold v * extend_grace_ratio v) &&
   (PyQ.ltb 0 pop || PyQ.ltb 0 trend || (0 <? count) || PyQ.ltb 0 maxc))%bool
    = true <->
  (keep_active_threshold v * extend_grace_ratio v <= composite_score)%Q /\
  ((0 < pop)%Q \/ (0 < trend)%Q \/ 0 < count \/ (0 < maxc)%Q).
Proof.
  rewrite andb_true_iff, !orb_true_iff, geb_ge, !ltb_lt, Z.ltb_lt. tauto.
Qed.

(** How [_evaluate_decision] chooses, once the thresholds are read. *)
Lemma evaluate_decision_action s composite_score thresholds v :
  thresholds_read thresholds v ->
  exists d,
    _evaluate_decision s composite_score thresholds = Py.Returned d /\
    decision_action d =
      if (PyQ.geb composite_score (keep_active_threshold v) &&
          (PyQ.geb (float_or_0 (popularity s)) (min_popularity v) ||
           PyQ.geb (float_or_0 (favourites s)) (min_favourites v) ||
           PyQ.geb (float_or_0 (max_character_trending s))
             (min_char_trending v)))%bool
      then KEEP_ACTIVE
      else if (PyQ.geb composite_score
                 (keep_active_threshold v * extend_grace_ratio v) &&
               (PyQ.ltb 0 (float_or_0 (popularity s)) ||
                PyQ.ltb 0 (float_or_0 (trending s)) ||
                (0 <? int_or_0 (character_count s)) ||
                PyQ.ltb 0 (float_or_0 (max_character_trending s))))%bool
      then EXTEND_GRACE
      else ARCHIVE.
Proof.
  intros (Hkeep & Hpop & Hfav & Hchar & Hratio).
  unfold _evaluate_decision.
  rewrite Hkeep, Hpop, Hfav, Hchar. cbn [Py.bind].
  destruct (PyQ.geb composite_score (keep_active_threshold v) &&
            (PyQ.geb (float_or_0 (popularity s)) (min_popularity v) ||
             PyQ.geb (float_or_0 (favourites s)) (min_favourites v) ||
             PyQ.geb (float_or_0 (max_character_trending s))
               (min_char_trending v)))%bool.
  - eexists. split; reflexivity.
  - rewrite Hratio. cbn [Py.bind].
    destruct (PyQ.geb composite_score
                (keep_active_threshold v * extend_grace_ratio v) &&
              (PyQ.ltb 0 (float_or_0 (popularity s)) ||
               PyQ.ltb 0 (float_or_0 (trending s)) ||
               (0 <? int_or_0 (character_count s)) ||
               PyQ.ltb 0 (float_or_0 (max_character_trending s))))%bool;
      eexists; split; reflexivity.
Qed.

(** C2, as amended. With readable thresholds [_evaluate_decision]
    returns a decision, and the decision is KEEP_ACTIVE exactly when the
    composite score reaches the keep-active threshold and one of
    popularity, favourites and the best character trending score reaches
    its minimum.  A series whose three metrics are all below their minima
    is never kept active, whatever its score: it gets EXTEND_GRACE exactly
    when its score reaches threshold times ratio and one of popularity,
    trending, character count and best character trending is positive,
    and ARCHIVE otherwise. *)
Theorem keep_active_iff_score_and_signal
  (s : series) (composite_score : Q) (thresholds : Json.t)
  (v : threshold_values) :
  thresholds_read thresholds v ->
  exists d,
    _evaluate_decision s composite_score thresholds = Py.Returned d /\
    (decision_action d = KEEP_ACTIVE <->
     (keep_active_threshold v <= composite_score)%Q /\
     ((min_popularity v <= float_or_0 (popularity s))%Q \/
      (min_favourites v <= float_or_0 (favourites s))%Q \/
      (min_char_trending v <= float_or_0 (max_character_trending s))%Q)) /\
    ((float_or_0 (popularity s) < min_popularity v)%Q ->
     (float_or_0 (favourites s) < min_favourites v)%Q ->
     (float_or_0 (max_character_trending s) < min_char_trending v)%Q ->
     decision_action d <> KEEP_ACTIVE /\
     (decision_action d = EXTEND_GRACE <->
      (keep_active_threshold v * extend_grace_ratio v <= composite_score)%Q /\
      ((0 < float_or_0 (popularity s))%Q \/
       (0 < float_or_0 (trending s))%Q \/
       0 < int_or_0 (character_count s) \/
       (0 < float_or_0 (max_character_trending s))%Q))).
Proof.
  intros Hread.
  destruct (evaluate_decision_action s composite_score thresholds v Hread)
    as (d & Hd & Haction).
  exists d. split; [exact Hd |].
  pose proof (keep_active_test composite_score (float_or_0 (popularity s))
                (float_or_0 (favourites s))
                (float_or_0 (max_character_trending s)) v) as Hkeep.
  pose proof (extend_grace_test composite_score (float_or_0 (popularity s))
                (float_or_0 (trending s)) (int_or_0 (character_count s))
                (float_or_0 (max_character_trending s)) v) as Hgrace.
  destruct (PyQ.geb composite_score (keep_active_threshold v) && _)%bool
    eqn:Ekeep in Haction, Hkeep.
  - split.
    + split; [intros _; apply Hkeep; reflexivity | intros _; exact Haction].
    + intros Hp Hf Hc. exfalso.
      destruct (proj1 Hkeep eq_refl) as (_ & [H | [H | H]]); lra.
  - assert (Hnot : decision_action d <> KEEP_ACTIVE).
    { rewrite Haction.
      match goal with
      | |- (if ?b then _ else _) <> _ => destruct b; discriminate
      end. }
    split.
    + split; [intros H; contradiction |].
      intros H. apply Hkeep in H. discriminate.
    + intros _ _ _. split; [exact Hnot |].
      destruct (PyQ.geb composite_score
                  (keep_active_threshold v * extend_grace_ratio v) && _)%bool
        eqn:Egrace in Haction, Hgrace.
      * split; [intros _; apply Hgrace; reflexivity | intros _; exact Haction].
      * split; [rewrite Haction; discriminate |].
        intros H. apply Hgrace in H. discriminate.
Qed.

(** The thresholds of the sample rules are readable. *)
Lemma low_thresholds_read :
  LifecycleRulesManager.get_thresholds Examples.low_threshold_rules
    = Py.Returned Examples.low_thresholds_json /\
  thresholds_read Examples.low_thresholds_json Examples.low_thresholds.
Proof.
  split; [vm_compute; reflexivity |].
  repeat split; vm_compute; reflexivity.
Qed.

(** With a keep-active score of 10, a series with popularity 10 and 35
    favourites scores exactly 10, is below every minimum, and has its
    grace period extended. *)
Lemma keep_active_iff_score_and_signal_witness :
  thresholds_read Examples.low_thresholds_json Examples.low_thresholds /\
  exists d,
    _evaluate_decision Examples.modest_series 10 Examples.low_thresholds_json
      = Py.Returned d /\
    decision_action d = EXTEND_GRACE.
Proof.
  assert (Hread : thresholds_read Examples.low_thresholds_json
                    Examples.low_thresholds)
    by (repeat split; vm_compute; reflexivity).
  split; [exact Hread |].
  destruct (keep_active_iff_score_and_signal Examples.modest_series 10
              Examples.low_thresholds_json Examples.low_thresholds Hread)
    as (d & Hd & _ & Hbelow).
  exists d. split; [exact Hd |].
  apply Hbelow.
  - vm_compute; reflexivity.
  - vm_compute; reflexivity.
  - vm_compute; reflexivity.
  - split; [vm_compute; discriminate |].
    left. vm_compute; reflexivity.
Defined.

(** C2, the stated example refuted. With a keep-active score of 10, a
    series with 50 favourites and no other metric scores exactly the
    threshold and is below every minimum, and it is archived: its grace
    period is not extended. *)
Lemma exact_threshold_without_activity_is_archived :
  LifecycleRulesManager.get_thresholds Examples.low_threshold_rules
    = Py.Returned Examples.low_thresholds_json /\
  thresholds_read Examples.low_thresholds_json Examples.low_thresholds /\
  (float_or_0 (popularity Examples.favourites_only)
     < min_popularity Examples.low_thresholds)%Q /\
  (float_or_0 (favourites Examples.favourites_only)
     < min_favourites Examples.low_thresholds)%Q /\
  (float_or_0 (max_character_trending Examples.favourites_only)
     < min_char_trending Examples.low_thresholds)%Q /\
  exists v,
    make_lifecycle_decision Examples.low_threshold_rules Examples.today
      Examples.favourites_only = Py.Returned v /\
    (composite_score v == keep_active_threshold Examples.low_thresholds)%Q /\
    verdict_action v = ARCHIVE /\
    verdict_action v <> EXTEND_GRACE.
Proof.
  split; [vm_compute; reflexivity |].
  split; [repeat split; vm_compute; reflexivity |].
  split; [vm_compute; reflexivity |].
  split; [vm_compute; reflexivity |].
  split; [vm_compute; reflexivity |].
  eexists. split; [vm_compute; reflexivity |].
  split; [vm_compute; reflexivity |].
  split; [reflexivity | discriminate].
Qed.

End LifecycleDecisionProps.

(** ** Loading the configuration *)

Module ConfigLoadingProps.

Import Json LifecycleRulesManager.

Lemma dict_get_set_same key value d :
  dict_get key (dict_set key value d) = Some value.
Proof.
  induction d as [| [k v] rest IH]; cbn.
  - now rewrite String.eqb_refl.
  - destruct (String.eqb k key) eqn:E; cbn; rewrite E; [reflexivity | exact IH].
Qed.

Lemma dict_get_set_other key key' value d :
  key <> key' -> dict_get key (dict_set key' value d) = dict_get key d.
Proof.
  intros Hneq. induction d as [| [k v] rest IH]; cbn.
  - destruct (String.eqb key' key) eqn:E; [| reflexivity].
    apply String.eqb_eq in E. congruence.
  - destruct (String.eqb k key') eqn:E; cbn.
    + apply String.eqb_eq in E. subst k.
      destruct (String.eqb key' key) eqn:E'; [| reflexivity].
      apply String.eqb_eq in E'. congruence.
    + destruct (String.eqb k key); [reflexivity | exact IH].
Qed.

Lemma dict_get_not_among key (d : dict) :
  existsb (String.eqb key) (map fst d) = false -> dict_get key d = None.
Proof.
  induction d as [| [k v] rest IH]; cbn; [reflexivity |].
  rewrite orb_false_iff. intros [Hk Hrest].
  rewrite String.eqb_sym, Hk. apply IH, Hrest.
Qed.

Lemma deep_merge_nil d : deep_merge (JObj []) d = d.
Proof. reflexivity. Qed.

Lemma deep_merge_cons key value rest d :
  deep_merge (JObj ((key, value) :: rest)) d =
  deep_merge (JObj rest) (dict_set key (merge_value (dict_get key d) value) d).
Proof.
  cbn. unfold merge_value.
  destruct (dict_get key d) as [[] |]; try reflexivity.
  destruct value; reflexivity.
Qed.

(** The merged dictionary, key by key. *)
Lemma deep_merge_get key config_dict d :
  distinct (map fst config_dict) = true ->
  dict_get key (deep_merge (JObj config_dict) d) =
  match dict_get key config_dict with
  | None => dict_get key d
  | Some value => Some (merge_value (dict_get key d) value)
  end.
Proof.
  revert d. induction config_dict as [| [k v] rest IH]; intros d Hdistinct.
  - reflexivity.
  - cbn [map fst distinct] in Hdistinct.
    apply andb_true_iff in Hdistinct as [Hk Hrest].
    apply negb_true_iff in Hk.
    rewrite deep_merge_cons, (IH _ Hrest). cbn [dict_get].
    destruct (String.eqb k key) eqn:E.
    + apply String.eqb_eq in E. subst k.
      rewrite (dict_get_not_among _ _ Hk). apply dict_get_set_same.
    + apply String.eqb_neq in E.
      rewrite (dict_get_set_other key k) by congruence. reflexivity.
Qed.

Lemma unique_keys_obj d :
  unique_keys (JObj d) = true ->
  distinct (map fst d) = true /\
  forall key value, dict_get key d = Some value -> unique_keys value = true.
Proof.
  cbn [unique_keys]. rewrite andb_true_iff. intros [Hdistinct Hall].
  split; [exact Hdistinct |]. clear Hdistinct.
  induction d as [| [k v] rest IH]; intros key value; cbn [dict_get].
  - discriminate.
  - apply andb_true_iff in Hall as [Hv Hrest].
    destruct (String.eqb k key).
    + intros [= <-]. exact Hv.
    + apply IH, Hrest.
Qed.

Lemma absent_get_path path j : absent path j -> get_path path j = None.
Proof.
  revert j. induction path as [| k rest IH]; intros j; cbn.
  - destruct j; contradiction.
  - destruct j; try contradiction.
    destruct (dict_get k fields); [apply IH | reflexivity].
Qed.

Lemma absent_nonempty path j : absent path j -> path <> [].
Proof. destruct path; [destruct j; contradiction | discriminate]. Qed.

Lemma absent_in_dict path j : absent path j -> exists d, j = JObj d.
Proof.
  destruct path, j; cbn; try contradiction; eauto.
Qed.

(** A key path that the file lacks holds, after the merge, what the
    defaults hold there. *)
Lemma deep_merge_absent path :
  forall config_dict d,
    unique_keys (JObj config_dict) = true ->
    absent path (JObj config_dict) ->
    get_path path (JObj (deep_merge (JObj config_dict) d)) =
    get_path path (JObj d).
Proof.
  induction path as [| k rest IH]; intros config_dict d Hunique Habsent.
  - contradiction.
  - destruct (unique_keys_obj _ Hunique) as [Hdistinct Hvalues].
    cbn [get_path]. rewrite (deep_merge_get _ _ _ Hdistinct).
    cbn [absent] in Habsent.
    destruct (dict_get k config_dict) as [value |] eqn:Evalue; [| reflexivity].
    specialize (Hvalues _ _ Evalue).
    pose proof (absent_nonempty _ _ Habsent) as Hrest.
    destruct (absent_in_dict _ _ Habsent) as [nested_config ->].
    unfold merge_value.
    destruct (dict_get k d) as [[| | | | | nested] |].
    1-5,7: rewrite (absent_get_path _ _ Habsent);
      destruct rest; [congruence | reflexivity].
    apply IH; assumption.
Qed.

(** A load leaves its mark on the class attribute: after the sample
    file, which sets the keep-active score to 10, the defaults that the
    next manager starts from hold 10 instead of 50. *)
Lemma load_updates_shared_defaults :
  exists cfg shared,
    _load_config (Some "rules.json"%string)
      (FileJson Examples.low_threshold_file) DEFAULT_CONFIG
      = Py.Returned (cfg, shared) /\
    cfg = config Examples.low_threshold_rules /\
    get_path ["thresholds"; "keep_active"; "min_composite_score"]%string
      (JObj DEFAULT_CONFIG) = Some (JNum 50) /\
    get_path ["thresholds"; "keep_active"; "min_composite_score"]%string
      (JObj shared) = Some (JNum 10) /\
    _load_config None FileMissing shared = Py.Returned (shared, shared).
Proof.
  eexists _, _. split; [reflexivity |].
  repeat split; vm_compute; reflexivity.
Qed.

(** C7, as amended. Loading the lifecycle rules never fails: a file that
    lacks a key is merged over the built-in defaults, so every key path
    missing from the file holds its default value in the loaded
    configuration, and a missing or unreadable file, or no path at all,
    gives the defaults as they are.  Loading the calculator's
    configuration never fails either: a parsed file is taken as it is,
    without any check of its keys, and the defaults stand in when there is
    no file or reading it raises. *)
Theorem missing_keys_take_defaults
  (path : option string) (file : file_state) (defaults : dict)
  (calculator_file : TrendingScoreCalculator.file_state) :
  (exists cfg shared,
     _load_config path file defaults = Py.Returned (cfg, shared) /\
     (forall document keys,
        PyStr.truthy path = true ->
        file = FileJson document ->
        unique_keys document = true ->
        absent keys document ->
        get_path keys (JObj cfg) = get_path keys (JObj defaults)) /\
     (PyStr.truthy path = false \/ file = FileMissing \/
      (exists e, file = FileUnreadable e) ->
      cfg = defaults)) /\
  (exists c,
     TrendingScoreCalculator._load_trending_config calculator_file
       = Py.Returned c /\
     (forall document,
        calculator_file = TrendingScoreCalculator.FileJson document ->
        c = document) /\
     (calculator_file = TrendingScoreCalculator.FileMissing \/
      (exists e, calculator_file = TrendingScoreCalculator.FileUnreadable e) ->
      c = TrendingScoreCalculator._get_default_config)).
Proof.
  split.
  - unfold _load_config.
    destruct (PyStr.truthy path) eqn:Epath; cbn [negb].
    + destruct file as [| e | document]; cbn [Py.try_except].
      * exists defaults, defaults. split; [reflexivity |].
        split; [discriminate | reflexivity].
      * exists defaults, defaults. split; [reflexivity |].
        split; [discriminate | reflexivity].
      * destruct document as [| b | q | s | items | config_dict];
          cbn [_merge_with_default Py.try_except].
        1-5: exists defaults, defaults; split; [reflexivity |];
          split;
          [ intros document keys _ [= <-] _ Habsent;
            destruct keys; contradiction
          | reflexivity ].
        eexists _, _. split; [reflexivity |]. split.
        -- intros document keys _ [= <-] Hunique Habsent.
           apply deep_merge_absent; assumption.
        -- intros [H | [H | [e H]]]; discriminate.
    + exists defaults, defaults. split; [reflexivity |].
      split; [discriminate | reflexivity].
  - unfold TrendingScoreCalculator._load_trending_config.
    destruct calculator_file as [| e | document]; cbn [Py.try_except].
    + eexists. split; [reflexivity |].
      split; [discriminate | reflexivity].
    + eexists. split; [reflexivity |].
      split; [discriminate | reflexivity].
    + exists document. split; [reflexivity |].
      split; [intros d [= <-]; reflexivity |].
      intros [H | [e H]]; discriminate.
Qed.

(** A rules file without the key [periods] is loaded with the default
    grace period of 42 days. *)
Lemma missing_keys_take_defaults_witness :
  exists cfg shared,
    _load_config (Some "rules.json"%string)
      (FileJson Examples.low_threshold_file) DEFAULT_CONFIG
      = Py.Returned (cfg, shared) /\
    get_path ["periods"%string; "grace_period_days"%string] (JObj cfg)
      = Some (JNum 42).
Proof.
  destruct (missing_keys_take_defaults (Some "rules.json"%string)
              (FileJson Examples.low_threshold_file) DEFAULT_CONFIG
              TrendingScoreCalculator.FileMissing)
    as [(cfg & shared & Hload & Hdefaults & _) _].
  exists cfg, shared. split; [exact Hload |].
  rewrite (Hdefaults Examples.low_threshold_file
             ["periods"%string; "grace_period_days"%string]).
  - reflexivity.
  - reflexivity.
  - reflexivity.
  - vm_compute; reflexivity.
  - exact I.
Defined.

(** C7, as stated, refuted. A rules file that lacks [periods] (and more)
    does not stop the lifecycle service: the manager is built and answers
    with the default grace period.  A calculator configuration that lacks
    [base_score] is loaded as it is, and the missing key shows up when a
    character is scored. *)
Lemma incomplete_configuration_is_accepted :
  absent ["periods"%string; "grace_period_days"%string]
    Examples.low_threshold_file /\
  (exists manager shared,
     init (Some "rules.json"%string) (FileJson Examples.low_threshold_file)
       DEFAULT_CONFIG = Py.Returned (manager, shared) /\
     get_grace_period_days manager = Py.Returned 42%Q) /\
  Examples.no_base_score_file !! "base_score"%string = None /\
  TrendingScoreCalculator._load_trending_config
    (TrendingScoreCalculator.FileJson Examples.no_base_score_file)
    = Py.Returned Examples.no_base_score_file /\
  TrendingScoreCalculator.calculate_trending_score Examples.no_base_score_file
    Examples.fresh_session Examples.now Examples.new_character
    = Py.Raised Py.KeyError.
Proof.
  split; [exact I |].
  split; [eexists _, _; split; vm_compute; reflexivity |].
  split; [vm_compute; reflexivity |].
  split; [reflexivity |].
  vm_compute; reflexivity.
Qed.

End ConfigLoadingProps.

(** ** Series whose grace period has run out *)

Module GracePeriodProps.

Import LifecycleRepository SeriesLifecycleEngine PyQFacts.








End GracePeriodProps.

(** ** Retention pruning and roll-ups *)

Module AggregationProps.

Import Calendar AggregationProcessor.

(** The test of the loop is the age against the window of the period
    type. *)
Lemma should_keep_iff c now data :
  should_keep c now data = true <->
  days_between now (timestamp data) <= retention_days c (aggregation_period data).
Proof.
  unfold should_keep, retention_days.
  destruct (aggregation_period data); apply Z.leb_le.
Qed.

(** The loop of [cleanup_old_data] appends the entries that pass the
    test, in order. *)
Lemma cleanup_loop_kept c now data kept stats :
  fst (fold_left
         (fun (acc : list HistoricalData * cleanup_stats) x =>
            if should_keep c now x
            then (fst acc ++ [x], snd acc)
            else (fst acc, count_removed (aggregation_period x) (snd acc)))
         data (kept, stats))
  = kept ++ List.filter (should_keep c now) data.
Proof.
  revert kept stats. induction data as [| x rest IH]; intros kept stats; cbn.
  - now rewrite app_nil_r.
  - destruct (should_keep c now x); cbn; rewrite IH; [| reflexivity].
    now rewrite <- app_assoc.
Qed.

Lemma cleanup_old_data_kept c now data :
  fst (cleanup_old_data c now data) = List.filter (should_keep c now) data.
Proof.
  unfold cleanup_old_data. now rewrite cleanup_loop_kept.
Qed.

(** C6, as amended. Pruning keeps exactly the aggregates whose age in
    whole days does not exceed the retention window of their period type.
    So an entity that has an aggregate within its window keeps it, and an
    entity all of whose aggregates are older than their windows is left
    with none: the most recent aggregate is not protected. *)
Theorem pruning_keeps_exactly_recent
  (c : retention) (now : datetime) (data : list HistoricalData) :
  (forall x,
     In x (fst (cleanup_old_data c now data)) <->
     In x data /\
     days_between now (timestamp x)
       <= retention_days c (aggregation_period x)) /\
  (forall entity,
     (exists x,
        In x data /\ entity_id x = entity /\
        days_between now (timestamp x)
          <= retention_days c (aggregation_period x)) ->
     exists y,
       In y (fst (cleanup_old_data c now data)) /\ entity_id y = entity) /\
  (forall entity,
     (forall x,
        In x data -> entity_id x = entity ->
        retention_days c (aggregation_period x)
          < days_between now (timestamp x)) ->
     forall y,
       In y (fst (cleanup_old_data c now data)) -> entity_id y <> entity).
Proof.
  assert (Hkept : forall x,
             In x (fst (cleanup_old_data c now data)) <->
             In x data /\
             days_between now (timestamp x)
               <= retention_days c (aggregation_period x)).
  { intros x. rewrite cleanup_old_data_kept, filter_In, should_keep_iff.
    reflexivity. }
  split; [exact Hkept |]. split.
  - intros entity (x & Hin & Hentity & Hrecent).
    exists x. split; [apply Hkept; split; assumption | exact Hentity].
  - intros entity Hold y Hin Hentity.
    apply Hkept in Hin as [Hin Hrecent].
    specialize (Hold y Hin Hentity). lia.
Qed.

(** With a daily window of 30 days, the entity with a three-day-old entry
    keeps it. *)
Lemma pruning_keeps_exactly_recent_witness :
  exists y,
    In y (fst (cleanup_old_data Examples.retention Examples.now
                 Examples.stale_history)) /\
    entity_id y = 2.
Proof.
  apply (proj1 (proj2 (pruning_keeps_exactly_recent Examples.retention
                         Examples.now Examples.stale_history)) 2).
  exists (Examples.daily_entry 2 3 0 55).
  split; [right; left; reflexivity |].
  split; [reflexivity | vm_compute; discriminate].
Defined.

(** C6, as stated, refuted. Entity 1 has one aggregate before pruning,
    31 days old; after pruning with a daily window of 30 days it has
    none. *)
Lemma only_aggregate_is_pruned :
  (exists x, In x Examples.stale_history /\ entity_id x = 1) /\
  forall y,
    In y (fst (cleanup_old_data Examples.retention Examples.now
                 Examples.stale_history)) ->
    entity_id y <> 1.
Proof.
  split.
  - exists (Examples.daily_entry 1 31 0 40). split; [left |]; reflexivity.
  - intros y Hin. vm_compute in Hin.
    destruct Hin as [<- | []]. vm_compute. discriminate.
Qed.

(** The weekly window is a Monday of the timestamp's week, at the
    timestamp's own time of day. *)
Lemma weekly_window_keeps_time_of_day t :
  weekday (_get_time_window t 7) = 0 /\
  ordinal t - 6 <= ordinal (_get_time_window t 7) <= ordinal t /\
  time_of_day (_get_time_window t 7) = time_of_day t.
Proof.
  unfold _get_time_window, minus_days, weekday. cbn.
  pose proof (Z.mod_pos_bound (ordinal t + 6) 7 ltac:(lia)) as Hmod.
  split; [| split; [lia | reflexivity]].
  pose proof (Z.div_mod (ordinal t + 6) 7 ltac:(lia)) as Hdiv.
  replace (ordinal t - (ordinal t + 6) mod 7 + 6)
    with ((ordinal t + 6) / 7 * 7) by lia.
  apply Z.mod_mul. lia.
Qed.

(** C9 at the failing input. Two snapshots of entity 1 taken on the
    Tuesday at ten and the Wednesday at eleven of one calendar week get
    two different weekly windows, both dated Monday 2024-04-22 but at ten
    and at eleven o'clock, and the weekly roll-up returns two aggregates
    of one data point each instead of one aggregate of two.  Taken at the
    same time of day they fold into one. *)
Theorem same_week_snapshots_are_split :
  map (fun x => (timestamp x, data_points x))
    (aggregate_daily_to_weekly Examples.same_week_snapshots)
  = [ ({| ordinal := 738998; time_of_day := Examples.ten_am |}, 1);
      ({| ordinal := 738998; time_of_day := Examples.eleven_am |}, 1) ] /\
  ord2ymd 738998 = (2024, 4, 22) /\
  map (fun x => (timestamp x, data_points x))
    (aggregate_daily_to_weekly Examples.same_time_snapshots)
  = [ ({| ordinal := 738998; time_of_day := Examples.ten_am |}, 2) ].
Proof.
  repeat split; vm_compute; reflexivity.
Qed.

End AggregationProps.

(** ** The calculator: base score and growth *)

Module CalculatorProps.

Import Calendar TrendingScoreCalculator PyQFacts.

Lemma Q2R_inject_Z z : Q2R (inject_Z z) = IZR z.
Proof. unfold Q2R, inject_Z. cbn. field. Qed.

Lemma Q2R_max a b : Q2R (PyQ.max a b) = Rmax (Q2R a) (Q2R b).
Proof.
  unfold PyQ.max. destruct (PyQ.ltb a b) eqn:E.
  - apply ltb_lt, Qlt_Rlt in E. rewrite Rmax_right; lra.
  - apply ltb_ge, Qle_Rle in E. rewrite Rmax_left; lra.
Qed.

Lemma ln_10_pos : (0 < ln 10)%R.
Proof. rewrite <- ln_1. apply ln_increasing; lra. Qed.

Lemma log10_pos x : (1 < x)%R -> (0 < log10 x)%R.
Proof.
  intros Hx. unfold log10. apply Rdiv_lt_0_compat; [| apply ln_10_pos].
  rewrite <- ln_1. apply ln_increasing; lra.
Qed.

(** C5. For every non-negative number of favourites, with
    [min_favourites] and [multiplier] read from the [base_score] section
    of the configuration, the base score is
    [log10(max(favourites, min_favourites) + 1) * multiplier]; with
    [min_favourites = 1] and [multiplier = 100], no favourites at all give
    [log10(2) * 100], which is strictly positive. *)
Theorem base_score_formula
  (c : config) (section : gmap string Q) (min_fav multiplier : Q)
  (favourites : Z) :
  c !! "base_score"%string = Some section ->
  section !! "min_favourites"%string = Some min_fav ->
  section !! "multiplier"%string = Some multiplier ->
  0 <= favourites ->
  calculate_base_score c favourites
    = Py.Returned
        (log10 (Rmax (IZR favourites) (Q2R min_fav) + 1) * Q2R multiplier)%R /\
  ((min_fav == 1)%Q -> (multiplier == 100)%Q -> favourites = 0 ->
   calculate_base_score c favourites = Py.Returned (log10 2 * 100)%R /\
   (0 < log10 2 * 100)%R).
Proof.
  intros Hsection Hmin Hmult Hfav.
  assert (Hvalue :
            calculate_base_score c favourites
            = Py.Returned
                (log10 (Rmax (IZR favourites) (Q2R min_fav) + 1)
                 * Q2R multiplier)%R).
  { unfold calculate_base_score, item. unfold config in *.
    rewrite Hsection. cbn [Py.bind]. rewrite Hmin. cbn [Py.bind].
    destruct (Qle_bool (PyQ.max (inject_Z favourites) min_fav + 1) 0) eqn:E.
    - exfalso. apply Qle_bool_iff in E.
      assert (0 <= inject_Z favourites)%Q
        by (change (inject_Z 0 <= inject_Z favourites)%Q;
            rewrite <- Zle_Qle; exact Hfav).
      unfold PyQ.max in E.
      destruct (PyQ.ltb (inject_Z favourites) min_fav) eqn:E';
        [apply ltb_lt in E' | apply ltb_ge in E']; lra.
    - rewrite Hmult. cbn [Py.bind].
      rewrite Q2R_plus, Q2R_max, Q2R_inject_Z.
      replace (Q2R 1) with 1%R by (unfold Q2R; cbn; field).
      reflexivity. }
  split; [exact Hvalue |].
  intros Hone Hhundred ->. split.
  - rewrite Hvalue. f_equal.
    rewrite (Qeq_eqR _ _ Hone), (Qeq_eqR _ _ Hhundred).
    replace (Q2R 1) with 1%R by (unfold Q2R; cbn; field).
    replace (Q2R 100) with 100%R by (unfold Q2R; cbn; field).
    rewrite Rmax_right by lra.
    replace (1 + 1)%R with 2%R by ring. reflexivity.
  - apply Rmult_lt_0_compat; [apply log10_pos |]; lra.
Qed.

(** The built-in configuration gives the floor [log10(2) * 100] to a
    character without favourites. *)
Lemma base_score_formula_witness :
  calculate_base_score _get_default_config 0 = Py.Returned (log10 2 * 100)%R /\
  (0 < log10 2 * 100)%R.
Proof.
  apply (proj2 (base_score_formula _get_default_config
                  Examples.base_score_section 1 100 0
                  ltac:(vm_compute; reflexivity)
                  ltac:(vm_compute; reflexivity)
                  ltac:(vm_compute; reflexivity)
                  ltac:(lia))).
  - reflexivity.
  - reflexivity.
  - reflexivity.
Defined.

(** The clamp of the code agrees with the clamp of the specification. *)
Lemma clamp_agrees lo hi x y :
  (x == y)%Q ->
  (PyQ.max lo (PyQ.min hi x) == GrowthSpec.clamp y lo hi)%Q.
Proof.
  intros Hxy. unfold GrowthSpec.clamp.
  destruct (Q.max_spec lo (Qmin y hi)) as [[? ->] | [? ->]];
    destruct (Q.min_spec y hi) as [[? Hmin] | [? Hmin]];
    rewrite Hmin in *; unfold PyQ.max, PyQ.min; cases; lra.
Qed.

(** One look-back of the loop against the growth term of the
    specification. *)
Lemma growth_component_term s g now cid cur days key w :
  g !! key = Some w ->
  exists x,
    growth_component s g now cid cur days key = Py.Returned x /\
    (x == w * GrowthSpec.growth_term cur
              (_get_historical_favourites s cid (minus_days now days)))%Q.
Proof.
  intros Hw. unfold growth_component, GrowthSpec.growth_term.
  destruct (_get_historical_favourites s cid (minus_days now days)) as [h |].
  - destruct (0 <? h).
    + unfold item. rewrite Hw. cbn [Py.bind].
      eexists. split; [reflexivity | ring].
    + eexists. split; [reflexivity | ring].
  - eexists. split; [reflexivity | ring].
Qed.

(** Without history a look-back contributes nothing and reads no
    weight. *)
Lemma growth_component_no_history s g now cid cur days key :
  _get_historical_favourites s cid (minus_days now days) = None ->
  growth_component s g now cid cur days key = Py.Returned 0%Q.
Proof.
  intros Hnone. unfold growth_component. now rewrite Hnone.
Qed.

(** The score method fails only when the base score does, and its
    components are the factors of the product. *)
Lemma trending_score_structure c s now ch b :
  calculate_base_score c (favourites ch) = Py.Returned b ->
  exists score comps,
    calculate_trending_score c s now ch = Py.Returned (score, comps) /\
    match comps with
    | Components base growth series gender role recency final =>
        base = b /\
        growth = calculate_growth_multiplier c s now (id ch) /\
        series = calculate_series_boost c (ordinal now) ch /\
        final = score /\
        score = (base * Q2R growth * Q2R series * Q2R gender *
                 Q2R role * Q2R recency)%R
    | FallbackComponents base _ => base = b /\ score = b
    end.
Proof.
  intros Hbase. unfold calculate_trending_score. rewrite Hbase.
  cbn [Py.bind].
  destruct (calculate_gender_boost c (gender ch)) as [gb | e];
    cbn [Py.bind Py.try_except];
    [| eexists _, _; split; [reflexivity | split; reflexivity]].
  destruct (calculate_role_boost c ch) as [rb | e];
    cbn [Py.bind Py.try_except];
    [| eexists _, _; split; [reflexivity | split; reflexivity]].
  destruct (calculate_recency_factor c now (last_fetched_at ch)) as [rf | e];
    cbn [Py.bind Py.try_except];
    [| eexists _, _; split; [reflexivity | split; reflexivity]].
  eexists _, _. split; [reflexivity |]. repeat split.
Qed.

(** C4, as amended. For a character whose current favourites are known
    and not zero, with the weights and limits read from the
    [growth_calculation] section, the growth multiplier is
    [clamp(1 + sum of weight_d * growth_d, min, max)], where [growth_d] is
    [(current - historical_d) / historical_d] when a historical value
    greater than 0 exists at the look-back of [d] days and 0 otherwise.
    When the current favourites are unknown or zero the multiplier is 1.
    A character without any history gets [clamp(1, min, max)], which is 1
    whenever the limits enclose 1, and its trending score is produced as
    soon as its base score is. *)
Theorem growth_multiplier_follows_history
  (c : config) (s : session) (now : datetime) (character_id : Z) :
  (forall g w7 w30 w90 lo hi current,
     c !! "growth_calculation"%string = Some g ->
     g !! "weight_7_days"%string = Some w7 ->
     g !! "weight_30_days"%string = Some w30 ->
     g !! "weight_90_days"%string = Some w90 ->
     g !! "min_multiplier"%string = Some lo ->
     g !! "max_multiplier"%string = Some hi ->
     _get_current_favourites s character_id = Some current ->
     current <> 0 ->
     (calculate_growth_multiplier c s now character_id ==
      GrowthSpec.growth_multiplier w7 w30 w90
        (GrowthSpec.growth_term current
           (_get_historical_favourites s character_id (minus_days now 7)))
        (GrowthSpec.growth_term current
           (_get_historical_favourites s character_id (minus_days now 30)))
        (GrowthSpec.growth_term current
           (_get_historical_favourites s character_id (minus_days now 90)))
        lo hi)%Q) /\
  (_get_current_favourites s character_id = None \/
   _get_current_favourites s character_id = Some 0 ->
   calculate_growth_multiplier c s now character_id = 1%Q) /\
  ((forall threshold,
      _get_historical_favourites s character_id threshold = None) ->
   (forall g lo hi,
      c !! "growth_calculation"%string = Some g ->
      g !! "min_multiplier"%string = Some lo ->
      g !! "max_multiplier"%string = Some hi ->
      (lo <= 1 <= hi)%Q) ->
   (calculate_growth_multiplier c s now character_id == 1)%Q) /\
  (forall ch b,
     id ch = character_id ->
     calculate_base_score c (favourites ch) = Py.Returned b ->
     exists score comps,
       calculate_trending_score c s now ch = Py.Returned (score, comps) /\
       forall base growth series gender role recency final,
         comps = Components base growth series gender role recency final ->
         growth = calculate_growth_multiplier c s now character_id /\
         score = (b * Q2R growth * Q2R series * Q2R gender *
                  Q2R role * Q2R recency)%R).
Proof.
  split; [| split; [| split]].
  - intros g w7 w30 w90 lo hi current Hg H7 H30 H90 Hlo Hhi Hcur Hnz.
    unfold calculate_growth_multiplier, item. unfold config in *.
    rewrite Hg. cbn [Py.bind]. rewrite Hcur.
    apply Z.eqb_neq in Hnz. rewrite Hnz.
    destruct (growth_component_term s g now character_id current 7 _ _ H7)
      as (x7 & -> & E7).
    destruct (growth_component_term s g now character_id current 30 _ _ H30)
      as (x30 & -> & E30).
    destruct (growth_component_term s g now character_id current 90 _ _ H90)
      as (x90 & -> & E90).
    cbn [Py.bind]. rewrite Hhi, Hlo. cbn [Py.bind or_on_error].
    unfold GrowthSpec.growth_multiplier.
    apply clamp_agrees. rewrite E7, E30, E90. ring.
  - intros Hcur. unfold calculate_growth_multiplier, item.
    unfold config in *.
    destruct (c !! "growth_calculation"%string); cbn [Py.bind or_on_error];
      [| reflexivity].
    destruct Hcur as [-> | ->]; reflexivity.
  - intros Hnone Hlimits.
    unfold calculate_growth_multiplier, item. unfold config in *.
    destruct (c !! "growth_calculation"%string) as [g |] eqn:Hg;
      cbn [Py.bind or_on_error]; [| reflexivity].
    destruct (_get_current_favourites s character_id) as [current |];
      [| reflexivity].
    destruct (current =? 0); [reflexivity |].
    rewrite !growth_component_no_history by apply Hnone.
    cbn [Py.bind].
    destruct (g !! "max_multiplier"%string) as [hi |] eqn:Hhi;
      cbn [Py.bind or_on_error]; [| reflexivity].
    destruct (g !! "min_multiplier"%string) as [lo |] eqn:Hlo;
      cbn [Py.bind or_on_error]; [| reflexivity].
    specialize (Hlimits g lo hi eq_refl Hlo Hhi).
    unfold PyQ.max, PyQ.min. cases; lra.
  - intros ch b <- Hbase.
    destruct (trending_score_structure c s now ch b Hbase)
      as (score & comps & Hscore & Hcomps).
    exists score, comps. split; [exact Hscore |].
    intros base growth series gender role recency final ->.
    destruct Hcomps as (-> & -> & _ & _ & ->). split; reflexivity.
Qed.

(** With the built-in weights and limits, a character that grew from
    1000 to 1200 favourites gets the multiplier 1.2. *)
Lemma growth_multiplier_follows_history_witness :
  (calculate_growth_multiplier _get_default_config Examples.recorded_session
     Examples.now 3%Z == 12 # 10)%Q.
Proof.
  rewrite (proj1 (growth_multiplier_follows_history _get_default_config
                    Examples.recorded_session Examples.now 3)
             Examples.growth_section (5 # 10) (3 # 10) (2 # 10) (1 # 10)
             5%Q 1200
             ltac:(vm_compute; reflexivity) ltac:(vm_compute; reflexivity)
             ltac:(vm_compute; reflexivity) ltac:(vm_compute; reflexivity)
             ltac:(vm_compute; reflexivity) ltac:(vm_compute; reflexivity)
             ltac:(vm_compute; reflexivity) ltac:(lia)).
  vm_compute. reflexivity.
Defined.

(** C4, as stated, refuted. A character whose favourites fell from 100,
    recorded 100 days ago, to 0 has the growth term -1 at every look-back,
    so the stated multiplier is [clamp(1 - 1, 0.1, 5) = 0.1]; the code
    returns 1. *)
Lemma vanished_favourites_are_neutral :
  _get_current_favourites Examples.recorded_session 2 = Some 0 /\
  _get_historical_favourites Examples.recorded_session 2
    (minus_days Examples.now 7) = Some 100 /\
  _get_historical_favourites Examples.recorded_session 2
    (minus_days Examples.now 30) = Some 100 /\
  _get_historical_favourites Examples.recorded_session 2
    (minus_days Examples.now 90) = Some 100 /\
  (GrowthSpec.growth_multiplier (5 # 10) (3 # 10) (2 # 10)
     (GrowthSpec.growth_term 0%Z (Some 100%Z))
     (GrowthSpec.growth_term 0%Z (Some 100%Z))
     (GrowthSpec.growth_term 0%Z (Some 100%Z)) (1 # 10) 5 == 1 # 10)%Q /\
  calculate_growth_multiplier _get_default_config Examples.recorded_session
    Examples.now 2 = 1%Q /\
  ~ (calculate_growth_multiplier _get_default_config Examples.recorded_session
       Examples.now 2%Z ==
     GrowthSpec.growth_multiplier (5 # 10) (3 # 10) (2 # 10)
       (GrowthSpec.growth_term 0%Z (Some 100%Z))
       (GrowthSpec.growth_term 0%Z (Some 100%Z))
       (GrowthSpec.growth_term 0%Z (Some 100%Z)) (1 # 10) 5)%Q.
Proof.
  repeat split; try (vm_compute; reflexivity).
  vm_compute. discriminate.
Qed.

End CalculatorProps.

(** ** The normalised scores of the trending processor *)

Module TrendingProcessorProps.

Import TrendingProcessor.



End TrendingProcessorProps.

(** ** Score records across the three scoring paths *)

Module ScoreRecordProps.

Import PyQFacts.


Lemma Q2R_1 : Q2R 1 = 1%R.
Proof. unfold Q2R. cbn. field. Qed.







End ScoreRecordProps.

(** * Further properties *)

(** ** The boost tables: tiers and keywords *)

Module BoostTableProps.

Import TrendingConfig PyQFacts.









(** X2. The recency tiers are scanned in the order of the file, without
    sorting: a tier listed after a tier with an equal or larger
    [max_years_ago] is never used, so removing it changes no boost. *)
Theorem shadowed_recency_tier_is_unused
  (c c' : t) (before between after : list RecencyTier)
  (wide narrow : RecencyTier) (season_year : option Z) :
  recency_tiers c = before ++ wide :: between ++ narrow :: after ->
  recency_tiers c' = before ++ wide :: between ++ after ->
  recency_current_year c' = recency_current_year c ->
  rt_max_years_ago narrow <= rt_max_years_ago wide ->
  get_recency_boost c' season_year = get_recency_boost c season_year.
Proof.
  intros Hc Hc' Hyear Hle.
  unfold get_recency_boost. rewrite Hc, Hc', Hyear. clear Hc Hc' Hyear.
  destruct season_year as [y |]; [| reflexivity].
  destruct (y =? 0); [reflexivity |].
  generalize (recency_current_year c - y). intros years_ago.
  induction before as [| b before IH]; cbn.
  - destruct (years_ago <=? rt_max_years_ago wide) eqn:E; [reflexivity |].
    apply Z.leb_gt in E.
    induction between as [| a between IH]; cbn.
    + destruct (years_ago <=? rt_max_years_ago narrow) eqn:E';
        [apply Z.leb_le in E'; lia | reflexivity].
    + destruct (years_ago <=? rt_max_years_ago a); [reflexivity | exact IH].
  - destruct (years_ago <=? rt_max_years_ago b); [reflexivity | exact IH].
Qed.

Lemma prefix_has_upper k s :
  String.prefix k s = true ->
  PyStr.has_upper k = true -> PyStr.has_upper s = true.
Proof.
  revert s. induction k as [| a k IH]; intros s;
    [cbn; intros _ H; discriminate H |].
  destruct s as [| b s]; cbn [String.prefix PyStr.has_upper];
    [intros H; discriminate H |].
  destruct (Ascii.ascii_dec a b) as [<- |]; [| intros H; discriminate H].
  intros Hprefix. rewrite !orb_true_iff.
  intros [H | H]; [left; exact H | right; exact (IH _ Hprefix H)].
Qed.

Lemma contains_has_upper k s :
  PyStr.contains k s = true ->
  PyStr.has_upper k = true -> PyStr.has_upper s = true.
Proof.
  induction s as [| b s IH]; cbn [PyStr.contains]; rewrite orb_true_iff.
  - intros [H | H]; [apply prefix_has_upper; exact H | discriminate].
  - intros [H | H] Hk; [exact (prefix_has_upper _ _ H Hk) |].
    cbn. rewrite (IH H Hk). apply orb_true_r.
Qed.

Lemma lower_ascii_not_upper a : PyStr.is_upper (PyStr.lower_ascii a) = false.
Proof.
  destruct a as [[] [] [] [] [] [] [] []]; vm_compute; reflexivity.
Qed.

Lemma lower_has_no_upper s : PyStr.has_upper (PyStr.lower s) = false.
Proof.
  induction s as [| a s IH]; cbn; [reflexivity |].
  now rewrite lower_ascii_not_upper, IH.
Qed.

(** A keyword with an upper-case letter is not found in a lowered name. *)
Lemma upper_keyword_not_contained k s :
  PyStr.has_upper k = true -> PyStr.contains k (PyStr.lower s) = false.
Proof.
  intros Hk. destruct (PyStr.contains k (PyStr.lower s)) eqn:E; [| reflexivity].
  pose proof (contains_has_upper _ _ E Hk) as H.
  rewrite lower_has_no_upper in H. discriminate.
Qed.

(** X3. Only the series name is lowered before the keyword search, not
    the configured keywords: a keyword group all of whose keywords contain
    an upper-case ASCII letter never matches, so every series name gets the
    boost it would get without that group. *)
Theorem upper_case_keywords_never_match
  (c c' : t) (before after : list KeywordGroup) (g : KeywordGroup)
  (series_name : option string) :
  trending_keywords c = before ++ g :: after ->
  trending_keywords c' = before ++ after ->
  default_boost c' = default_boost c ->
  (forall k, In k (kg_keywords g) -> PyStr.has_upper k = true) ->
  get_series_keywords_boost c series_name
  = get_series_keywords_boost c' series_name.
Proof.
  intros Hc Hc' Hdefault Hupper. unfold get_series_keywords_boost.
  rewrite Hc, Hc', Hdefault. clear Hc Hc' Hdefault.
  destruct series_name as [s |]; [| reflexivity].
  destruct (PyStr.truthy (Some s)); [| reflexivity].
  induction before as [| b before IH]; cbn.
  - replace (existsb _ (kg_keywords g)) with false; [reflexivity |].
    symmetry. apply not_true_is_false. intros H.
    apply existsb_exists in H as (k & Hk & Hcontains).
    rewrite (upper_keyword_not_contained k s (Hupper k Hk)) in Hcontains.
    discriminate.
  - destruct (existsb _ (kg_keywords b)); [reflexivity | exact IH].
Qed.

Lemma contains_empty s : PyStr.contains "" s = true.
Proof. destruct s; reflexivity. Qed.

(** X4. The empty string is a substring of every name: when the first
    keyword group lists an empty keyword, every series with a non-empty
    name gets that group's boost, whatever the other groups and the
    default say. *)
Theorem empty_keyword_matches_every_name
  (c : t) (g : KeywordGroup) (rest : list KeywordGroup) (name : string) :
  trending_keywords c = g :: rest ->
  In ""%string (kg_keywords g) ->
  name <> ""%string ->
  get_series_keywords_boost c (Some name) = kg_boost g.
Proof.
  intros Hc Hempty Hname. unfold get_series_keywords_boost. rewrite Hc.
  destruct name as [| a name]; [congruence |]. cbn [PyStr.truthy].
  cbn [first_keyword_group].
  replace (existsb _ (kg_keywords g)) with true; [reflexivity |].
  symmetry. apply existsb_exists. exists ""%string.
  split; [exact Hempty | apply contains_empty].
Qed.

(** X5. The two entry points of the pipeline agree: the breakdown's
    [raw_total] is the product of its seven boosts, its [capped_total] is
    the multiplier that [calculate_total_multiplier] returns for the same
    arguments, and when the raw product lies within the limits the capped
    total is the raw product. *)
Theorem breakdown_agrees_with_total_multiplier (c : t) (p : BoostParams) :
  let b := get_boost_breakdown c p in
  (raw_total b ==
   gender_boost b * popularity_boost b * status_boost b * recency_boost b *
   format_boost b * role_boost b * keywords_boost b)%Q /\
  (capped_total b == calculate_total_multiplier c p)%Q /\
  ((min_total_multiplier c <= raw_total b <= max_total_multiplier c)%Q ->
   (capped_total b == raw_total b)%Q).
Proof.
  cbv zeta. split; [| split].
  - unfold get_boost_breakdown. cbn. ring.
  - apply TrendingConfigProps.capped_total_is_total_multiplier.
  - intros Hinside.
    change (capped_total (get_boost_breakdown c p))
      with (PyQ.max (min_total_multiplier c)
              (PyQ.min (raw_total (get_boost_breakdown c p))
                 (max_total_multiplier c))).
    apply clamp_inside, Hinside.
Qed.

(** A tier of 3 years listed after the tier of 5 years changes nothing:
    a series of 2022, three years old in 2025, gets the boost of the tier
    of 5 years with or without it. *)
Lemma shadowed_recency_tier_is_unused_witness :
  get_recency_boost
    (Examples.boost_config_with [Examples.tier_1_year; Examples.tier_5_years]
       [])
    (Some 2022)
  = get_recency_boost
      (Examples.boost_config_with
         [Examples.tier_1_year; Examples.tier_5_years; Examples.tier_3_years]
         [])
      (Some 2022).
Proof.
  apply (shadowed_recency_tier_is_unused _ _ [Examples.tier_1_year] [] []
           Examples.tier_5_years Examples.tier_3_years).
  - reflexivity.
  - reflexivity.
  - reflexivity.
  - cbn. lia.
Defined.

(** The keyword [Naruto], written with a capital, does not boost
    "Naruto Shippuden". *)
Lemma upper_case_keywords_never_match_witness :
  get_series_keywords_boost
    (Examples.boost_config_with []
       [Examples.capital_keywords; Examples.slayer_keywords])
    (Some "Naruto Shippuden"%string)
  = get_series_keywords_boost
      (Examples.boost_config_with [] [Examples.slayer_keywords])
      (Some "Naruto Shippuden"%string).
Proof.
  apply (upper_case_keywords_never_match _ _ [] [Examples.slayer_keywords]
           Examples.capital_keywords).
  - reflexivity.
  - reflexivity.
  - reflexivity.
  - intros k [<- | []]. vm_compute. reflexivity.
Defined.

(** A first group with an empty keyword boosts "Bleach". *)
Lemma empty_keyword_matches_every_name_witness :
  get_series_keywords_boost
    (Examples.boost_config_with []
       [Examples.blank_keywords; Examples.slayer_keywords])
    (Some "Bleach"%string)
  = (15 # 10)%Q.
Proof.
  apply (empty_keyword_matches_every_name _ Examples.blank_keywords
           [Examples.slayer_keywords]).
  - reflexivity.
  - left. reflexivity.
  - discriminate.
Defined.

(** For the popular sample character the capped total of the breakdown
    is the multiplier that [calculate_total_multiplier] returns. *)
Lemma breakdown_agrees_with_total_multiplier_witness :
  (capped_total (get_boost_breakdown Examples.boost_config
                   Examples.popular_params)
   == calculate_total_multiplier Examples.boost_config
        Examples.popular_params)%Q.
Proof.
  apply (proj1 (proj2 (breakdown_agrees_with_total_multiplier
                         Examples.boost_config Examples.popular_params))).
Defined.

End BoostTableProps.

(** ** Merging a rules file over the defaults *)

Module ConfigMergeProps.

Import Json LifecycleRulesManager.

Lemma merge_value_plain current value :
  is_object value = false -> merge_value current value = value.
Proof.
  intros H. unfold merge_value.
  destruct current as [[] |]; try reflexivity. destruct value; try reflexivity.
  discriminate.
Qed.

Lemma deep_merge_present path :
  forall config_dict d v,
    unique_keys (JObj config_dict) = true ->
    path <> [] ->
    get_path path (JObj config_dict) = Some v ->
    is_object v = false ->
    get_path path (JObj (deep_merge (JObj config_dict) d)) = Some v.
Proof.
  induction path as [| k rest IH]; intros config_dict d v Hunique Hpath Hget Hv.
  - congruence.
  - destruct (ConfigLoadingProps.unique_keys_obj _ Hunique) as [Hdistinct Hvalues].
    cbn [get_path] in *.
    rewrite (ConfigLoadingProps.deep_merge_get _ _ _ Hdistinct).
    destruct (dict_get k config_dict) as [value |] eqn:Evalue; [| discriminate].
    specialize (Hvalues _ _ Evalue).
    destruct rest as [| k' rest].
    + cbn in Hget. injection Hget as ->.
      rewrite merge_value_plain by assumption. reflexivity.
    + destruct value as [| | | | | nested_config]; try discriminate Hget.
      unfold merge_value.
      destruct (dict_get k d) as [[| | | | | nested] |]; try exact Hget.
      apply IH; [assumption | discriminate | assumption | assumption].
Qed.

Lemma shared_after_get key defaults merged config_dict :
  dict_get key (shared_after defaults merged config_dict) =
  match dict_get key defaults with
  | None => None
  | Some v =>
      Some match v, dict_get key config_dict, dict_get key merged with
           | JObj _, Some (JObj _), Some m => m
           | _, _, _ => v
           end
  end.
Proof.
  induction defaults as [| [k v] rest IH]; cbn [shared_after dict_get].
  - reflexivity.
  - destruct (String.eqb k key) eqn:E; [| exact IH].
    apply String.eqb_eq in E. subst k. reflexivity.
Qed.

(** X6. What the rules file says wins over the defaults: a setting of
    the file with a plain value (a number, a string, a list), at any depth,
    is the value of the loaded configuration at the same key path. *)
Theorem file_settings_override_defaults
  (path : option string) (document : Json.t) (defaults : dict)
  (keys : list string) (v : Json.t) :
  PyStr.truthy path = true ->
  unique_keys document = true ->
  keys <> [] ->
  get_path keys document = Some v ->
  is_object v = false ->
  exists cfg shared,
    _load_config path (FileJson document) defaults = Py.Returned (cfg, shared) /\
    get_path keys (JObj cfg) = Some v.
Proof.
  intros Hpath Hunique Hkeys Hget Hv. unfold _load_config. rewrite Hpath.
  cbn [negb].
  destruct document as [| | | | | config_dict];
    try (destruct keys; [congruence | discriminate Hget]).
  cbn [_merge_with_default Py.try_except]. eexists _, _.
  split; [reflexivity |]. apply deep_merge_present; assumption.
Qed.

(** X7. A load changes the class attribute [DEFAULT_CONFIG]: the merge
    works on a shallow copy, so a setting of the file below a top-level
    key whose default is a dictionary is written into the dictionary that
    [DEFAULT_CONFIG] holds.  A manager built afterwards without any file
    gets that setting, not the built-in default. *)
Theorem nested_override_changes_class_defaults
  (path : option string) (document : Json.t) (defaults : dict)
  (key : string) (keys : list string) (nested : dict) (v : Json.t) :
  PyStr.truthy path = true ->
  unique_keys document = true ->
  keys <> [] ->
  dict_get key defaults = Some (JObj nested) ->
  get_path (key :: keys) document = Some v ->
  is_object v = false ->
  exists first shared second shared',
    init path (FileJson document) defaults = Py.Returned (first, shared) /\
    init None FileMissing shared = Py.Returned (second, shared') /\
    get_path (key :: keys) (JObj shared) = Some v /\
    get_path (key :: keys) (JObj (config second)) = Some v.
Proof.
  intros Hpath Hunique Hkeys Hdefault Hget Hv. unfold init, _load_config.
  rewrite Hpath. cbn [negb PyStr.truthy].
  destruct document as [| | | | | config_dict]; try discriminate Hget.
  cbn [_merge_with_default Py.try_except Py.bind fst snd]. eexists _, _, _, _.
  split; [reflexivity |]. split; [reflexivity |]. cbn [config].
  assert (get_path (key :: keys)
            (JObj (shared_after defaults
                     (deep_merge (JObj config_dict) defaults) config_dict))
          = Some v) as Hshared; [| split; exact Hshared].
  pose proof (deep_merge_present (key :: keys) config_dict defaults v Hunique
                ltac:(discriminate) Hget Hv) as Hmerged.
  cbn [get_path] in *. rewrite shared_after_get, Hdefault.
  destruct (dict_get key config_dict) as [value |]; [| discriminate Hget].
  destruct value as [| | | | | nested_config];
    try (destruct keys; [congruence | discriminate Hget]).
  destruct (dict_get key (deep_merge (JObj config_dict) defaults));
    [exact Hmerged | discriminate Hmerged].
Qed.

(** The sample file sets the keep-active score to 10, and the loaded
    configuration holds 10. *)
Lemma file_settings_override_defaults_witness :
  exists cfg shared,
    _load_config (Some "rules.json"%string)
      (FileJson Examples.low_threshold_file) DEFAULT_CONFIG
      = Py.Returned (cfg, shared) /\
    get_path ["thresholds"; "keep_active"; "min_composite_score"]%string
      (JObj cfg) = Some (JNum 10).
Proof.
  apply (file_settings_override_defaults (Some "rules.json"%string)
           Examples.low_threshold_file DEFAULT_CONFIG
           ["thresholds"; "keep_active"; "min_composite_score"]%string
           (JNum 10)).
  - reflexivity.
  - reflexivity.
  - discriminate.
  - reflexivity.
  - reflexivity.
Defined.

(** The built-in keep-active score is 50; after the sample file is
    loaded once, a manager built without a file holds 10. *)
Lemma nested_override_changes_class_defaults_witness :
  get_path ["thresholds"; "keep_active"; "min_composite_score"]%string
    (JObj DEFAULT_CONFIG) = Some (JNum 50) /\
  exists first shared second shared',
    init (Some "rules.json"%string) (FileJson Examples.low_threshold_file)
      DEFAULT_CONFIG = Py.Returned (first, shared) /\
    init None FileMissing shared = Py.Returned (second, shared') /\
    get_path ["thresholds"; "keep_active"; "min_composite_score"]%string
      (JObj shared) = Some (JNum 10) /\
    get_path ["thresholds"; "keep_active"; "min_composite_score"]%string
      (JObj (config second)) = Some (JNum 10).
Proof.
  split; [reflexivity |].
  eapply (nested_override_changes_class_defaults (Some "rules.json"%string)
            Examples.low_threshold_file DEFAULT_CONFIG "thresholds"
            ["keep_active"; "min_composite_score"]%string).
  - reflexivity.
  - reflexivity.
  - discriminate.
  - reflexivity.
  - reflexivity.
  - reflexivity.
Defined.

End ConfigMergeProps.

(** ** The evaluation pass and the manual operations *)

Module LifecyclePassProps.

Import LifecycleRepository SeriesLifecycleEngine PyQFacts.

Lemma update_unknown_id table now series_id stage score notes :
  (forall r, In r table -> id r <> series_id) ->
  update_series_lifecycle_stage table now series_id stage score notes = table.
Proof.
  unfold update_series_lifecycle_stage.
  induction table as [| r rest IH]; intros Hid; cbn; [reflexivity |].
  rewrite IH by (intros r' Hr'; apply Hid; right; exact Hr').
  destruct (id r =? series_id) eqn:E; [| reflexivity].
  apply Z.eqb_eq in E. exfalso. apply (Hid r); [left; reflexivity | exact E].
Qed.

(** A member of the engine's class is equal to no member of the
    repository's class. *)
Lemma engine_stage_is_foreign stage member :
  stage_eqb (as_argument stage) member = false.
Proof. destruct member; reflexivity. Qed.

(** What the update does when the engine calls it: the stage, the score,
    the notes and the time of the evaluation are written, the two
    timestamps are not. *)
Lemma engine_update_row now stage score notes r :
  let r' := update_row now (as_argument stage) score notes r in
  id r' = id r /\
  lifecycle_stage r' = value stage /\
  grace_period_start r' = grace_period_start r /\
  archived_at r' = archived_at r /\
  last_evaluation_at r' = Some now /\
  metrics r' = metrics r.
Proof. cbn. repeat split. Qed.




















Lemma updated_row_unknown_id table now series_id stage score notes :
  (forall r, In r table -> id r <> series_id) ->
  updated_row table now series_id stage score notes = None.
Proof.
  intros Hid. unfold updated_row.
  destruct (List.filter _ table) as [| r rest] eqn:E; [reflexivity |].
  assert (Hr : In r (List.filter (fun r => id r =? series_id) table))
    by (rewrite E; left; reflexivity).
  apply filter_In in Hr as [Hr Hmatch]. apply Z.eqb_eq in Hmatch.
  exfalso. exact (Hid r Hr Hmatch).
Qed.

(** X10. A manual archive or restore of an id that no series has
    changes nothing and still reports success: the update finds no row
    and returns [None], and the engine does not look at that result. *)
Theorem manual_archive_of_unknown_series_reports_success
  (table : list row) (now series_id : Z) (reason : string) :
  (forall r, In r table -> id r <> series_id) ->
  updated_row table now series_id (as_argument ARCHIVED) None
    (Some ("Manual archive: " ++ reason)%string) = None /\
  force_archive_series table now series_id reason = (table, true) /\
  restore_series table now series_id reason = (table, true).
Proof.
  intros Hid. split; [apply updated_row_unknown_id, Hid |].
  unfold force_archive_series, restore_series.
  rewrite !update_unknown_id by exact Hid. split; reflexivity.
Qed.

(** X11. A manual archive records no archive date: [force_archive_series]
    names the stage by the engine's own [LifecycleStage.ARCHIVED], which
    is not the repository's, so the series gets the stage [archived], the
    note and the evaluation time while [archived_at] stays as it was.
    [restore_series] then puts the series back into [active_tracking];
    after both steps [archived_at], [grace_period_start] and the
    evaluation score are what they were before.  Called with the
    repository's own member the same update does set [archived_at]. *)
Theorem manual_archive_records_no_archive_date
  (table : list row) (archived restored series_id : Z)
  (why_archived why_restored : string) (r : row) :
  In r table -> id r = series_id ->
  let table1 := fst (force_archive_series table archived series_id why_archived) in
  let table2 := fst (restore_series table1 restored series_id why_restored) in
  (exists r1,
     In r1 table1 /\
     id r1 = series_id /\
     lifecycle_stage r1 = "archived"%string /\
     archived_at r1 = archived_at r /\
     grace_period_start r1 = grace_period_start r /\
     last_evaluation_at r1 = Some archived /\
     lifecycle_notes r1 = Some ("Manual archive: " ++ why_archived)%string) /\
  (exists r2,
     In r2 table2 /\
     id r2 = series_id /\
     lifecycle_stage r2 = "active_tracking"%string /\
     archived_at r2 = archived_at r /\
     grace_period_start r2 = grace_period_start r /\
     evaluation_score r2 = evaluation_score r /\
     last_evaluation_at r2 = Some restored /\
     lifecycle_notes r2 = Some ("Manual restore: " ++ why_restored)%string) /\
  archived_at
    (update_row archived (OwnMember LifecycleRepository.ARCHIVED) None
       (Some ("Manual archive: " ++ why_archived)%string) r)
  = Some archived.
Proof.
  intros Hr Hid. cbn zeta. unfold force_archive_series, restore_series.
  cbn [fst]. unfold update_series_lifecycle_stage. rewrite map_map.
  split; [| split; [| reflexivity]].
  - eexists. split.
    + apply in_map_iff. exists r. split; [reflexivity | exact Hr].
    + rewrite (proj2 (Z.eqb_eq _ _) Hid). cbn.
      repeat split; try reflexivity. exact Hid.
  - eexists. split.
    + apply in_map_iff. exists r. split; [reflexivity | exact Hr].
    + rewrite (proj2 (Z.eqb_eq _ _) Hid). cbn [update_row id].
      rewrite (proj2 (Z.eqb_eq _ _) Hid). cbn.
      repeat split; try reflexivity. exact Hid.
Qed.

(** No sample series has the id 99. *)
Lemma manual_archive_of_unknown_series_reports_success_witness :
  force_archive_series [Examples.boundary_row; Examples.overdue_row]
    Examples.now_us 99 "duplicate"
  = ([Examples.boundary_row; Examples.overdue_row], true).
Proof.
  apply (manual_archive_of_unknown_series_reports_success
           [Examples.boundary_row; Examples.overdue_row] Examples.now_us 99
           "duplicate").
  intros r [<- | [<- | []]]; vm_compute; discriminate.
Defined.

(** The overdue sample series was never archived: archived by hand it is
    in the stage [archived] and still has no archive date. *)
Lemma manual_archive_records_no_archive_date_witness :
  exists r1,
    In r1 (fst (force_archive_series [Examples.overdue_row] Examples.now_us 8
                  "duplicate")) /\
    lifecycle_stage r1 = "archived"%string /\
    archived_at r1 = None.
Proof.
  destruct (manual_archive_records_no_archive_date [Examples.overdue_row]
              Examples.now_us (Examples.now_us + day_us) 8 "duplicate"
              "archived by mistake" Examples.overdue_row)
    as [(r1 & Hin & _ & Hstage & Harchived & _) _].
  - left. reflexivity.
  - reflexivity.
  - exists r1. split; [exact Hin |]. split; [exact Hstage | exact Harchived].
Defined.

End LifecyclePassProps.

(** ** What the decision report says *)

Module DecisionReportProps.

Import Json LifecycleDecisionMaker PyQFacts.

Lemma round_half_even_comp x y :
  (x == y)%Q -> PyQ.round_half_even x = PyQ.round_half_even y.
Proof.
  intros H. unfold PyQ.round_half_even. rewrite (Qfloor_comp _ _ H).
  assert (Hc : (x - inject_Z (Qfloor y) ?= 1 # 2)%Q
               = (y - inject_Z (Qfloor y) ?= 1 # 2)%Q).
  { apply Qcompare_comp; [rewrite H |]; reflexivity. }
  rewrite Hc. reflexivity.
Qed.

Lemma round_zero x ndigits : (x == 0)%Q -> (PyQ.round x ndigits == 0)%Q.
Proof.
  intros H. unfold PyQ.round.
  rewrite (round_half_even_comp _ 0) by (rewrite H; ring).
  reflexivity.
Qed.

(** X12. A series without any metric (every value missing or [None])
    has the composite score 0 whenever the score can be computed, and with
    a positive keep-active score it is archived. *)
Theorem series_without_metrics_is_archived
  (rules : LifecycleRulesManager.t) (today : Z) (s : series) (score : Q)
  (thresholds : Json.t) (v : threshold_values) :
  popularity s = None -> favourites s = None -> trending s = None ->
  character_count s = None -> avg_character_trending s = None ->
  max_character_trending s = None ->
  _calculate_composite_score rules today s = Py.Returned score ->
  LifecycleRulesManager.get_thresholds rules = Py.Returned thresholds ->
  thresholds_read thresholds v ->
  (0 < keep_active_threshold v)%Q ->
  (score == 0)%Q /\
  exists d,
    make_lifecycle_decision rules today s = Py.Returned d /\
    verdict_action d = ARCHIVE.
Proof.
  intros Hpop Hfav Htrend Hcount Havg Hmax Hscore Hthresholds Hread Hkeep.
  assert (Hzero : (score == 0)%Q).
  { revert Hscore. unfold _calculate_composite_score, _apply_bonus_conditions.
    rewrite Hpop, Hfav, Htrend, Hcount, Havg, Hmax. cbn [float_or_0 int_or_0 default].
    destruct (LifecycleRulesManager.get_scoring_weights rules) as [weights |];
      [cbn [Py.bind] | discriminate].
    repeat match goal with
           | |- context [number_at weights ?p] =>
               destruct (number_at weights p); [cbn [Py.bind] | discriminate]
           end.
    destruct (LifecycleRulesManager.get_bonus_conditions rules) as [b |];
      [cbn [Py.bind] | discriminate].
    replace (PyQ.geb 0 80) with false by reflexivity. cbn [Py.bind].
    destruct (_is_current_season today s).
    - destruct (bonus_multiplier b "seasonal_relevance" (11 # 10)) as [m |];
        [cbn [Py.bind] | discriminate].
      intros [= <-]. apply round_zero. cbn [inject_Z]. ring.
    - cbn [Py.bind]. intros [= <-]. apply round_zero. cbn [inject_Z]. ring. }
  split; [exact Hzero |].
  unfold make_lifecycle_decision. rewrite Hscore, Hthresholds. cbn [Py.bind].
  destruct (LifecycleDecisionProps.evaluate_decision_action s score thresholds v
              Hread) as (d & Hd & Haction).
  rewrite Hd. cbn [Py.bind]. eexists. split; [reflexivity |].
  cbn [verdict_action]. rewrite Haction.
  rewrite Hpop, Htrend, Hcount, Hmax. cbn [float_or_0 int_or_0 default].
  replace (PyQ.geb score (keep_active_threshold v)) with false.
  - cbn [andb]. replace (PyQ.ltb 0 0) with false by reflexivity.
    cbn. rewrite andb_false_r. reflexivity.
  - symmetry. apply geb_lt. rewrite Hzero. exact Hkeep.
Qed.

(** X13. The factors reported with EXTEND_GRACE can contradict the
    rule that granted it: the rule counts a trending character as
    activity, the factor [has_activity] does not.  A series below the
    keep-active score, at or above the extend-grace score, with no
    popularity, trending or characters counted but a character with a
    positive trending score gets EXTEND_GRACE with [has_activity] false. *)
Theorem extend_grace_can_report_no_activity
  (s : series) (composite_score : Q) (thresholds : Json.t)
  (v : threshold_values) :
  thresholds_read thresholds v ->
  (keep_active_threshold v * extend_grace_ratio v <= composite_score)%Q ->
  (composite_score < keep_active_threshold v)%Q ->
  (float_or_0 (popularity s) <= 0)%Q ->
  (float_or_0 (trending s) <= 0)%Q ->
  int_or_0 (character_count s) <= 0 ->
  (0 < float_or_0 (max_character_trending s))%Q ->
  exists d,
    _evaluate_decision s composite_score thresholds = Py.Returned d /\
    decision_action d = EXTEND_GRACE /\
    decision_factors d
    = [("moderate_score"%string, true); ("has_activity"%string, false)].
Proof.
  intros (Hkeep & Hpop & Hfav & Hchar & Hratio) Hgrace Hlow Hp Ht Hc Hm.
  unfold _evaluate_decision.
  rewrite Hkeep, Hpop, Hfav, Hchar. cbn [Py.bind].
  rewrite (proj2 (geb_lt _ _) Hlow). cbn [andb].
  rewrite Hratio. cbn [Py.bind].
  rewrite (proj2 (geb_ge _ _) Hgrace), (proj2 (ltb_lt _ _) Hm),
    (proj2 (ltb_ge _ _) Hp), (proj2 (ltb_ge _ _) Ht),
    (proj2 (Z.ltb_ge _ _) Hc).
  cbn. eexists. repeat split.
Qed.

(** Under the default rules the series without metrics is archived. *)
Lemma series_without_metrics_is_archived_witness :
  exists d,
    make_lifecycle_decision Examples.default_rules Examples.today
      Examples.blank_series = Py.Returned d /\
    verdict_action d = ARCHIVE.
Proof.
  refine (proj2 (series_without_metrics_is_archived Examples.default_rules
                   Examples.today Examples.blank_series (0 # 100)
                   Examples.default_thresholds_json Examples.default_thresholds
                   _ _ _ _ _ _ _ _ _ _));
    try reflexivity.
  repeat split; vm_compute; reflexivity.
Defined.

(** With a keep-active score of 10 and a ratio of 0.7, a series that
    scores 8 on a character trending at 60 alone gets EXTEND_GRACE, and the
    report says that it has no activity. *)
Lemma extend_grace_can_report_no_activity_witness :
  exists d,
    _evaluate_decision Examples.character_only_series 8
      Examples.low_thresholds_json = Py.Returned d /\
    decision_action d = EXTEND_GRACE /\
    decision_factors d
    = [("moderate_score"%string, true); ("has_activity"%string, false)].
Proof.
  apply (extend_grace_can_report_no_activity Examples.character_only_series 8
           Examples.low_thresholds_json Examples.low_thresholds).
  - repeat split; vm_compute; reflexivity.
  - vm_compute; discriminate.
  - reflexivity.
  - vm_compute; discriminate.
  - vm_compute; discriminate.
  - vm_compute; discriminate.
  - reflexivity.
Defined.

End DecisionReportProps.

(** ** Retention clean-up *)

Module RetentionProps.

Import Calendar AggregationProcessor.

Lemma cleanup_loop_stats c now data kept stats :
  let result :=
    fold_left
      (fun (acc : list HistoricalData * cleanup_stats) x =>
         if should_keep c now x
         then (fst acc ++ [x], snd acc)
         else (fst acc, count_removed (aggregation_period x) (snd acc)))
      data (kept, stats) in
  stats_daily (snd result)
    = stats_daily stats + Z.of_nat (length (removed_of c now DAILY data)) /\
  stats_weekly (snd result)
    = stats_weekly stats + Z.of_nat (length (removed_of c now WEEKLY data)) /\
  stats_monthly (snd result)
    = stats_monthly stats + Z.of_nat (length (removed_of c now MONTHLY data)) /\
  stats_yearly (snd result)
    = stats_yearly stats + Z.of_nat (length (removed_of c now YEARLY data)).
Proof.
  revert kept stats. induction data as [| x rest IH]; intros kept stats.
  - cbn. lia.
  - cbn zeta. cbn [fold_left]. unfold removed_of. cbn [List.filter].
    destruct (should_keep c now x); cbn [negb andb fst snd].
    + apply IH.
    + specialize (IH kept (count_removed (aggregation_period x) stats)).
      cbn zeta in IH. unfold removed_of in IH.
      destruct IH as (Hd & Hw & Hm & Hy). rewrite Hd, Hw, Hm, Hy.
      destruct (aggregation_period x); cbn [count_removed stats_daily
        stats_weekly stats_monthly stats_yearly length]; lia.
Qed.

Lemma filter_split {A} (f : A -> bool) l :
  (length l = length (List.filter f l)
              + length (List.filter (fun x => negb (f x)) l))%nat.
Proof.
  induction l as [| x l IH]; cbn; [reflexivity |].
  destruct (f x); cbn; lia.
Qed.

Lemma removed_split c now data :
  (length (List.filter (fun x => negb (should_keep c now x)) data)
   = length (removed_of c now DAILY data) + length (removed_of c now WEEKLY data)
     + length (removed_of c now MONTHLY data)
     + length (removed_of c now YEARLY data))%nat.
Proof.
  unfold removed_of. induction data as [| x l IH]; cbn; [reflexivity |].
  destruct (should_keep c now x); cbn; [exact IH |].
  destruct (aggregation_period x); cbn; lia.
Qed.

(** X14. The retention clean-up accounts for every entry: each counter
    of [cleanup_stats] is the number of entries of its period type that
    were dropped, and the entries kept plus the entries counted are the
    entries given. *)
Theorem cleanup_accounts_for_every_entry
  (c : retention) (now : datetime) (data : list HistoricalData) :
  let kept := fst (cleanup_old_data c now data) in
  let stats := snd (cleanup_old_data c now data) in
  stats_daily stats = Z.of_nat (length (removed_of c now DAILY data)) /\
  stats_weekly stats = Z.of_nat (length (removed_of c now WEEKLY data)) /\
  stats_monthly stats = Z.of_nat (length (removed_of c now MONTHLY data)) /\
  stats_yearly stats = Z.of_nat (length (removed_of c now YEARLY data)) /\
  Z.of_nat (length kept) + total_removed stats = Z.of_nat (length data).
Proof.
  cbn zeta.
  destruct (cleanup_loop_stats c now data []
              {| stats_daily := 0; stats_weekly := 0;
                 stats_monthly := 0; stats_yearly := 0 |})
    as (Hd & Hw & Hm & Hy).
  fold (cleanup_old_data c now data) in Hd, Hw, Hm, Hy. cbn in Hd, Hw, Hm, Hy.
  repeat (split; [assumption |]).
  rewrite AggregationProps.cleanup_old_data_kept. unfold total_removed.
  rewrite Hd, Hw, Hm, Hy.
  pose proof (filter_split (should_keep c now) data).
  pose proof (removed_split c now data). lia.
Qed.

Lemma filter_idempotent {A} (f : A -> bool) l :
  List.filter f (List.filter f l) = List.filter f l.
Proof.
  induction l as [| x l IH]; cbn; [reflexivity |].
  destruct (f x) eqn:E; cbn; rewrite ?E, IH; reflexivity.
Qed.

Lemma removed_of_kept c now p data :
  removed_of c now p (List.filter (should_keep c now) data) = [].
Proof.
  unfold removed_of. induction data as [| x l IH]; cbn; [reflexivity |].
  destruct (should_keep c now x) eqn:E; cbn; rewrite ?E; cbn; exact IH.
Qed.

(** X15. Cleaning up is idempotent: run again at the same instant on
    what it kept, the clean-up keeps everything and counts nothing. *)
Theorem cleanup_is_idempotent
  (c : retention) (now : datetime) (data : list HistoricalData) :
  let kept := fst (cleanup_old_data c now data) in
  cleanup_old_data c now kept
  = (kept, {| stats_daily := 0; stats_weekly := 0;
              stats_monthly := 0; stats_yearly := 0 |}).
Proof.
  cbn zeta. rewrite AggregationProps.cleanup_old_data_kept.
  destruct (cleanup_loop_stats c now (List.filter (should_keep c now) data) []
              {| stats_daily := 0; stats_weekly := 0;
                 stats_monthly := 0; stats_yearly := 0 |})
    as (Hd & Hw & Hm & Hy).
  fold (cleanup_old_data c now (List.filter (should_keep c now) data))
    in Hd, Hw, Hm, Hy.
  pose proof (AggregationProps.cleanup_old_data_kept c now
                (List.filter (should_keep c now) data)) as Hkept.
  rewrite filter_idempotent in Hkept.
  rewrite removed_of_kept in Hd, Hw, Hm, Hy.
  destruct (cleanup_old_data c now (List.filter (should_keep c now) data))
    as [kept' [d w m y]].
  cbn in Hd, Hw, Hm, Hy, Hkept. subst d w m y kept'. reflexivity.
Qed.

End RetentionProps.

(** ** Sums and means of floats *)

Module QSumFacts.

Lemma sum_from xs :
  forall a, (fold_left Qplus xs a == a + fold_left Qplus xs 0)%Q.
Proof.
  induction xs as [| x xs IH]; intros a; cbn [fold_left].
  - ring.
  - rewrite (IH (a + x)%Q), (IH (0 + x)%Q). ring.
Qed.

Lemma sum_cons x xs :
  (fold_left Qplus (x :: xs) 0 == x + fold_left Qplus xs 0)%Q.
Proof. cbn [fold_left]. rewrite sum_from. ring. Qed.

(** A sum of [n] values between [lo] and [hi] lies between [n * lo] and
    [n * hi]. *)
Lemma sum_bounds lo hi xs :
  (forall y, In y xs -> lo <= y <= hi)%Q ->
  (inject_Z (Z.of_nat (length xs)) * lo <= fold_left Qplus xs 0
   <= inject_Z (Z.of_nat (length xs)) * hi)%Q.
Proof.
  induction xs as [| x xs IH]; intros Hall.
  - cbn [length fold_left]. change (inject_Z (Z.of_nat 0)) with 0%Q. lra.
  - rewrite sum_cons.
    destruct IH as [IHlo IHhi]; [intros y Hy; apply Hall; right; exact Hy |].
    destruct (Hall x (or_introl eq_refl)) as [Hlo Hhi].
    cbn [length]. rewrite Nat2Z.inj_succ. unfold Z.succ.
    rewrite inject_Z_plus. change (inject_Z 1) with 1%Q.
    generalize dependent (inject_Z (Z.of_nat (length xs))). intros n IHlo IHhi.
    split; lra.
Qed.

(** The mean of a non-empty list lies between any bounds of its
    values. *)
Lemma mean_bounds lo hi x xs :
  (forall y, In y (x :: xs) -> lo <= y <= hi)%Q ->
  (lo <= fold_left Qplus (x :: xs) 0 / inject_Z (Z.of_nat (length (x :: xs)))
   <= hi)%Q.
Proof.
  intros Hall. destruct (sum_bounds lo hi (x :: xs) Hall) as [Hlo Hhi].
  assert (Hn : (0 < inject_Z (Z.of_nat (length (x :: xs))))%Q).
  { replace 0%Q with (inject_Z 0) by reflexivity. rewrite <- Zlt_Qlt.
    cbn [length]. lia. }
  split.
  - apply Qle_shift_div_l; [exact Hn | lra].
  - apply Qle_shift_div_r; [exact Hn | lra].
Qed.

End QSumFacts.

(** ** Roll-ups *)

Module RollUpProps.

Import Calendar AggregationProcessor PyQFacts.

Lemma fold_add l a : fold_left Z.add l a = a + fold_left Z.add l 0.
Proof.
  revert a. induction l as [| x l IH]; intros a; cbn [fold_left]; [lia |].
  rewrite (IH (a + x)), (IH (0 + x)). lia.
Qed.

Lemma total_data_points_cons x l :
  total_data_points (x :: l) = data_points x + total_data_points l.
Proof. unfold total_data_points. cbn. now rewrite fold_add. Qed.

Lemma total_data_points_app l l' :
  total_data_points (l ++ l') = total_data_points l + total_data_points l'.
Proof.
  induction l as [| x l IH]; [reflexivity |].
  cbn [app]. rewrite !total_data_points_cons, IH. lia.
Qed.

Lemma add_to_window_points window item windows :
  window_points (add_to_window window item windows)
  = window_points windows + data_points item.
Proof.
  unfold window_points.
  induction windows as [| [w items] rest IH]; cbn [add_to_window].
  - unfold total_data_points. cbn. lia.
  - destruct (datetime_eqb w window); cbn [flat_map snd].
    + rewrite !total_data_points_app, total_data_points_cons.
      change (total_data_points []) with 0. lia.
    + rewrite !total_data_points_app, IH. lia.
Qed.

Lemma add_to_entity_points entity window item grouped :
  grouped_points (add_to_entity entity window item grouped)
  = grouped_points grouped + data_points item.
Proof.
  unfold grouped_points.
  induction grouped as [| [e windows] rest IH]; cbn [add_to_entity].
  - unfold total_data_points. cbn. lia.
  - destruct (e =? entity); cbn [flat_map snd].
    + rewrite !total_data_points_app.
      pose proof (add_to_window_points window item windows) as H.
      unfold window_points in H. rewrite H. lia.
    + rewrite !total_data_points_app, IH. lia.
Qed.

Lemma group_loop_points days data grouped :
  grouped_points
    (fold_left
       (fun grouped item =>
          add_to_entity (entity_id item)
            (_get_time_window (timestamp item) days) item grouped)
       data grouped)
  = grouped_points grouped + total_data_points data.
Proof.
  revert grouped. induction data as [| x rest IH]; intros grouped; cbn [fold_left].
  - unfold total_data_points. cbn. lia.
  - rewrite IH, add_to_entity_points, total_data_points_cons. lia.
Qed.

Lemma aggregated_window_points target_period entity windows :
  total_data_points
    (flat_map
       (fun '(window, items) =>
          match aggregate_entry target_period entity window items with
          | Some entry => [entry]
          | None => []
          end)
       windows)
  = window_points windows.
Proof.
  unfold window_points.
  induction windows as [| [w items] rest IH]; [reflexivity |].
  cbn [flat_map snd]. rewrite !total_data_points_app, IH. f_equal.
  destruct items as [| first others]; [reflexivity |].
  cbn [aggregate_entry]. rewrite total_data_points_cons.
  cbn [data_points]. unfold total_data_points. cbn. lia.
Qed.

(** X16. A roll-up loses and invents no data point: the data points of
    the aggregates add up to the data points of the entries given,
    whatever the target period and the window length. *)
Theorem roll_up_conserves_data_points
  (data : list HistoricalData) (target_period : AggregationPeriod) (days : Z) :
  total_data_points (_aggregate_data data target_period days)
  = total_data_points data.
Proof.
  unfold _aggregate_data.
  transitivity (grouped_points (group_data data days)).
  - unfold grouped_points.
    induction (group_data data days) as [| [e windows] rest IH]; [reflexivity |].
    cbn [flat_map snd]. rewrite !total_data_points_app, IH. f_equal.
    apply aggregated_window_points.
  - unfold group_data. rewrite group_loop_points. reflexivity.
Qed.

Lemma pymin_le_l x y : (PyQ.min x y <= x)%Q.
Proof. unfold PyQ.min. cases; lra. Qed.

Lemma pymin_le_r x y : (PyQ.min x y <= y)%Q.
Proof. unfold PyQ.min. cases; lra. Qed.

Lemma pymax_ge_l x y : (x <= PyQ.max x y)%Q.
Proof. unfold PyQ.max. cases; lra. Qed.

Lemma pymax_ge_r x y : (y <= PyQ.max x y)%Q.
Proof. unfold PyQ.max. cases; lra. Qed.

Lemma min_of_le xs : forall x y, In y (x :: xs) -> (min_of x xs <= y)%Q.
Proof.
  unfold min_of. induction xs as [| a xs IH]; intros x y; cbn [fold_left].
  - intros [<- | []]. lra.
  - intros [<- | [<- | Hy]].
    + eapply Qle_trans; [apply IH; left; reflexivity | apply pymin_le_l].
    + eapply Qle_trans; [apply IH; left; reflexivity | apply pymin_le_r].
    + apply IH. right. exact Hy.
Qed.

Lemma max_of_ge xs : forall x y, In y (x :: xs) -> (y <= max_of x xs)%Q.
Proof.
  unfold max_of. induction xs as [| a xs IH]; intros x y; cbn [fold_left].
  - intros [<- | []]. lra.
  - intros [<- | [<- | Hy]].
    + eapply Qle_trans; [apply pymax_ge_l | apply IH; left; reflexivity].
    + eapply Qle_trans; [apply pymax_ge_r | apply IH; left; reflexivity].
    + apply IH. right. exact Hy.
Qed.

Lemma mean_between x xs :
  (min_of x xs <= mean (x :: xs) <= max_of x xs)%Q.
Proof.
  unfold mean, sumQ. apply QSumFacts.mean_bounds.
  intros y Hy. split; [apply min_of_le | apply max_of_ge]; exact Hy.
Qed.

(** Every aggregated entry comes from one non-empty group. *)
Lemma aggregated_entry_origin data target_period days entry :
  In entry (_aggregate_data data target_period days) ->
  exists entity windows window first others,
    In (entity, windows) (group_data data days) /\
    In (window, first :: others) windows /\
    aggregate_entry target_period entity window (first :: others) = Some entry.
Proof.
  unfold _aggregate_data. rewrite in_flat_map.
  intros ([entity windows] & Hg & Hin). rewrite in_flat_map in Hin.
  destruct Hin as ([window items] & Hw & Hin).
  destruct items as [| first others]; [contradiction |].
  destruct Hin as [<- | []].
  exists entity, windows, window, first, others. auto.
Qed.

(** X17. Every aggregate of a roll-up carries its range: its metadata
    are present, its score, the mean of its entries, lies between the
    recorded [score_min] and [score_max], it stands for at least one entry,
    and it has the target period. *)
Theorem aggregated_score_within_recorded_range
  (data : list HistoricalData) (target_period : AggregationPeriod) (days : Z)
  (entry : HistoricalData) :
  In entry (_aggregate_data data target_period days) ->
  exists m,
    metadata entry = Some m /\
    (score_min m <= trending_score entry <= score_max m)%Q /\
    aggregation_period entry = target_period /\
    1 <= original_entries m.
Proof.
  intros Hin.
  destruct (aggregated_entry_origin _ _ _ _ Hin)
    as (entity & windows & window & first & others & _ & _ & Hentry).
  cbn [aggregate_entry] in Hentry. injection Hentry as <-.
  eexists. split; [reflexivity |]. cbn [metadata trending_score score_min
    score_max aggregation_period original_entries].
  split; [| split; [reflexivity | cbn [length]; lia]].
  change (map trending_score (first :: others))
    with (trending_score first :: map trending_score others).
  apply mean_between.
Qed.

(** X18. Two timestamps fall into the same weekly window exactly when
    they lie in the same week, Monday to Sunday, and have the same time of
    day. *)
Theorem weekly_bucket_needs_same_time_of_day (a b : datetime) :
  _get_time_window a 7 = _get_time_window b 7 <->
  (ordinal a + 6) / 7 = (ordinal b + 6) / 7 /\ time_of_day a = time_of_day b.
Proof.
  unfold _get_time_window, minus_days, weekday. cbn [Z.eqb Pos.eqb].
  pose proof (Z.div_mod (ordinal a + 6) 7 ltac:(lia)) as Ha.
  pose proof (Z.div_mod (ordinal b + 6) 7 ltac:(lia)) as Hb.
  split.
  - intros [= Hord Htime]. cbn [ordinal time_of_day] in *. split; [lia | exact Htime].
  - intros [Hweek Htime]. cbn [ordinal time_of_day]. f_equal; [lia | exact Htime].
Qed.

Lemma datetime_eqb_eq a b : datetime_eqb a b = true <-> a = b.
Proof.
  unfold datetime_eqb. rewrite andb_true_iff, !Z.eqb_eq.
  destruct a, b; cbn. split; [intros [-> ->]; reflexivity | intros [= -> ->]; auto].
Qed.

Lemma add_to_window_key w window item windows :
  In w (map fst (add_to_window window item windows)) ->
  w = window \/ In w (map fst windows).
Proof.
  induction windows as [| [w' items] rest IH]; cbn [add_to_window].
  - cbn. intuition.
  - destruct (datetime_eqb w' window); cbn; [tauto |].
    intros [<- | H]; [tauto |]. destruct (IH H); tauto.
Qed.

Lemma add_to_window_keys window item windows :
  List.NoDup (map fst windows) ->
  List.NoDup (map fst (add_to_window window item windows)).
Proof.
  induction windows as [| [w' items] rest IH]; cbn [add_to_window].
  - intros _. cbn. constructor; [intros [] | constructor].
  - destruct (datetime_eqb w' window) eqn:E; cbn [map fst]; [tauto |].
    intros Hnd. inversion Hnd as [| ? ? Hnot Hrest]; subst.
    constructor; [| apply IH, Hrest].
    intros Hin. destruct (add_to_window_key _ _ _ _ Hin) as [-> | H];
      [| contradiction].
    assert (datetime_eqb window window = true)
      by (apply datetime_eqb_eq; reflexivity).
    congruence.
Qed.

Lemma add_to_entity_key e entity window item grouped :
  In e (map fst (add_to_entity entity window item grouped)) ->
  e = entity \/ In e (map fst grouped).
Proof.
  induction grouped as [| [e' windows] rest IH]; cbn [add_to_entity].
  - cbn. intuition.
  - destruct (e' =? entity); cbn; [tauto |].
    intros [<- | H]; [tauto |]. destruct (IH H); tauto.
Qed.

Lemma add_to_entity_keys entity window item grouped :
  keys_distinct grouped ->
  keys_distinct (add_to_entity entity window item grouped).
Proof.
  unfold keys_distinct.
  induction grouped as [| [e' windows] rest IH]; cbn [add_to_entity].
  - intros _. split; cbn.
    + constructor; [intros [] | constructor].
    + repeat constructor. intros [].
  - intros [Hnd Hall].
    inversion Hnd as [| ? ? Hnot Hrest]; subst.
    inversion Hall as [| ? ? Hw Hall']; subst.
    destruct (e' =? entity) eqn:E; cbn [map fst snd].
    + split; [exact Hnd |]. constructor; [| exact Hall'].
      apply add_to_window_keys, Hw.
    + destruct (IH (conj Hrest Hall')) as [IHnd IHall].
      split; [| constructor; assumption].
      constructor; [| exact IHnd].
      intros Hin. destruct (add_to_entity_key _ _ _ _ _ Hin) as [-> | H];
        [| contradiction].
      rewrite Z.eqb_refl in E. discriminate.
Qed.

Lemma group_data_keys data days : keys_distinct (group_data data days).
Proof.
  unfold group_data.
  assert (H : keys_distinct []) by (split; constructor).
  revert H. generalize (@nil (Z * list (datetime * list HistoricalData))).
  induction data as [| x rest IH]; intros grouped H; cbn [fold_left];
    [exact H |].
  apply IH, add_to_entity_keys, H.
Qed.

Lemma aggregated_windows_keys target_period entity windows :
  List.NoDup (map fst windows) ->
  let entries :=
    flat_map
      (fun '(window, items) =>
         match aggregate_entry target_period entity window items with
         | Some entry => [entry]
         | None => []
         end)
      windows in
  List.NoDup (map aggregate_key entries) /\
  forall k, In k (map aggregate_key entries) ->
            fst k = entity /\ In (snd k) (map fst windows).
Proof.
  cbn zeta. induction windows as [| [w items] rest IH]; cbn [flat_map map fst].
  - intros _. split; [constructor | intros k []].
  - intros Hnd. inversion Hnd as [| ? ? Hnot Hrest]; subst.
    destruct (IH Hrest) as [IHnd IHkeys].
    destruct items as [| first others]; cbn [aggregate_entry app].
    + split; [exact IHnd |]. intros k Hk. destruct (IHkeys k Hk) as [He Hw].
      split; [exact He | right; exact Hw].
    + cbn [map aggregate_key entity_id timestamp]. split.
      * constructor; [| exact IHnd].
        intros Hin. destruct (IHkeys _ Hin) as [_ H]. contradiction.
      * intros k [<- | Hk]; [cbn; auto |]. destruct (IHkeys k Hk) as [He Hw].
        split; [exact He | right; exact Hw].
Qed.

(** X19. A roll-up returns at most one aggregate for an entity and a
    window: no two aggregates share both [entity_id] and [timestamp]. *)
Theorem one_aggregate_per_entity_and_window
  (data : list HistoricalData) (target_period : AggregationPeriod) (days : Z) :
  List.NoDup (map aggregate_key (_aggregate_data data target_period days)).
Proof.
  unfold _aggregate_data.
  destruct (group_data_keys data days) as [Hnd Hall].
  induction (group_data data days) as [| [e windows] rest IH];
    cbn [flat_map]; [constructor |].
  inversion Hnd as [| ? ? Hnot Hrest]; subst.
  inversion Hall as [| ? ? Hw Hall']; subst. cbn [snd] in Hw.
  destruct (aggregated_windows_keys target_period e windows Hw) as [Hhere Hkeys].
  rewrite map_app. apply List.NoDup_app; [exact Hhere | apply IH; assumption |].
  intros k Hk Hk'.
  destruct (Hkeys k Hk) as [He _]. apply Hnot.
  apply in_map_iff in Hk' as (x & <- & Hx).
  apply in_flat_map in Hx as ([e' windows'] & Hg & Hx).
  apply in_flat_map in Hx as ([w items] & _ & Hx).
  destruct items as [| first others]; [contradiction |].
  destruct Hx as [<- | []]. cbn in He. subst e'.
  apply in_map_iff. exists (e, windows'). auto.
Qed.

(** The two sample snapshots taken at ten o'clock roll up into one weekly
    aggregate, whose score lies between the recorded minimum and
    maximum. *)
Lemma aggregated_score_within_recorded_range_witness :
  exists entry m,
    In entry (aggregate_daily_to_weekly Examples.same_time_snapshots) /\
    metadata entry = Some m /\
    (score_min m <= trending_score entry <= score_max m)%Q.
Proof.
  assert (H : exists entry,
             In entry (_aggregate_data Examples.same_time_snapshots WEEKLY 7)).
  { eexists. vm_compute. left. reflexivity. }
  destruct H as [entry H].
  destruct (aggregated_score_within_recorded_range _ _ _ _ H)
    as (m & Hm & Hrange & _).
  exists entry, m. split; [exact H |]. split; [exact Hm | exact Hrange].
Defined.

(** A Tuesday and the Wednesday after it, both at ten o'clock, share their
    weekly window. *)
Lemma weekly_bucket_needs_same_time_of_day_witness :
  _get_time_window
    {| ordinal := Examples.today - 1; time_of_day := Examples.ten_am |} 7
  = _get_time_window
      {| ordinal := Examples.today; time_of_day := Examples.ten_am |} 7.
Proof.
  apply (proj2 (weekly_bucket_needs_same_time_of_day _ _)).
  split; reflexivity.
Defined.

End RollUpProps.

(** ** The status update of the engine *)

Module StatusUpdateProps.
Import LifecycleRepository SeriesLifecycleEngine.

Lemma fetched_series_not_due today m :
  status_transition_due today (status_update_record m) = Py.Returned false.
Proof.
  unfold status_transition_due, record_item. cbn.
  destruct (status m) as [s |]; cbn; [| reflexivity].
  destruct (String.eqb s "NOT_YET_RELEASED"); reflexivity.
Qed.

Lemma status_loop_unchanged now today rows :
  forall table errors,
    fold_left (update_status_of now today) (map status_update_record rows)
      (table, errors) = (table, errors).
Proof.
  induction rows as [| m rest IH]; intros table errors; [reflexivity |].
  cbn [map fold_left]. unfold update_status_of at 2.
  rewrite fetched_series_not_due. cbn [Py.bind fst snd]. apply IH.
Qed.

(** X20. The status update of the engine never moves a series into its
    grace period: the query behind it does not select [start_date], so the
    test [series.get('start_date')] fails for every fetched series; the
    table is left as it is and no error is recorded.  The test itself
    would pass for a record that carried a start date not after today. *)
Theorem status_update_never_starts_a_grace_period
  (table : list media_row) (now today : Z) :
  _update_series_status table now today = (table, []) /\
  forall (series : record) (day : Z),
    record_get "status" series = Some (Text "NOT_YET_RELEASED") ->
    record_get "start_date" series = Some (Date day) ->
    status_transition_due today series = Py.Returned (day <=? today).
Proof.
  split.
  - unfold _update_series_status, get_series_requiring_status_update.
    apply status_loop_unchanged.
  - intros series day Hstatus Hstart.
    unfold status_transition_due, record_item. rewrite Hstatus. cbn.
    rewrite Hstart. reflexivity.
Qed.

(** The announced sample series, whose start date has passed, is left in
    the stage [upcoming]. *)
Lemma status_update_never_starts_a_grace_period_witness :
  requires_status_update Examples.now_us Examples.upcoming_media = true /\
  _update_series_status [Examples.upcoming_media] Examples.now_us
    Examples.today = ([Examples.upcoming_media], []) /\
  status_transition_due Examples.today
    (("start_date"%string, Date (Examples.today - 3))
     :: status_update_record Examples.upcoming_media)
  = Py.Returned true.
Proof.
  split; [reflexivity |].
  destruct (status_update_never_starts_a_grace_period
              [Examples.upcoming_media] Examples.now_us Examples.today)
    as [Hsame Hdue].
  split; [exact Hsame |].
  apply (Hdue _ (Examples.today - 3)); reflexivity.
Defined.

End StatusUpdateProps.

(** ** The calculator: boosts, history and fallbacks *)

Module CalculatorBoostProps.

Import Calendar TrendingScoreCalculator PyQFacts.

(** X21. With limits that enclose 1 in the [growth_calculation]
    section, the growth multiplier lies within the limits for every
    character and every history, also when it falls back to 1.0 because the
    current favourites are unknown or zero or a weight is missing. *)
Theorem growth_multiplier_within_limits
  (c : config) (s : session) (now : datetime) (character_id : Z)
  (section : gmap string Q) (min_mult max_mult : Q) :
  c !! "growth_calculation"%string = Some section ->
  section !! "min_multiplier"%string = Some min_mult ->
  section !! "max_multiplier"%string = Some max_mult ->
  (min_mult <= 1 <= max_mult)%Q ->
  (min_mult <= calculate_growth_multiplier c s now character_id <= max_mult)%Q.
Proof.
  intros Hsection Hmin Hmax Hone. unfold calculate_growth_multiplier, item.
  unfold config in *. rewrite Hsection. cbn [Py.bind].
  destruct (_get_current_favourites s character_id) as [cur |];
    [| cbn; exact Hone].
  destruct (cur =? 0); [cbn; exact Hone |].
  destruct (growth_component s section now character_id cur 7 "weight_7_days");
    [cbn [Py.bind] | cbn; exact Hone].
  destruct (growth_component s section now character_id cur 30 "weight_30_days");
    [cbn [Py.bind] | cbn; exact Hone].
  destruct (growth_component s section now character_id cur 90 "weight_90_days");
    [cbn [Py.bind] | cbn; exact Hone].
  rewrite Hmax, Hmin. cbn [Py.bind or_on_error].
  unfold PyQ.max, PyQ.min. cases; lra.
Qed.




Lemma existsb_permutation {A} (f : A -> bool) l l' :
  Permutation l l' -> existsb f l = existsb f l'.
Proof.
  induction 1 as [| x l l' _ IH | x y l | l l' l'' _ IH1 _ IH2]; cbn.
  - reflexivity.
  - now rewrite IH.
  - destruct (f x), (f y); reflexivity.
  - congruence.
Qed.

(** X23. The role boost does not depend on the order of the
    appearances. *)
Theorem role_boost_ignores_order (c : config) (ch ch' : character) :
  Permutation (media_appearances ch) (media_appearances ch') ->
  calculate_role_boost c ch = calculate_role_boost c ch'.
Proof.
  intros Hperm. unfold calculate_role_boost.
  destruct (media_appearances ch) as [| a rest] eqn:E.
  - apply Permutation_nil in Hperm. rewrite Hperm. reflexivity.
  - destruct (media_appearances ch') as [| a' rest'] eqn:E'.
    + apply Permutation_sym, Permutation_nil in Hperm. discriminate.
    + destruct (item c "role_boosts") as [config |]; [cbn [Py.bind] | reflexivity].
      rewrite !(existsb_permutation _ _ _ (Permutation_map character_role Hperm)).
      reflexivity.
Qed.

(** X24. [calculate_trending_score] raises exactly when the base score
    cannot be computed, and then with the same exception: an error in any
    other component is caught, and the score falls back to the base
    score. *)
Theorem score_raises_only_with_base_score
  (c : config) (s : session) (now : datetime) (ch : character) (e : Py.exn) :
  calculate_trending_score c s now ch = Py.Raised e <->
  calculate_base_score c (favourites ch) = Py.Raised e.
Proof.
  unfold calculate_trending_score.
  destruct (calculate_base_score c (favourites ch)) as [b | e'] eqn:Ebase.
  - cbn [Py.bind].
    destruct (calculate_gender_boost c (gender ch)); cbn [Py.bind Py.try_except];
      [| rewrite ?Ebase; cbn; split; discriminate].
    destruct (calculate_role_boost c ch); cbn [Py.bind Py.try_except];
      [| rewrite ?Ebase; cbn; split; discriminate].
    destruct (calculate_recency_factor c now (last_fetched_at ch));
      cbn [Py.bind Py.try_except]; rewrite ?Ebase; cbn; split; discriminate.
  - cbn [Py.bind Py.try_except]. rewrite ?Ebase. cbn [Py.bind].
    split; intros [= ->]; reflexivity.
Qed.

(** X25. The fallback [config["unknown"]] of the gender boost is
    evaluated whatever the gender: with a [gender_boosts] section that
    lacks [unknown], the gender boost raises [KeyError] also for a listed
    gender, and every character gets its bare base score as trending
    score. *)
Theorem missing_unknown_gender_boost_gives_base_score
  (c : config) (s : session) (now : datetime) (ch : character)
  (section : gmap string Q) (b : R) :
  c !! "gender_boosts"%string = Some section ->
  section !! "unknown"%string = None ->
  calculate_base_score c (favourites ch) = Py.Returned b ->
  calculate_gender_boost c (gender ch) = Py.Raised Py.KeyError /\
  calculate_trending_score c s now ch
  = Py.Returned (b, FallbackComponents b Py.KeyError).
Proof.
  intros Hsection Hunknown Hbase.
  assert (Hgender : calculate_gender_boost c (gender ch) = Py.Raised Py.KeyError).
  { unfold calculate_gender_boost, item. unfold config in *.
    rewrite Hsection. cbn [Py.bind]. rewrite Hunknown. reflexivity. }
  split; [exact Hgender |].
  unfold calculate_trending_score. rewrite Hbase, Hgender. reflexivity.
Qed.

(** The row that the descending order puts first. *)
Lemma latest_row_spec (others : list history) :
  forall first,
    let best :=
      fold_left
        (fun best h =>
           if datetime_ltb (recorded_at best) (recorded_at h) then h else best)
        others first in
    In best (first :: others) /\
    forall h, In h (first :: others) ->
              instant (recorded_at h) <= instant (recorded_at best).
Proof.
  induction others as [| x rest IH]; intros first; cbn zeta; cbn [fold_left].
  - split; [left; reflexivity |]. intros h [<- | []]. lia.
  - specialize (IH (if datetime_ltb (recorded_at first) (recorded_at x)
                    then x else first)).
    cbn zeta in IH. destruct IH as [Hin Hmax].
    unfold datetime_ltb in *.
    destruct (instant (recorded_at first) <? instant (recorded_at x)) eqn:E.
    + apply Z.ltb_lt in E. split.
      * destruct Hin as [<- | Hin]; [right; left; reflexivity | right; right; exact Hin].
      * intros h [<- | [<- | Hh]].
        -- specialize (Hmax x (or_introl eq_refl)). lia.
        -- apply Hmax. left. reflexivity.
        -- apply Hmax. right. exact Hh.
    + apply Z.ltb_ge in E. split.
      * destruct Hin as [<- | Hin]; [left; reflexivity | right; right; exact Hin].
      * intros h [<- | [<- | Hh]].
        -- apply Hmax. left. reflexivity.
        -- specialize (Hmax first (or_introl eq_refl)). lia.
        -- apply Hmax. right. exact Hh.
Qed.

(** X26. The historical favourites of a character at a threshold are
    those of a row of that character recorded at or before the threshold,
    and no such row was recorded later; there is no value exactly when every
    row of the character was recorded after the threshold. *)
Theorem historical_favourites_are_the_latest_before_the_threshold
  (s : session) (character_id : Z) (date_threshold : datetime) :
  match _get_historical_favourites s character_id date_threshold with
  | Some v =>
      exists h,
        In h (favourites_history s) /\
        history_character_id h = character_id /\
        instant (recorded_at h) <= instant date_threshold /\
        history_favourites h = v /\
        forall h',
          In h' (favourites_history s) ->
          history_character_id h' = character_id ->
          instant (recorded_at h') <= instant date_threshold ->
          instant (recorded_at h') <= instant (recorded_at h)
  | None =>
      forall h,
        In h (favourites_history s) ->
        history_character_id h = character_id ->
        instant date_threshold < instant (recorded_at h)
  end.
Proof.
  unfold _get_historical_favourites.
  set (candidate := fun h =>
         (history_character_id h =? character_id) &&
         negb (datetime_ltb date_threshold (recorded_at h))).
  assert (Hcandidate : forall h,
             candidate h = true <->
             history_character_id h = character_id /\
             instant (recorded_at h) <= instant date_threshold).
  { intros h. unfold candidate, datetime_ltb.
    rewrite andb_true_iff, negb_true_iff, Z.eqb_eq, Z.ltb_ge. reflexivity. }
  destruct (List.filter candidate (favourites_history s)) as [| first others] eqn:E.
  - intros h Hh Hid.
    destruct (Z.lt_ge_cases (instant date_threshold) (instant (recorded_at h)))
      as [Hlt | Hge]; [exact Hlt |].
    assert (Hin : In h (List.filter candidate (favourites_history s)))
      by (apply filter_In; split; [exact Hh | apply Hcandidate; auto]).
    rewrite E in Hin. contradiction.
  - destruct (latest_row_spec others first) as [Hin Hmax].
    set (best := fold_left _ others first) in *.
    assert (Hbest : In best (List.filter candidate (favourites_history s)))
      by (rewrite E; exact Hin).
    apply filter_In in Hbest as [Hbest Hc]. apply Hcandidate in Hc as [Hid Hle].
    exists best. repeat split; try assumption.
    intros h' Hh' Hid' Hle'. apply Hmax. rewrite <- E.
    apply filter_In. split; [exact Hh' | apply Hcandidate; auto].
Qed.

Lemma base_score_value c section min_fav multiplier favourites :
  c !! "base_score"%string = Some section ->
  section !! "min_favourites"%string = Some min_fav ->
  section !! "multiplier"%string = Some multiplier ->
  0 <= favourites ->
  calculate_base_score c favourites
  = Py.Returned
      (log10 (Q2R (PyQ.max (inject_Z favourites) min_fav + 1))
       * Q2R multiplier)%R /\
  (1 <= Q2R (PyQ.max (inject_Z favourites) min_fav + 1))%R.
Proof.
  intros Hsection Hmin Hmult Hfav.
  assert (Hpos : (1 <= PyQ.max (inject_Z favourites) min_fav + 1)%Q).
  { assert (0 <= inject_Z favourites)%Q
      by (change (inject_Z 0 <= inject_Z favourites)%Q;
          rewrite <- Zle_Qle; exact Hfav).
    unfold PyQ.max. cases; lra. }
  split.
  - unfold calculate_base_score, item. unfold config in *.
    rewrite Hsection. cbn [Py.bind]. rewrite Hmin. cbn [Py.bind].
    destruct (Qle_bool (PyQ.max (inject_Z favourites) min_fav + 1) 0) eqn:E.
    + apply Qle_bool_iff in E. lra.
    + rewrite Hmult. reflexivity.
  - apply Qle_Rle in Hpos. rewrite RMicromega.Q2R_1 in Hpos. exact Hpos.
Qed.

(** X27. With a non-negative multiplier the base score never decreases
    when the favourites grow, and it is the same for all numbers of
    favourites up to [min_favourites]. *)
Theorem base_score_grows_with_favourites
  (c : config) (section : gmap string Q) (min_fav multiplier : Q)
  (favourites favourites' : Z) :
  c !! "base_score"%string = Some section ->
  section !! "min_favourites"%string = Some min_fav ->
  section !! "multiplier"%string = Some multiplier ->
  (0 <= multiplier)%Q ->
  0 <= favourites <= favourites' ->
  exists b b',
    calculate_base_score c favourites = Py.Returned b /\
    calculate_base_score c favourites' = Py.Returned b' /\
    (b <= b')%R /\
    ((inject_Z favourites' <= min_fav)%Q -> b = b').
Proof.
  intros Hsection Hmin Hmult Hnonneg [Hfav Hle].
  destruct (base_score_value c section min_fav multiplier favourites
              Hsection Hmin Hmult Hfav) as [Hb Hone].
  destruct (base_score_value c section min_fav multiplier favourites'
              Hsection Hmin Hmult ltac:(lia)) as [Hb' Hone'].
  eexists _, _. split; [exact Hb |]. split; [exact Hb' |].
  assert (Hq : (inject_Z favourites <= inject_Z favourites')%Q)
    by (rewrite <- Zle_Qle; exact Hle).
  split.
  - apply Rmult_le_compat_r.
    + apply Qle_Rle in Hnonneg. rewrite RMicromega.Q2R_0 in Hnonneg. exact Hnonneg.
    + unfold log10. apply Rmult_le_compat_r.
      * left. apply Rinv_0_lt_compat, CalculatorProps.ln_10_pos.
      * assert (Hmono : (PyQ.max (inject_Z favourites) min_fav + 1
                         <= PyQ.max (inject_Z favourites') min_fav + 1)%Q)
          by (unfold PyQ.max; cases; lra).
        apply Qle_Rle in Hmono.
        destruct Hmono as [Hlt | Heq]; [| rewrite Heq; lra].
        left. apply ln_increasing; lra.
  - intros Hfloor.
    assert (Hsame : (PyQ.max (inject_Z favourites) min_fav + 1
                     == PyQ.max (inject_Z favourites') min_fav + 1)%Q)
      by (unfold PyQ.max; cases; lra).
    rewrite (Qeq_eqR _ _ Hsame). reflexivity.
Qed.

(** The growth multiplier of the growing sample character lies between
    0.1 and 5. *)
Lemma growth_multiplier_within_limits_witness :
  (1 # 10 <= calculate_growth_multiplier _get_default_config
               Examples.recorded_session Examples.now 3 <= 5)%Q.
Proof.
  apply (growth_multiplier_within_limits _get_default_config
           Examples.recorded_session Examples.now 3 Examples.growth_section).
  - vm_compute; reflexivity.
  - vm_compute; reflexivity.
  - vm_compute; reflexivity.
  - split; discriminate.
Defined.


(** The two orders of the sample appearances give the same role boost. *)
Lemma role_boost_ignores_order_witness :
  calculate_role_boost _get_default_config
    (Examples.cast_member
       [Examples.supporting_appearance; Examples.main_appearance])
  = calculate_role_boost _get_default_config
      (Examples.cast_member
         [Examples.main_appearance; Examples.supporting_appearance]).
Proof.
  apply role_boost_ignores_order. apply perm_swap.
Defined.

(** Without the [base_score] section the score of the new sample
    character raises [KeyError]. *)
Lemma score_raises_only_with_base_score_witness :
  calculate_trending_score Examples.no_base_score_file Examples.fresh_session
    Examples.now Examples.new_character = Py.Raised Py.KeyError.
Proof.
  apply (proj2 (score_raises_only_with_base_score Examples.no_base_score_file
                  Examples.fresh_session Examples.now Examples.new_character
                  Py.KeyError)).
  vm_compute; reflexivity.
Defined.

(** The new sample character is listed as FEMALE; without the key
    [unknown] its score is its base score. *)
Lemma missing_unknown_gender_boost_gives_base_score_witness :
  exists b,
    calculate_trending_score Examples.no_unknown_gender_config
      Examples.fresh_session Examples.now Examples.new_character
    = Py.Returned (b, FallbackComponents b Py.KeyError).
Proof.
  destruct (base_score_value Examples.no_unknown_gender_config
              Examples.base_score_section 1 100 1200
              ltac:(vm_compute; reflexivity) ltac:(vm_compute; reflexivity)
              ltac:(vm_compute; reflexivity) ltac:(lia)) as [Hbase _].
  eexists.
  apply (missing_unknown_gender_boost_gives_base_score
           Examples.no_unknown_gender_config Examples.fresh_session
           Examples.now Examples.new_character
           (list_to_map [ ("FEMALE"%string, 14 # 10); ("MALE"%string, 1) ])%Q).
  - vm_compute; reflexivity.
  - vm_compute; reflexivity.
  - exact Hbase.
Defined.

(** The growing sample character had 1000 favourites 90 days ago: the
    value of its only row, recorded 100 days ago. *)
Lemma historical_favourites_are_the_latest_before_the_threshold_witness :
  exists h,
    In h (favourites_history Examples.recorded_session) /\
    history_character_id h = 3 /\
    history_favourites h = 1000.
Proof.
  pose proof (historical_favourites_are_the_latest_before_the_threshold
                Examples.recorded_session 3 (minus_days Examples.now 90)) as H.
  assert (E : _get_historical_favourites Examples.recorded_session 3
                (minus_days Examples.now 90) = Some 1000)
    by (vm_compute; reflexivity).
  rewrite E in H. destruct H as (h & Hin & Hid & _ & Hfav & _).
  exists h. split; [exact Hin |]. split; [exact Hid | exact Hfav].
Defined.

(** With the default configuration 1200 favourites score at least as
    much as none. *)
Lemma base_score_grows_with_favourites_witness :
  exists b b',
    calculate_base_score _get_default_config 0 = Py.Returned b /\
    calculate_base_score _get_default_config 1200 = Py.Returned b' /\
    (b <= b')%R.
Proof.
  destruct (base_score_grows_with_favourites _get_default_config
              Examples.base_score_section 1 100 0 1200)
    as (b & b' & Hb & Hb' & Hle & _).
  - vm_compute; reflexivity.
  - vm_compute; reflexivity.
  - vm_compute; reflexivity.
  - discriminate.
  - lia.
  - exists b, b'. split; [exact Hb |]. split; [exact Hb' | exact Hle].
Defined.

End CalculatorBoostProps.

(** ** The processor: boosts and the error record *)

Module ProcessorBoostProps.

Import TrendingProcessor PyQFacts.





















End ProcessorBoostProps.

(** ** The momentum of a short history *)

Module MomentumProps.

Import Calendar TrendingProcessor PyQFacts.

Lemma ltb_equiv a b c d :
  ((a < b)%Q <-> (c < d)%Q) -> PyQ.ltb a b = PyQ.ltb c d.
Proof.
  intros H. destruct (PyQ.ltb a b) eqn:E, (PyQ.ltb c d) eqn:E'; try reflexivity.
  - apply ltb_lt, H, ltb_lt in E. congruence.
  - apply ltb_lt, H, ltb_lt in E'. congruence.
Qed.

(** X30. With exactly two snapshots the momentum does not depend on
    the order in which they are given, and the older score is part of the
    recent average: the strong boost 1.3 needs a rise above 40%, the
    moderate boost 1.15 a rise above 20%, and the penalty 0.9 a fall below
    60% of the older score. *)
Theorem momentum_of_two_snapshots
  (older newer : AggregationProcessor.HistoricalData) :
  instant (AggregationProcessor.timestamp older)
  < instant (AggregationProcessor.timestamp newer) ->
  let s1 := AggregationProcessor.trending_score older in
  let s2 := AggregationProcessor.trending_score newer in
  _calculate_historical_momentum [newer; older]
  = _calculate_historical_momentum [older; newer] /\
  _calculate_historical_momentum [older; newer]
  = (if PyQ.ltb (s1 * (14 # 10)) s2 then 13 # 10
     else if PyQ.ltb (s1 * (12 # 10)) s2 then 115 # 100
     else if PyQ.ltb s2 (s1 * (6 # 10)) then 9 # 10
     else 1)%Q.
Proof.
  intros Hlt. cbn zeta.
  assert (Hsorted : sorted_by_time [older; newer] = [older; newer]).
  { unfold sorted_by_time. cbn. unfold datetime_ltb.
    rewrite (proj2 (Z.ltb_ge _ _)) by lia. reflexivity. }
  assert (Hsorted' : sorted_by_time [newer; older] = [older; newer]).
  { unfold sorted_by_time. cbn. unfold datetime_ltb.
    rewrite (proj2 (Z.ltb_lt _ _)) by lia. reflexivity. }
  unfold _calculate_historical_momentum. rewrite Hsorted, Hsorted'.
  split; [reflexivity |].
  cbn [length Nat.ltb Nat.leb last_n but_last_n skipn firstn Nat.sub map hd].
  unfold sumQ. cbn [fold_left].
  set (s1 := AggregationProcessor.trending_score older).
  set (s2 := AggregationProcessor.trending_score newer).
  rewrite (ltb_equiv (s1 * (12 # 10)) ((0 + s1 + s2) / 2) (s1 * (14 # 10)) s2).
  2: { split; intros H.
       - assert ((0 + s1 + s2) / 2 == (s1 + s2) * (1 # 2))%Q as E by field.
         rewrite E in H. lra.
       - assert ((0 + s1 + s2) / 2 == (s1 + s2) * (1 # 2))%Q as E by field.
         rewrite E. lra. }
  rewrite (ltb_equiv (s1 * (11 # 10)) ((0 + s1 + s2) / 2) (s1 * (12 # 10)) s2).
  2: { assert ((0 + s1 + s2) / 2 == (s1 + s2) * (1 # 2))%Q as E by field.
       rewrite E. split; intros H; lra. }
  rewrite (ltb_equiv ((0 + s1 + s2) / 2) (s1 * (8 # 10)) s2 (s1 * (6 # 10))).
  2: { assert ((0 + s1 + s2) / 2 == (s1 + s2) * (1 # 2))%Q as E by field.
       rewrite E. split; intros H; lra. }
  reflexivity.
Qed.

(** From 40 to 60 the score rose by one half: the momentum is 1.3. *)
Lemma momentum_of_two_snapshots_witness :
  _calculate_historical_momentum Examples.same_time_snapshots = (13 # 10)%Q.
Proof.
  destruct (momentum_of_two_snapshots
              (Examples.daily_entry 1 1 Examples.ten_am 40)
              (Examples.daily_entry 1 0 Examples.ten_am 60)) as [_ H].
  - vm_compute; reflexivity.
  - exact H.
Defined.

End MomentumProps.
